(** * Smithsonian provider script: a shallow embedding and its properties

    The development follows
    [src/cc_catalog_airflow/dags/provider_api_scripts/smithsonian.py].

    - Decoded JSON is an untyped Python value ([pyval]); a method the value
      does not have raises, exactly as in Python ([result]).
    - Objects decoded from the API are only ever read: they are association
      lists in decode order.  Dictionaries the script builds and updates
      ([DEFAULT_PARAMS], the query parameters, the meta data) are [gmap]s;
      the ones that are shared by reference live in a heap.
    - The two collaborators that are not part of the script, the delayed
      requester and the image store, are parameters of the driver.
    - Strings are byte strings and [lower] acts on the ASCII letters; the
      numbers of a decoded page are integers.
    - The [while] loop of the driver runs on fuel: [None] is the answer of
      a run that needs more condition tests than the fuel allows. *)

From Stdlib Require Import ZArith String Ascii List Sorted Lia.
From stdpp Require Import base gmap list strings fin_maps.

Local Open Scope string_scope.
Local Open Scope Z_scope.
Set Warnings "-register-all".

(** ** Python values and exceptions *)

Inductive pyval : Type :=
| PNone
| PBool (b : bool)
| PInt (n : Z)
| PStr (s : string)
| PList (l : list pyval)
| PDict (d : list (string * pyval)).

(** [InvalidRef] is not a Python exception: it is the model's answer for a
    reference that is not in the heap, which no Python program can hold. *)
Inductive exn : Type :=
| AttributeError | TypeError | KeyError | ValueError | InvalidRef.

Inductive result (A : Type) : Type :=
| Ok (a : A)
| Raise (e : exn).
Arguments Ok {A} a.
Arguments Raise {A} e.

#[global] Instance result_ret : MRet result := fun A a => Ok a.

#[global] Instance result_bind : MBind result := fun A B f m =>
  match m with
  | Ok a => f a
  | Raise e => Raise e
  end.

Definition is_Ok {A} (r : result A) : bool :=
  match r with Ok _ => true | Raise _ => false end.

(** ** The built-ins the script uses *)

Definition is_dict (v : pyval) : bool :=
  match v with PDict _ => true | _ => false end.

Definition is_list (v : pyval) : bool :=
  match v with PList _ => true | _ => false end.

Definition is_str (v : pyval) : bool :=
  match v with PStr _ => true | _ => false end.

(** Lookup in a decoded object. *)
Fixpoint dict_get (d : list (string * pyval)) (k : string) : option pyval :=
  match d with
  | [] => None
  | (k', v) :: d' => if String.eqb k k' then Some v else dict_get d' k
  end.

(** [v.get(k, dflt)]: only a dict has the method. *)
Definition py_get (v : pyval) (k : string) (dflt : pyval) : result pyval :=
  match v with
  | PDict d => Ok (default dflt (dict_get d k))
  | _ => Raise AttributeError
  end.

(** [v[k]] for a string key; indexing a list or a string with a string, or
    indexing a value that is not subscriptable, is a [TypeError]. *)
Definition py_getitem (v : pyval) (k : string) : result pyval :=
  match v with
  | PDict d =>
      match dict_get d k with
      | Some x => Ok x
      | None => Raise KeyError
      end
  | _ => Raise TypeError
  end.

(** Truth value of a Python object. *)
Definition truthy (v : pyval) : bool :=
  match v with
  | PNone => false
  | PBool b => b
  | PInt n => negb (n =? 0)
  | PStr s => negb (String.eqb s "")
  | PList l => match l with [] => false | _ => true end
  | PDict d => match d with [] => false | _ => true end
  end.

(** [v == s] for a string literal [s]. *)
Definition py_eq_str (v : pyval) (s : string) : bool :=
  match v with
  | PStr s' => String.eqb s' s
  | _ => false
  end.

Definition lower_ascii (c : ascii) : ascii :=
  let n := nat_of_ascii c in
  if ((65 <=? n)%nat && (n <=? 90)%nat)%bool then ascii_of_nat (n + 32) else c.

(** [str.lower] on the ASCII letters; other characters are kept. *)
Fixpoint lower (s : string) : string :=
  match s with
  | EmptyString => EmptyString
  | String c s' => String (lower_ascii c) (lower s')
  end.

(** [v.lower()]: only a string has the method. *)
Definition py_lower (v : pyval) : result string :=
  match v with
  | PStr s => Ok (lower s)
  | _ => Raise AttributeError
  end.

Fixpoint chars (s : string) : list pyval :=
  match s with
  | EmptyString => []
  | String c s' => PStr (String c EmptyString) :: chars s'
  end.

(** The elements a [for] loop or a comprehension sees. *)
Definition py_iter (v : pyval) : result (list pyval) :=
  match v with
  | PList l => Ok l
  | PStr s => Ok (chars s)
  | PDict d => Ok (map (fun kv => PStr (fst kv)) d)
  | _ => Raise TypeError
  end.

Definition int_of_bool (b : bool) : Z := if b then 1 else 0.

(** [a + b]. *)
Definition py_add (a b : pyval) : result pyval :=
  match a, b with
  | PList l1, PList l2 => Ok (PList (l1 ++ l2))
  | PStr s1, PStr s2 => Ok (PStr (s1 +:+ s2))
  | PInt n1, PInt n2 => Ok (PInt (n1 + n2))
  | PInt n1, PBool b2 => Ok (PInt (n1 + int_of_bool b2))
  | PBool b1, PInt n2 => Ok (PInt (int_of_bool b1 + n2))
  | PBool b1, PBool b2 => Ok (PInt (int_of_bool b1 + int_of_bool b2))
  | _, _ => Raise TypeError
  end.

(** [s + v] where the left operand is a string. *)
Definition str_add (s : string) (v : pyval) : result string :=
  match v with
  | PStr s' => Ok (s +:+ s')
  | _ => Raise TypeError
  end.

(** [n < v] where the left operand is an int. *)
Definition int_lt (n : Z) (v : pyval) : result bool :=
  match v with
  | PInt m => Ok (n <? m)
  | PBool b => Ok (n <? int_of_bool b)
  | _ => Raise TypeError
  end.

(** ** [_get_hash_prefixes] *)

Definition hex_digit (n : Z) : ascii :=
  if n <? 10 then ascii_of_nat (Z.to_nat (48 + n))
  else ascii_of_nat (Z.to_nat (87 + n)).

(** The [k] low hexadecimal digits of [n], most significant first. *)
Fixpoint hex_fixed (k : nat) (n : Z) : string :=
  match k with
  | O => ""
  | S k' => hex_fixed k' (n / 16) +:+ String (hex_digit (n mod 16)) ""
  end.

(** Number of hexadecimal digits of a natural number (one for zero). *)
Definition hex_len (n : Z) : nat :=
  if n <=? 0 then 1%nat else S (Z.to_nat (Z.log2 n / 4)).

(** [format(h, '0{width}x')] for a positive [width]: lowercase hexadecimal,
    padded with zeros on the left up to [width] characters, the sign
    counting as one. *)
Definition format_0x (width : Z) (h : Z) : string :=
  if h <? 0
  then "-" +:+ hex_fixed (Nat.max (Z.to_nat (width - 1)) (hex_len (- h))) (- h)
  else hex_fixed (Nat.max (Z.to_nat width) (hex_len h)) h.

Definition hex_value (c : ascii) : option Z :=
  let n := Z.of_nat (nat_of_ascii c) in
  if (48 <=? n) && (n <=? 57) then Some (n - 48)
  else if (97 <=? n) && (n <=? 102) then Some (n - 87)
  else if (65 <=? n) && (n <=? 70) then Some (n - 55)
  else None.

Fixpoint int16_from (acc : Z) (s : string) : result Z :=
  match s with
  | EmptyString => Ok acc
  | String c s' =>
      match hex_value c with
      | Some d => int16_from (16 * acc + d) s'
      | None => Raise ValueError
      end
  end.

(** [int(s, 16)] on a string of hexadecimal digits; the empty string is not
    a literal.  (Signs, blanks, underscores and the [0x] prefix, which
    [int] also accepts, do not occur in the strings the script builds.) *)
Definition int16 (s : string) : result Z :=
  match s with
  | EmptyString => Raise ValueError
  | _ => int16_from 0 s
  end.

(** [c * n] for a one-character string: empty when [n <= 0]. *)
Definition str_repeat (c : ascii) (n : Z) : string :=
  Nat.iter (Z.to_nat n) (String c) "".

(** [range(n)]. *)
Definition range (n : Z) : list Z :=
  map Z.of_nat (seq 0 (Z.to_nat n)).

(** The generator is modelled by the list of the values it yields; an
    exception raised before the first [yield] is the result [Raise]. *)
Definition _get_hash_prefixes (prefix_length : Z) : result (list string) :=
  let max_prefix := str_repeat "f" prefix_length in
  m ← int16 max_prefix;
  Ok (map (fun h => format_0x prefix_length h) (range (m + 1))).

(** ** Comprehensions, loops and [sorted] *)

(** A list comprehension with a condition: the condition is evaluated on
    every element, in order, and the first exception ends the evaluation. *)
Fixpoint filterM {A} (p : A → result bool) (l : list A) : result (list A) :=
  match l with
  | [] => Ok []
  | x :: l' =>
      b ← p x;
      r ← filterM p l';
      Ok (if (b : bool) then x :: r else r)
  end.

(** A [for] loop that updates local variables. *)
Fixpoint foldM {A B} (f : B → A → result B) (b : B) (l : list A) : result B :=
  match l with
  | [] => Ok b
  | x :: l' => b' ← f b x; foldM f b' l'
  end.

Fixpoint insert_by_key {A} (k : Z) (x : A) (l : list (Z * A)) : list (Z * A) :=
  match l with
  | [] => [(k, x)]
  | (k', y) :: l' =>
      if k' <? k then (k', y) :: insert_by_key k x l' else (k, x) :: (k', y) :: l'
  end.

(** Stable sort of a list decorated with its keys: an element is inserted
    in front of the elements that came after it and have the same key. *)
Definition stable_sort {A} (l : list (Z * A)) : list (Z * A) :=
  foldr (fun kx acc => insert_by_key (fst kx) (snd kx) acc) [] l.

Fixpoint keys_of {A} (key : A → result Z) (l : list A) : result (list (Z * A)) :=
  match l with
  | [] => Ok []
  | x :: l' => k ← key x; r ← keys_of key l'; Ok ((k, x) :: r)
  end.

(** [sorted(l, key=key)] for integer keys: the keys are computed first, one
    per element, and the sort is stable. *)
Definition sorted {A} (key : A → result Z) (l : list A) : result (list A) :=
  kl ← keys_of key l;
  Ok (map snd (stable_sort kl)).

(** ** Field extraction *)

Definition CREATOR_TYPES : gmap string Z :=
  list_to_map
    [ ("artist", 0); ("artist/maker", 0); ("attributed to", 0); ("author", 0);
      ("created_by", 0); ("creator", 0); ("model maker", 0);
      ("photographer", 0); ("photograph by", 0); ("written by", 0);
      ("architect", 1); ("designer", 1);
      ("compiled by", 2); ("engraver", 2); ("etcher", 2); ("maker", 2);
      ("silversmith", 2);
      ("print maker", 3); ("after", 3); ("inventor", 0);
      ("manufactured by", 4); ("manufacturer", 4); ("published by", 4);
      ("publisher", 4);
      ("patentee", 5) ].

Definition ZERO_URL : string :=
  "https://creativecommons.org/publicdomain/zero/1.0/".

Definition is_none (v : pyval) : bool :=
  match v with PNone => true | _ => false end.

Definition _get_foreign_landing_url (dnr_dict : pyval) : result pyval :=
  foreign_landing_url ← py_get dnr_dict "record_link" PNone;
  if is_none foreign_landing_url
  then py_get dnr_dict "guid" PNone
  else Ok foreign_landing_url.

(** The condition of the comprehension over [freetext.get('name', [])]. *)
Definition freetext_creator_cond (creator_types : gmap string Z) (i : pyval)
  : result bool :=
  if is_dict i then
    label ← py_get i "label" (PStr "");
    l ← py_lower label;
    match creator_types !! l with
    | Some _ => c ← py_get i "content" PNone; Ok (truthy c)
    | None => Ok false
    end
  else Ok false.

(** The sort key [lambda x: creator_types[x['label'].lower()]]. *)
Definition creator_rank (creator_types : gmap string Z) (x : pyval) : result Z :=
  label ← py_getitem x "label";
  l ← py_lower label;
  match creator_types !! l with
  | Some r => Ok r
  | None => Raise KeyError
  end.

(** The condition of the generator over [indexed_structured.get('name', [])]. *)
Definition indexed_creator_cond (i : pyval) : result bool :=
  if is_dict i then
    ty ← py_get i "type" (PStr "");
    l ← py_lower ty;
    if String.eqb l "personal_main"
    then c ← py_get i "content" PNone; Ok (truthy c)
    else Ok false
  else Ok false.

(** [next(g, None)] for the generator [(c['content'] for c in l)]. *)
Definition next_content (l : list pyval) : result pyval :=
  match l with
  | [] => Ok PNone
  | c :: _ => py_getitem c "content"
  end.

(** [next(g, None)] for the generator [(i['content'] for i in l if cond)]:
    the elements are examined lazily, up to the first one that qualifies. *)
Fixpoint next_indexed (l : list pyval) : result pyval :=
  match l with
  | [] => Ok PNone
  | i :: l' =>
      b ← indexed_creator_cond i;
      if (b : bool) then py_getitem i "content" else next_indexed l'
  end.

(** The list is sorted eagerly; the second generator evaluates its
    outermost iterable when it is created and its elements only on demand. *)
Definition _get_creator (indexed_structured freetext : pyval)
    (creator_types : gmap string Z) : result pyval :=
  names ← py_get freetext "name" (PList []);
  items ← py_iter names;
  selected ← filterM (freetext_creator_cond creator_types) items;
  ordered_freetext_creator_objects ← sorted (creator_rank creator_types) selected;
  indexed_names ← py_get indexed_structured "name" (PList []);
  indexed_items ← py_iter indexed_names;
  creator ← next_content ordered_freetext_creator_objects;
  if is_none creator then next_indexed indexed_items else Ok creator.

Definition label_is (note : pyval) (s : string) : result bool :=
  l ← py_get note "label" PNone;
  Ok (py_eq_str l s).

(** [' ' + note.get('content', '')]. *)
Definition spaced_content (note : pyval) : result string :=
  c ← py_get note "content" (PStr "");
  str_add " " c.

(** One iteration of the loop over the notes; the state is
    [(description, label_texts)]. *)
Definition note_step (acc : string * string) (note : pyval)
  : result (string * string) :=
  let '(description, label_texts) := acc in
  b ← label_is note "Description";
  if (b : bool) then s ← spaced_content note; Ok (description +:+ s, label_texts) else
  b ← label_is note "Summary";
  if (b : bool) then s ← spaced_content note; Ok (description +:+ s, label_texts) else
  b ← label_is note "Caption";
  if (b : bool) then s ← spaced_content note; Ok (description +:+ s, label_texts) else
  b ← label_is note "Label Text";
  if (b : bool) then s ← spaced_content note; Ok (description, label_texts +:+ s) else
  Ok (description, label_texts).

Definition nonempty (s : string) : bool := negb (String.eqb s "").

Definition _extract_meta_data (descriptive_non_repeating freetext : pyval)
  : result (gmap string pyval) :=
  notes ← py_get freetext "notes" (PList []);
  items ← py_iter notes;
  acc ← foldM note_step ("", "") items;
  let '(description, label_texts) := acc in
  unit_code ← py_get descriptive_non_repeating "unit_code" PNone;
  data_source ← py_get descriptive_non_repeating "data_source" PNone;
  let meta_data : gmap string pyval :=
    <["data_source" := data_source]> (<["unit_code" := unit_code]> ∅) in
  let meta_data :=
    if nonempty description
    then <["description" := PStr description]> meta_data else meta_data in
  let meta_data :=
    if nonempty label_texts
    then <["label_texts" := PStr label_texts]> meta_data else meta_data in
  Ok meta_data.

Definition _extract_tags (indexed_structured : pyval) : result pyval :=
  date ← py_get indexed_structured "date" (PList []);
  object_type ← py_get indexed_structured "object_type" (PList []);
  t1 ← py_add date object_type;
  topic ← py_get indexed_structured "topic" (PList []);
  t2 ← py_add t1 topic;
  place ← py_get indexed_structured "place" (PList []);
  tags ← py_add t2 place;
  Ok (if truthy tags then tags else PNone).

(** ** State: the heap of shared dictionaries and the two collaborators *)

(** The keyword arguments of one call of [image_store.add_item]. *)
Record ImageArgs : Type := {
  foreign_landing_url : pyval;
  image_url : pyval;
  thumbnail_url : pyval;
  license_url : pyval;
  foreign_identifier : pyval;
  title : pyval;
  creator : pyval;
  meta_data : gmap string pyval;
  raw_tags : pyval
}.

Abbreviation loc := positive.

(** [heap]: the dictionaries that are passed by reference.
    [requests]: the query parameters of the calls of
    [delayed_requester.get_response_json] so far, oldest first.
    [added]: the calls of [image_store.add_item] so far, oldest first. *)
Record State : Type := {
  heap : gmap loc (gmap string pyval);
  requests : list (gmap string pyval);
  added : list ImageArgs
}.

Definition M (A : Type) : Type := State → result (A * State).

#[global] Instance M_ret : MRet M := fun A a s => Ok (a, s).

#[global] Instance M_bind : MBind M := fun A B f m s =>
  match m s with
  | Ok (a, s') => f a s'
  | Raise e => Raise e
  end.

(** A computation that only reads its arguments. *)
Definition lift {A} (r : result A) : M A := fun s =>
  match r with
  | Ok a => Ok (a, s)
  | Raise e => Raise e
  end.

(** A [for] loop with effects. *)
Fixpoint forM {A B} (f : B → A → M B) (b : B) (l : list A) : M B :=
  match l with
  | [] => mret b
  | x :: l' => b' ← f b x; forM f b' l'
  end.

(** [d.copy()]: a new dictionary with the same items. *)
Definition dict_copy (d : loc) : M loc := fun s =>
  match heap s !! d with
  | Some items =>
      let d' := fresh (dom (heap s)) in
      Ok (d', {| heap := <[d' := items]> (heap s);
                 requests := requests s; added := added s |})
  | None => Raise InvalidRef
  end.

(** [d.update(k1=v1, k2=v2, ...)]: the dictionary is changed in place. *)
Definition dict_update (d : loc) (kvs : list (string * pyval)) : M unit := fun s =>
  match heap s !! d with
  | Some items =>
      let items' := foldl (fun m kv => <[fst kv := snd kv]> m) items kvs in
      Ok (tt, {| heap := <[d := items']> (heap s);
                 requests := requests s; added := added s |})
  | None => Raise InvalidRef
  end.

Definition HASH_PREFIX_LENGTH : Z := 2.
Definition LIMIT : Z := 1000.
Definition RETRIES : Z := 3.
Definition API_ROOT : string := "https://api.si.edu/openaccess/api/v1.0/".
Definition SEARCH_ENDPOINT : string := API_ROOT +:+ "search".

(** The module-level dictionary [DEFAULT_PARAMS] is the first object of the
    heap. *)
Definition DEFAULT_PARAMS : loc := 1%positive.

Definition _build_query_params (row_offset : Z) (hash_prefix : option string)
    (default_params : loc) (unit_code : option string) : M loc :=
  query_params ← dict_copy default_params;
  let query_string := "online_media_type:Images AND media_usage:CC0" in
  let query_string :=
    match hash_prefix with
    | Some h => query_string +:+ " AND hash:" +:+ h +:+ "*"
    | None => query_string
    end in
  let query_string :=
    match unit_code with
    | Some u => query_string +:+ " AND unit_code:" +:+ u
    | None => query_string
    end in
  _ ← dict_update query_params
        [("q", PStr query_string); ("start", PInt row_offset)];
  mret query_params.

Section Collaborators.

(** [common.storage.image] is not part of the script.  The value
    [add_item] returns is whatever the store reports after the calls it
    has received: [running_total] takes these calls, oldest first. *)
Variable running_total : list ImageArgs → Z.

(** [common.requester] is not part of the script.  [fetch n endpoint
    retries query_params] is the answer to the call number [n] (from zero)
    of [get_response_json]: the decoded JSON, or [PNone] once the retries
    are exhausted. *)
Variable fetch : nat → string → Z → gmap string pyval → pyval.

(** The value of the environment variable read into [API_KEY]. *)
Variable API_KEY : pyval.

Definition initial_state : State :=
  {| heap := {[ DEFAULT_PARAMS :=
                  <["rows" := PInt LIMIT]> (<["api_key" := API_KEY]> ∅) ]};
     requests := [];
     added := [] |}.

Definition add_item (args : ImageArgs) : M pyval := fun s =>
  let calls := (added s ++ [args])%list in
  Ok (PInt (running_total calls),
      {| heap := heap s; requests := requests s; added := calls |}).

Definition get_response_json (endpoint : string) (retries : Z)
    (query_params : loc) : M pyval := fun s =>
  match heap s !! query_params with
  | Some q =>
      Ok (fetch (length (requests s)) endpoint retries q,
          {| heap := heap s; requests := (requests s ++ [q])%list;
             added := added s |})
  | None => Raise InvalidRef
  end.

(** One iteration of the loop of [_process_image_list]; the state of the
    loop is [total_images]. *)
Definition image_step (landing_url title_ creator_ : pyval)
    (meta_data_ : gmap string pyval) (tags license_url_ : pyval)
    (total_images image_data : pyval) : M pyval :=
  ty ← lift (py_get image_data "type" PNone);
  if py_eq_str ty "Images" then
    usage ← lift (py_get image_data "usage" (PDict []));
    access ← lift (py_get usage "access" PNone);
    if py_eq_str access "CC0" then
      content ← lift (py_get image_data "content" PNone);
      thumbnail ← lift (py_get image_data "thumbnail" PNone);
      ids_id ← lift (py_get image_data "idsId" PNone);
      add_item {| foreign_landing_url := landing_url;
                  image_url := content;
                  thumbnail_url := thumbnail;
                  license_url := license_url_;
                  foreign_identifier := ids_id;
                  title := title_;
                  creator := creator_;
                  meta_data := meta_data_;
                  raw_tags := tags |}
    else mret total_images
  else mret total_images.

Definition _process_image_list (image_list landing_url title_ creator_ : pyval)
    (meta_data_ : gmap string pyval) (tags license_url_ : pyval) : M pyval :=
  items ← lift (py_iter image_list);
  forM (image_step landing_url title_ creator_ meta_data_ tags license_url_)
       PNone items.

(** One iteration of the loop of [_process_response_json]. *)
Definition row_step (total_images row : pyval) : M pyval :=
  content ← lift (py_get row "content" (PDict []));
  descriptive_non_repeating ←
    lift (py_get content "descriptiveNonRepeating" (PDict []));
  indexed_structured ← lift (py_get content "indexedStructured" (PDict []));
  freetext ← lift (py_get content "freetext" PNone);
  title_ ← lift (py_get row "title" PNone);
  landing_url ← lift (_get_foreign_landing_url descriptive_non_repeating);
  creator_ ← lift (_get_creator indexed_structured freetext CREATOR_TYPES);
  meta_data_ ← lift (_extract_meta_data descriptive_non_repeating freetext);
  tags ← lift (_extract_tags indexed_structured);
  online_media ←
    lift (py_get descriptive_non_repeating "online_media" (PDict []));
  image_list ← lift (py_get online_media "media" PNone);
  if is_none image_list then mret total_images
  else _process_image_list image_list landing_url title_ creator_
         meta_data_ tags (PStr ZERO_URL).

Definition _process_response_json (response_json : pyval) : M pyval :=
  response ← lift (py_get response_json "response" (PDict []));
  rows ← lift (py_get response "rows" (PList []));
  items ← lift (py_iter rows);
  forM row_step PNone items.

(** The body of the [while] loop of [_process_hash_prefix]: it returns
    the new values of [total_images] and [total_rows]. *)
Definition fetch_page (hash_prefix : option string) (endpoint : string)
    (retries : Z) (total_images : pyval) (row_offset : Z)
    (total_rows : pyval) : M (pyval * pyval) :=
  query_params ←
    _build_query_params row_offset hash_prefix DEFAULT_PARAMS None;
  response_json ← get_response_json endpoint retries query_params;
  if is_none response_json then mret (total_images, total_rows)
  else
    new_total ← _process_response_json response_json;
    let total_images :=
      if is_none new_total then total_images else new_total in
    response ← lift (py_get response_json "response" (PDict []));
    total_rows ← lift (py_get response "rowCount" (PInt 0));
    mret (total_images, total_rows).

(** The [while] loop, with a bound on the number of times its condition
    is evaluated: [None] when the bound is reached. *)
Fixpoint pages (fuel : nat) (hash_prefix : option string)
    (endpoint : string) (limit retries : Z) (total_images : pyval)
    (row_offset : Z) (total_rows : pyval) (s : State)
  : option (result (pyval * State)) :=
  match fuel with
  | O => None
  | S fuel' =>
      match int_lt row_offset total_rows with
      | Raise e => Some (Raise e)
      | Ok false => Some (Ok (total_rows, s))
      | Ok true =>
          match fetch_page hash_prefix endpoint retries total_images
                  row_offset total_rows s with
          | Raise e => Some (Raise e)
          | Ok ((total_images', total_rows'), s') =>
              pages fuel' hash_prefix endpoint limit retries total_images'
                (row_offset + limit) total_rows' s'
          end
      end
  end.

Definition _process_hash_prefix (fuel : nat) (hash_prefix : option string)
    (endpoint : string) (limit retries : Z) (s : State)
  : option (result (pyval * State)) :=
  pages fuel hash_prefix endpoint limit retries (PInt 0) 0 (PInt 1) s.

End Collaborators.

(** * Notions used in the statements *)

(** ** The hash partitioner *)

(** A digit, or a letter from a to f. *)
Definition is_lower_hex (c : ascii) : bool :=
  let n := Z.of_nat (nat_of_ascii c) in
  ((48 <=? n) && (n <=? 57)) || ((97 <=? n) && (n <=? 102)).

Fixpoint all_chars (p : ascii → bool) (s : string) : bool :=
  match s with
  | EmptyString => true
  | String c s' => p c && all_chars p s'
  end.

(** ** Reading a well-formed row *)

(** The field [k] of an entry, absent ([PNone]) when the entry has none. *)
Definition entry_field (e : pyval) (k : string) : pyval :=
  match e with
  | PDict d => default PNone (dict_get d k)
  | _ => PNone
  end.

(** The text of the field [k] of an entry, empty when there is none. *)
Definition str_field (e : pyval) (k : string) : string :=
  match entry_field e k with
  | PStr s => s
  | _ => ""
  end.

(** The array under [k], empty when there is none. *)
Definition array_field (d : list (string * pyval)) (k : string) : list pyval :=
  match dict_get d k with
  | Some (PList l) => l
  | _ => []
  end.

(** The field [k] is missing, or its value satisfies [p]. *)
Definition absent_or (p : pyval → bool) (d : list (string * pyval)) (k : string)
  : bool :=
  match dict_get d k with
  | Some v => p v
  | None => true
  end.

(** ** Tags *)

(** An indexed-structured object whose date is null. *)
Definition indexed_null_date : pyval :=
  PDict [("date", PNone); ("topic", PList [PStr "Birds"])].

(** An indexed-structured object whose four attributes are texts. *)
Definition indexed_four_texts : pyval :=
  PDict [("date", PStr "1900s"); ("object_type", PStr "Print");
         ("topic", PStr "Birds"); ("place", PStr "Peru")].

(** ** Meta data *)

(** A note is an object whose content, when it has one, is a text. *)
Definition note_ok (n : pyval) : bool :=
  match n with
  | PDict d => absent_or is_str d "content"
  | _ => false
  end.

(** The label of the note is one of [labels]. *)
Definition label_in (labels : list string) (n : pyval) : bool :=
  existsb (py_eq_str (entry_field n "label")) labels.

(** The contents, in encounter order, of the notes whose label is one of
    [labels]. *)
Definition labelled_contents (labels : list string) (notes : list pyval)
  : list string :=
  map (λ n, str_field n "content") (List.filter (label_in labels) notes).

(** Every content preceded by one space. *)
Definition space_prefixed (l : list string) : string :=
  foldr (λ c acc, " " +:+ c +:+ acc) "" l.

(** Contents separated by one space. *)
Fixpoint space_joined (l : list string) : string :=
  match l with
  | [] => ""
  | [c] => c
  | c :: l' => c +:+ " " +:+ space_joined l'
  end.

Definition description_labels : list string :=
  ["Description"; "Summary"; "Caption"].
Definition label_text_labels : list string := ["Label Text"].

(** The value under an optional key: none for the empty string. *)
Definition present_if_nonempty (s : string) : option pyval :=
  if nonempty s then Some (PStr s) else None.

(** Two notes, a description A and a summary B. *)
Definition notes_A_B : list pyval :=
  [ PDict [("label", PStr "Description"); ("content", PStr "A")];
    PDict [("label", PStr "Summary"); ("content", PStr "B")] ].

(** ** Creator *)

(** A name entry that is an object has a text under [k], when it has
    anything there. *)
Definition name_entry_ok (k : string) (e : pyval) : bool :=
  match e with
  | PDict d => absent_or is_str d k
  | _ => true
  end.

(** A freetext name entry that can give the creator: an object whose
    lower-cased label is a key of the table and whose content is not
    empty. *)
Definition freetext_candidate (ct : gmap string Z) (e : pyval) : bool :=
  is_dict e &&
  bool_decide (is_Some (ct !! lower (str_field e "label"))) &&
  truthy (entry_field e "content").

(** The priority rank of the role of an entry. *)
Definition rank_of (ct : gmap string Z) (e : pyval) : Z :=
  default 0 (ct !! lower (str_field e "label")).

(** An indexed-structured name entry that can give the creator. *)
Definition indexed_candidate (e : pyval) : bool :=
  is_dict e &&
  String.eqb (lower (str_field e "type")) "personal_main" &&
  truthy (entry_field e "content").

(** The order of the keys, on a list decorated with its keys. *)
Definition key_le {A} (a b : Z * A) : Prop := fst a ≤ fst b.

(** The indexed-structured name entries that are examined when the freetext
    gives no creator: the entries up to the first one that can give the
    creator, this one included. *)
Fixpoint examined (l : list pyval) : list pyval :=
  match l with
  | [] => []
  | e :: l' => if indexed_candidate e then [e] else e :: examined l'
  end.

(** A publisher (rank 4) listed before a creator (rank 0). *)
Definition names_publisher_creator : list pyval :=
  [ PDict [("label", PStr "Publisher"); ("content", PStr "PubCo")];
    PDict [("label", PStr "Creator"); ("content", PStr "ArtistX")] ].

(** A creator, then an entry whose label is null. *)
Definition names_creator_null_label : list pyval :=
  [ PDict [("label", PStr "Creator"); ("content", PStr "ArtistX")];
    PDict [("label", PNone)] ].

(** Indexed-structured names whose only entry has a number as type. *)
Definition indexed_names_numeric_type : list pyval :=
  [ PDict [("type", PInt 5)] ].

(** ** Effects *)

(** The state [s] after the calls [l] of [add_item]. *)
Definition with_added (s : State) (l : list ImageArgs) : State :=
  {| heap := heap s; requests := requests s; added := l |}.

(** A computation that leaves the heap and the requests as they are. *)
Definition store_only {A} (m : M A) : Prop :=
  ∀ s a s', m s = Ok (a, s') → heap s' = heap s ∧ requests s' = requests s.

(** ** Media entries *)

(** A media entry is an object; when its type is Images, its usage is an
    object or is missing. *)
Definition media_entry_ok (e : pyval) : bool :=
  match e with
  | PDict d =>
      if py_eq_str (default PNone (dict_get d "type")) "Images"
      then absent_or is_dict d "usage"
      else true
  | _ => false
  end.

(** The entry is an image in the public domain. *)
Definition qualifies (e : pyval) : bool :=
  py_eq_str (entry_field e "type") "Images" &&
  py_eq_str (entry_field (entry_field e "usage") "access") "CC0".

(** The record of a media entry of a row. *)
Definition record_of (landing_url title_ creator_ : pyval)
    (meta_data_ : gmap string pyval) (tags e : pyval) : ImageArgs :=
  {| foreign_landing_url := landing_url;
     image_url := entry_field e "content";
     thumbnail_url := entry_field e "thumbnail";
     license_url := PStr ZERO_URL;
     foreign_identifier := entry_field e "idsId";
     title := title_;
     creator := creator_;
     meta_data := meta_data_;
     raw_tags := tags |}.

(** A media list with one image in the public domain, one image under
    other conditions, and one video. *)
Definition media_mixed : list pyval :=
  [ PDict [("type", PStr "Images"); ("usage", PDict [("access", PStr "CC0")]);
           ("content", PStr "u1"); ("thumbnail", PStr "t1");
           ("idsId", PStr "id1")];
    PDict [("type", PStr "Images");
           ("usage", PDict [("access", PStr "Usage conditions apply")]);
           ("content", PStr "u2"); ("idsId", PStr "id2")];
    PDict [("type", PStr "Videos"); ("usage", PDict [("access", PStr "CC0")]);
           ("content", PStr "u3"); ("idsId", PStr "id3")] ].


(** A store that reports the number of calls it has received. *)
Definition count_calls (l : list ImageArgs) : Z := Z.of_nat (length l).

(** ** The pagination loop *)

(** [response_json.get('response', {}).get('rowCount', 0)]. *)
Definition row_count (response_json : pyval) : result pyval :=
  response ← py_get response_json "response" (PDict []);
  py_get response "rowCount" (PInt 0).

(** A page that reports [R] rows and whose rows are processed without an
    exception. *)
Definition page_ok (rt : list ImageArgs → Z) (R : Z) (r : pyval) : Prop :=
  row_count r = Ok (PInt R) ∧
  ∀ s, is_Ok (_process_response_json rt r s) = true.

(** The offsets of the requests, oldest first. *)
Definition starts (l : list (gmap string pyval)) : list (option pyval) :=
  map (λ q, q !! "start") l.

(** A requester whose every call fails. *)
Definition always_fail : nat → string → Z → gmap string pyval → pyval :=
  λ _ _ _ _, PNone.

(** A page of one row, reporting [R] rows in total. *)
Definition page (R : Z) : pyval :=
  PDict [("response", PDict
    [("rowCount", PInt R);
     ("rows", PList
        [PDict [("title", PStr "T");
                ("content", PDict
                   [("descriptiveNonRepeating", PDict
                       [("guid", PStr "g");
                        ("online_media", PDict [("media", PList media_mixed)])]);
                    ("indexedStructured", PDict []);
                    ("freetext", PDict [])])]])])].

(** A requester whose every call returns [page R]. *)
Definition always_page (R : Z) : nat → string → Z → gmap string pyval → pyval :=
  λ _ _ _ _, page R.

(** The first request fails, every later one returns a page reporting
    2500 rows. *)
Definition fail_first : nat → string → Z → gmap string pyval → pyval :=
  λ n _ _ _, match n with O => PNone | S _ => page 2500 end.

(** The offsets [0, P, 2P, ...] up to the first multiple of [P] that is not
    below [R], this multiple being counted or not. *)
Definition offsets_up_to (inclusive : bool) (P R : Z) : list (option pyval) :=
  let m := Z.to_nat ((R + P - 1) / P) in
  map (λ i, Some (PInt (Z.of_nat i * P)))
    (seq 0 (if inclusive then S m else m)).

(** The offsets requested for the shard 00 with the page limit [LIMIT], from
    the initial state, and the value returned. *)
Definition sweep_of (fetch : nat → string → Z → gmap string pyval → pyval)
    (fuel : nat) : option (pyval * list (option pyval)) :=
  match _process_hash_prefix count_calls fetch fuel (Some "00") SEARCH_ENDPOINT
          LIMIT RETRIES (initial_state PNone) with
  | Some (Ok (total_rows, s')) => Some (total_rows, starts (requests s'))
  | _ => None
  end.

(** ** A row without freetext *)

(** A row with media, whose content has no [freetext] key. *)
Definition row_without_freetext : pyval :=
  PDict [("title", PStr "T");
         ("content", PDict
            [("descriptiveNonRepeating", PDict
                [("guid", PStr "g");
                 ("online_media", PDict [("media", PList media_mixed)])]);
             ("indexedStructured", PDict [])])].

(** A page holding the single row [row]. *)
Definition response_with (row : pyval) : pyval :=
  PDict [("response", PDict [("rowCount", PInt 1); ("rows", PList [row])])].

(** * The rest of the script *)

(** ** Sampling ([_gather_unit_sample]) *)

(** [v == n] for an int literal [n]. *)
Definition py_eq_int (v : pyval) (n : Z) : bool :=
  match v with
  | PInt m => m =? n
  | PBool b => int_of_bool b =? n
  | _ => false
  end.

(** [v > n] for an int literal [n]. *)
Definition gt_int (v : pyval) (n : Z) : result bool :=
  match v with
  | PInt m => Ok (n <? m)
  | PBool b => Ok (n <? int_of_bool b)
  | _ => Raise TypeError
  end.

(** [response_json['response']['rowCount']]. *)
Definition indexed_row_count (response_json : pyval) : result pyval :=
  response ← py_getitem response_json "response";
  py_getitem response "rowCount".

(** The prefixes tried for a unit, shortest first. *)
Definition SAMPLE_PREFIXES : list (option string) :=
  [None; Some "a"; Some "aa"; Some "aaa"; Some "aaaa"; Some "aaaaa"].

(** The file written by [_gather_unit_sample]: its directory, its name and
    the JSON value that is dumped into it. *)
Record SampleFile : Type := {
  file_dir : string;
  file_name : string;
  file_json : pyval
}.

(** The loop of [_gather_unit_sample] over the prefixes that are left.  The
    function returns nothing; its effect besides the requests is the file
    it writes, which is the result here ([None] when no file is written).
    Writing the file is taken to succeed. *)
Fixpoint sample_loop (fetch : nat → string → Z → gmap string pyval → pyval)
    (unit sample_dir : string) (retries : Z) (endpoint : string)
    (prefixes : list (option string)) : M (option SampleFile) :=
  match prefixes with
  | [] => mret None
  | hash_prefix :: rest =>
      query_params ←
        _build_query_params 0 hash_prefix DEFAULT_PARAMS (Some unit);
      response_json ← get_response_json fetch endpoint retries query_params;
      if is_none response_json then mret None
      else
        n ← lift (indexed_row_count response_json);
        if py_eq_int n 0 then mret None
        else
          n ← lift (indexed_row_count response_json);
          too_many ← lift (gt_int n 10000);
          if (too_many : bool)
          then sample_loop fetch unit sample_dir retries endpoint rest
          else
            mret (Some {| file_dir := sample_dir;
                          file_name := unit +:+ ".json";
                          file_json := response_json |})
  end.

Definition _gather_unit_sample
    (fetch : nat → string → Z → gmap string pyval → pyval)
    (unit sample_dir : string) (retries : Z) (endpoint : string)
  : M (option SampleFile) :=
  sample_loop fetch unit sample_dir retries endpoint SAMPLE_PREFIXES.

(** ** The crawl ([main]) *)

(** The loop of [main] over the prefixes that are left; every shard gets
    the same fuel. *)
Fixpoint shards (running_total : list ImageArgs → Z)
    (fetch : nat → string → Z → gmap string pyval → pyval)
    (fuel : nat) (prefixes : list string) (s : State)
  : option (result (unit * State)) :=
  match prefixes with
  | [] => Some (Ok (tt, s))
  | hash_prefix :: rest =>
      match _process_hash_prefix running_total fetch fuel (Some hash_prefix)
              SEARCH_ENDPOINT LIMIT RETRIES s with
      | None => None
      | Some (Raise e) => Some (Raise e)
      | Some (Ok (_, s')) => shards running_total fetch fuel rest s'
      end
  end.

(** [main], up to the final [image_store.commit()]: the commit hands the
    records of [added] to the storage of the store, which is not part of
    the state, and its value is only logged. *)
Definition main (running_total : list ImageArgs → Z)
    (fetch : nat → string → Z → gmap string pyval → pyval)
    (fuel : nat) (s : State) : option (result (unit * State)) :=
  match _get_hash_prefixes HASH_PREFIX_LENGTH with
  | Raise e => Some (Raise e)
  | Ok prefixes => shards running_total fetch fuel prefixes s
  end.

(** * Notions used in the further statements *)

(** The value of [q] for a hash prefix and a unit code. *)
Definition query_string (hash_prefix unit_code : option string) : string :=
  "online_media_type:Images AND media_usage:CC0"
  +:+ match hash_prefix with
      | Some h => " AND hash:" +:+ h +:+ "*"
      | None => ""
      end
  +:+ match unit_code with
      | Some u => " AND unit_code:" +:+ u
      | None => ""
      end.

(** The query parameters built from the defaults [d]. *)
Definition request_of (d : gmap string pyval) (hash_prefix unit_code : option string)
    (row_offset : Z) : gmap string pyval :=
  <["start" := PInt row_offset]>
    (<["q" := PStr (query_string hash_prefix unit_code)]> d).

(** The requests of a sweep of [n] pages. *)
Definition sweep_requests (d : gmap string pyval) (hash_prefix : option string)
    (limit : Z) (n : nat) : list (gmap string pyval) :=
  map (λ i, request_of d hash_prefix None (Z.of_nat i * limit)) (seq 0 n).

(** The answer is a page whose [response] has the [rowCount] [n]. *)
Definition reports (a : pyval) (n : Z) : Prop :=
  a ≠ PNone ∧ indexed_row_count a = Ok (PInt n).

(** The requests of the sampling of a unit for the given prefixes. *)
Definition sample_requests (d : gmap string pyval) (unit : string)
    (prefixes : list (option string)) : list (gmap string pyval) :=
  map (λ hp, request_of d hp (Some unit) 0) prefixes.

(** A page reporting [n] rows and holding no row. *)
Definition count_page (n : Z) : pyval :=
  PDict [("response", PDict [("rowCount", PInt n); ("rows", PList [])])].

(** A requester that reports 20000 rows for the first [j] calls and 700
    rows afterwards. *)
Definition narrowing (j : nat) : nat → string → Z → gmap string pyval → pyval :=
  λ n _ _ _, if (n <? j)%nat then count_page 20000 else count_page 700.

(** The object under [k], empty when there is none. *)
Definition object_field (e : pyval) (k : string) : pyval :=
  match e with
  | PDict d => default (PDict []) (dict_get d k)
  | _ => PDict []
  end.

(** The field [k] of the object [e] is missing, or is a list of values
    that satisfy [p]. *)
Definition list_field_ok (p : pyval → bool) (e : pyval) (k : string) : bool :=
  match e with
  | PDict d =>
      match dict_get d k with
      | None => true
      | Some (PList l) => forallb p l
      | Some _ => false
      end
  | _ => false
  end.

(** The list under [k], empty when there is none. *)
Definition list_field (e : pyval) (k : string) : list pyval :=
  match e with
  | PDict d => array_field d k
  | _ => []
  end.

(** The landing URL: the record link, and the guid when there is no record
    link or a null one. *)
Definition landing_of (dnr : pyval) : pyval :=
  if is_none (entry_field dnr "record_link")
  then entry_field dnr "guid"
  else entry_field dnr "record_link".

(** The attributes of a row. *)
Definition row_dnr (row : pyval) : pyval :=
  object_field (object_field row "content") "descriptiveNonRepeating".
Definition row_indexed (row : pyval) : pyval :=
  object_field (object_field row "content") "indexedStructured".
Definition row_freetext (row : pyval) : pyval :=
  entry_field (object_field row "content") "freetext".
Definition row_media (row : pyval) : pyval :=
  entry_field (object_field (row_dnr row) "online_media") "media".

(** A row of the expected shape: objects where objects are read, with a
    freetext attribute, lists of well-formed entries where lists are
    read, and a media list that is missing, null, or a list of well-formed
    entries. *)
Definition row_ok (row : pyval) : bool :=
  is_dict row &&
  is_dict (object_field row "content") &&
  is_dict (row_dnr row) &&
  is_dict (row_indexed row) &&
  is_dict (row_freetext row) &&
  list_field_ok (name_entry_ok "label") (row_freetext row) "name" &&
  list_field_ok (name_entry_ok "type") (row_indexed row) "name" &&
  list_field_ok note_ok (row_freetext row) "notes" &&
  list_field_ok (λ _, true) (row_indexed row) "date" &&
  list_field_ok (λ _, true) (row_indexed row) "object_type" &&
  list_field_ok (λ _, true) (row_indexed row) "topic" &&
  list_field_ok (λ _, true) (row_indexed row) "place" &&
  is_dict (object_field (row_dnr row) "online_media") &&
  match row_media row with
  | PNone => true
  | PList l => forallb media_entry_ok l
  | _ => false
  end.

(** The records of a row: one for each qualifying entry of its media
    list, with the fields of the row that the extraction functions give. *)
Definition row_records (row : pyval) : list ImageArgs :=
  match _get_creator (row_indexed row) (row_freetext row) CREATOR_TYPES,
        _extract_meta_data (row_dnr row) (row_freetext row),
        _extract_tags (row_indexed row) with
  | Ok creator_, Ok meta_data_, Ok tags =>
      map (record_of (landing_of (row_dnr row)) (entry_field row "title")
             creator_ meta_data_ tags)
        (List.filter qualifies (list_field
           (object_field (row_dnr row) "online_media") "media"))
  | _, _, _ => []
  end.

(** [response_json.get('response', {}).get('rows', [])]. *)
Definition page_rows (response_json : pyval) : result pyval :=
  response ← py_get response_json "response" (PDict []);
  py_get response "rows" (PList []).

(** A note is an object; its content is a text, or is missing, when its
    label is one of those that are read. *)
Definition note_read_ok (n : pyval) : bool :=
  match n with
  | PDict d =>
      if label_in (description_labels ++ label_text_labels) n
      then absent_or is_str d "content"
      else true
  | _ => false
  end.

(** A name entry that is an object with a label that is not a text. *)
Definition bad_label (e : pyval) : bool :=
  match e with
  | PDict d =>
      match dict_get d "label" with
      | Some v => negb (is_str v)
      | None => false
      end
  | _ => false
  end.

(** A note that is an object with one of the labels that are read and a
    content that is not a text. *)
Definition bad_content (n : pyval) : bool :=
  match n with
  | PDict d =>
      label_in (description_labels ++ label_text_labels) n &&
      negb (absent_or is_str d "content")
  | _ => false
  end.

(** An int or a bool. *)
Definition is_number (v : pyval) : bool :=
  match v with
  | PInt _ | PBool _ => true
  | _ => false
  end.

(** A requester whose first page reports 2500 rows and whose later pages
    report 1500. *)
Definition shrinking : nat → string → Z → gmap string pyval → pyval :=
  λ n _ _ _, match n with O => page 2500 | S _ => page 1500 end.

(** The defaults of the initial state when [API_KEY] is not set. *)
Definition defaults_no_key : gmap string pyval :=
  <["rows" := PInt LIMIT]> (<["api_key" := PNone]> ∅).

(** A requester whose every answer is the object [a]. *)
Definition always (a : pyval) : nat → string → Z → gmap string pyval → pyval :=
  λ _ _ _ _, a.


(** Notes: a description, and a note of another label whose content is a
    number. *)
Definition notes_with_number : list pyval :=
  [ PDict [("label", PStr "Description"); ("content", PStr "A")];
    PDict [("label", PStr "Date"); ("content", PInt 1900)] ].

(** * Properties *)

(** ** Examples *)

Example hash_prefixes_1 :
  _get_hash_prefixes 1 =
  Ok ["0";"1";"2";"3";"4";"5";"6";"7";"8";"9";"a";"b";"c";"d";"e";"f"].
Proof. reflexivity. Qed.

Example creator_publisher_then_creator :
  _get_creator (PDict [])
    (PDict [("name", PList
       [ PDict [("label", PStr "Publisher"); ("content", PStr "PubCo")];
         PDict [("label", PStr "Creator"); ("content", PStr "ArtistX")] ])])
    CREATOR_TYPES
  = Ok (PStr "ArtistX").
Proof. reflexivity. Qed.

Example creator_creator_then_publisher :
  _get_creator (PDict [])
    (PDict [("name", PList
       [ PDict [("label", PStr "Creator"); ("content", PStr "ArtistX")];
         PDict [("label", PStr "Publisher"); ("content", PStr "PubCo")] ])])
    CREATOR_TYPES
  = Ok (PStr "ArtistX").
Proof. reflexivity. Qed.

Example creator_from_indexed :
  _get_creator
    (PDict [("name", PList
       [ PDict [("type", PStr "personal_main"); ("content", PStr "Jane")] ])])
    (PDict []) CREATOR_TYPES
  = Ok (PStr "Jane").
Proof. reflexivity. Qed.

Example creator_absent :
  _get_creator (PDict []) (PDict []) CREATOR_TYPES = Ok PNone.
Proof. reflexivity. Qed.

(** ** Strings *)

Lemma append_cons (c : ascii) (s1 s2 : string) :
  String c s1 +:+ s2 = String c (s1 +:+ s2).
Proof. reflexivity. Qed.

Lemma append_assoc (s1 s2 s3 : string) :
  (s1 +:+ s2) +:+ s3 = s1 +:+ (s2 +:+ s3).
Proof.
  induction s1 as [|c s1 IH]; [done|].
  by rewrite !append_cons, IH.
Qed.

Lemma append_empty_r (s : string) : s +:+ "" = s.
Proof. induction s as [|c s IH]; [done | by rewrite append_cons, IH]. Qed.

Lemma length_append (s1 s2 : string) :
  String.length (s1 +:+ s2) = (String.length s1 + String.length s2)%nat.
Proof.
  induction s1 as [|c s1 IH]; [done|].
  rewrite append_cons. simpl. by rewrite IH.
Qed.

(** ** The hash partitioner *)

Lemma all_chars_append p s1 s2 :
  all_chars p (s1 +:+ s2) = all_chars p s1 && all_chars p s2.
Proof.
  induction s1 as [|c s1 IH]; [done|].
  rewrite append_cons. simpl. by rewrite IH, andb_assoc.
Qed.

Lemma digit_cases (d : Z) :
  0 ≤ d < 16 →
  d ∈ [0; 1; 2; 3; 4; 5; 6; 7; 8; 9; 10; 11; 12; 13; 14; 15].
Proof.
  intros Hd. rewrite !elem_of_cons. lia.
Qed.

Lemma hex_value_hex_digit (d : Z) :
  0 ≤ d < 16 → hex_value (hex_digit d) = Some d.
Proof.
  intros Hd%digit_cases.
  repeat (apply elem_of_cons in Hd as [->|Hd]; [reflexivity|]).
  by apply elem_of_nil in Hd.
Qed.

Lemma is_lower_hex_hex_digit (d : Z) :
  0 ≤ d < 16 → is_lower_hex (hex_digit d) = true.
Proof.
  intros Hd%digit_cases.
  repeat (apply elem_of_cons in Hd as [->|Hd]; [reflexivity|]).
  by apply elem_of_nil in Hd.
Qed.

Lemma int16_from_append (acc : Z) (s1 s2 : string) :
  int16_from acc (s1 +:+ s2) = int16_from acc s1 ≫= λ a, int16_from a s2.
Proof.
  revert acc. induction s1 as [|c s1 IH]; intros acc; [done|].
  rewrite append_cons. simpl.
  destruct (hex_value c); [apply IH | done].
Qed.

Lemma int16_from_hex_fixed (k : nat) (n acc : Z) :
  int16_from acc (hex_fixed k n) = Ok (acc * 16 ^ Z.of_nat k + n mod 16 ^ Z.of_nat k).
Proof.
  revert n acc. induction k as [|k IH]; intros n acc.
  - simpl. rewrite Z.mod_1_r. f_equal. lia.
  - cbn [hex_fixed]. rewrite int16_from_append, IH. cbn.
    rewrite hex_value_hex_digit by (apply Z.mod_pos_bound; lia).
    f_equal. rewrite Nat2Z.inj_succ, Z.pow_succ_r by lia.
    rewrite (Z.rem_mul_r n 16 (16 ^ Z.of_nat k)) by lia. lia.
Qed.

Lemma length_hex_fixed (k : nat) (n : Z) : String.length (hex_fixed k n) = k.
Proof.
  revert n. induction k as [|k IH]; intros n; [done|].
  cbn [hex_fixed]. rewrite length_append, IH. simpl. lia.
Qed.

Lemma lower_hex_hex_fixed (k : nat) (n : Z) :
  all_chars is_lower_hex (hex_fixed k n) = true.
Proof.
  revert n. induction k as [|k IH]; intros n; [done|].
  cbn [hex_fixed]. rewrite all_chars_append, IH. simpl.
  rewrite is_lower_hex_hex_digit by (apply Z.mod_pos_bound; lia). done.
Qed.

Lemma hex_fixed_not_empty (k : nat) (n : Z) : (0 < k)%nat → hex_fixed k n ≠ "".
Proof.
  intros Hk Hs. pose proof (length_hex_fixed k n) as Hl.
  rewrite Hs in Hl. simpl in Hl. lia.
Qed.

Lemma hex_len_le (L : nat) (h : Z) :
  (1 ≤ L)%nat → 0 ≤ h < 16 ^ Z.of_nat L → (hex_len h ≤ L)%nat.
Proof.
  intros HL [Hh0 Hh]. unfold hex_len.
  destruct (Z.leb_spec h 0) as [Hz|Hpos]; [lia|].
  assert (Z.log2 h < 4 * Z.of_nat L) as Hlog.
  { apply Z.log2_lt_pow2; [done|].
    rewrite Z.pow_mul_r by lia. done. }
  assert (Z.log2 h / 4 < Z.of_nat L) by (apply Z.div_lt_upper_bound; lia).
  pose proof (Z.log2_nonneg h).
  assert (0 ≤ Z.log2 h / 4) by (apply Z.div_pos; lia).
  lia.
Qed.

Lemma format_0x_small (L : nat) (h : Z) :
  (1 ≤ L)%nat → 0 ≤ h < 16 ^ Z.of_nat L →
  format_0x (Z.of_nat L) h = hex_fixed L h.
Proof.
  intros HL Hh. unfold format_0x.
  destruct (Z.ltb_spec h 0) as [?|_]; [lia|].
  rewrite Nat2Z.id. f_equal. pose proof (hex_len_le L h HL Hh). lia.
Qed.

Lemma int16_from_repeat_f (n : nat) (acc : Z) :
  int16_from acc (Nat.iter n (String "f") "") = Ok ((acc + 1) * 16 ^ Z.of_nat n - 1).
Proof.
  revert acc. induction n as [|n IH]; intros acc.
  - simpl. f_equal. lia.
  - change (Nat.iter (S n) (String "f") "")
      with (String "f" (Nat.iter n (String "f") "")).
    cbn [int16_from]. change (hex_value "f") with (Some 15). cbv iota beta.
    rewrite IH, Nat2Z.inj_succ, Z.pow_succ_r by lia. f_equal. lia.
Qed.

Lemma int16_repeat_f (L : nat) :
  (1 ≤ L)%nat → int16 (str_repeat "f" (Z.of_nat L)) = Ok (16 ^ Z.of_nat L - 1).
Proof.
  intros HL. unfold str_repeat. rewrite Nat2Z.id.
  destruct L as [|n]; [lia|].
  change (Nat.iter (S n) (String "f") "")
    with (String "f" (Nat.iter n (String "f") "")).
  unfold int16.
  change (String "f" (Nat.iter n (String "f") ""))
    with (Nat.iter (S n) (String "f") "").
  rewrite (int16_from_repeat_f (S n) 0). f_equal. lia.
Qed.

Lemma int16_hex_fixed (L : nat) (h : Z) :
  (1 ≤ L)%nat → 0 ≤ h < 16 ^ Z.of_nat L → int16 (hex_fixed L h) = Ok h.
Proof.
  intros HL Hh. unfold int16.
  destruct (hex_fixed L h) eqn:E.
  - exfalso. by apply (hex_fixed_not_empty L h); [lia|].
  - rewrite <- E, int16_from_hex_fixed. f_equal.
    rewrite Z.mod_small by done. lia.
Qed.

Lemma get_hash_prefixes_eq (L : nat) :
  (1 ≤ L)%nat →
  _get_hash_prefixes (Z.of_nat L) =
  Ok ((λ i, hex_fixed L (Z.of_nat i)) <$> seq 0 (Z.to_nat (16 ^ Z.of_nat L))).
Proof.
  intros HL. unfold _get_hash_prefixes. rewrite int16_repeat_f by done.
  cbn. f_equal. unfold range.
  replace (16 ^ Z.of_nat L - 1 + 1) with (16 ^ Z.of_nat L) by lia.
  rewrite map_map. apply map_ext_in. intros i Hi%in_seq.
  apply format_0x_small; [done|].
  assert (0 < 16 ^ Z.of_nat L) by (apply Z.pow_pos_nonneg; lia). lia.
Qed.

(** C8, as amended: for every prefix length [L >= 1], [_get_hash_prefixes]
    yields exactly [16^L] strings, without repetition; the string at
    position [i] has [L] characters, all of them lowercase hexadecimal
    digits, and is the numeral of [i], so the strings come in increasing
    numeric order from [0] to [16^L - 1].  The function reads nothing but
    its argument. *)
Theorem hash_prefixes_enumeration (L : Z) :
  1 ≤ L →
  ∃ l : list string,
    _get_hash_prefixes L = Ok l ∧
    length l = Z.to_nat (16 ^ L) ∧
    NoDup l ∧
    ∀ (i : nat) (s : string), l !! i = Some s →
      String.length s = Z.to_nat L ∧
      all_chars is_lower_hex s = true ∧
      int16 s = Ok (Z.of_nat i).
Proof.
  intros HL.
  assert (∃ n : nat, L = Z.of_nat n ∧ (1 ≤ n)%nat) as (n & -> & Hn).
  { exists (Z.to_nat L). lia. }
  rewrite Nat2Z.id.
  assert (0 < 16 ^ Z.of_nat n) as Hpos by (apply Z.pow_pos_nonneg; lia).
  assert (∀ i : nat, (i < Z.to_nat (16 ^ Z.of_nat n))%nat →
            0 ≤ Z.of_nat i < 16 ^ Z.of_nat n) as Hrange by lia.
  eexists. split; [by apply get_hash_prefixes_eq|].
  split; [by rewrite length_fmap, length_seq|].
  split.
  - apply NoDup_fmap_2_strong; [|apply NoDup_seq].
    intros i j Hi%elem_of_seq Hj%elem_of_seq Heq.
    assert (int16 (hex_fixed n (Z.of_nat i)) = int16 (hex_fixed n (Z.of_nat j)))
      as Hint by (by rewrite Heq).
    rewrite !int16_hex_fixed in Hint by (done || apply Hrange; lia).
    injection Hint. lia.
  - intros i s. rewrite list_lookup_fmap.
    destruct (seq 0 (Z.to_nat (16 ^ Z.of_nat n)) !! i) as [j|] eqn:Hj; [|done].
    apply lookup_seq in Hj as [-> Hi]. simpl. intros [= <-].
    split; [apply length_hex_fixed|].
    split; [apply lower_hex_hex_fixed|].
    apply int16_hex_fixed; [done | apply Hrange; lia].
Qed.

Lemma hash_prefixes_enumeration_witness :
  1 ≤ HASH_PREFIX_LENGTH ∧
  ∃ l : list string,
    _get_hash_prefixes HASH_PREFIX_LENGTH = Ok l ∧
    length l = Z.to_nat (16 ^ HASH_PREFIX_LENGTH) ∧
    NoDup l ∧
    ∀ (i : nat) (s : string), l !! i = Some s →
      String.length s = Z.to_nat HASH_PREFIX_LENGTH ∧
      all_chars is_lower_hex s = true ∧
      int16 s = Ok (Z.of_nat i).
Proof.
  split; [unfold HASH_PREFIX_LENGTH; lia|].
  apply (hash_prefixes_enumeration HASH_PREFIX_LENGTH).
  unfold HASH_PREFIX_LENGTH; lia.
Defined.

(** C8, as stated, fails for the prefix length zero: [int('', 16)] raises,
    so the generator yields nothing, where [16^0 = 1] string is claimed. *)
Lemma hash_prefixes_length_zero :
  _get_hash_prefixes 0 = Raise ValueError ∧
  ¬ ∃ l : list string,
      _get_hash_prefixes 0 = Ok l ∧ length l = Z.to_nat (16 ^ 0).
Proof.
  split; [reflexivity|].
  intros (l & Hl & _). discriminate Hl.
Qed.

(** ** Tags *)

Lemma absent_or_list_get d k :
  absent_or is_list d k = true →
  default (PList []) (dict_get d k) = PList (array_field d k).
Proof.
  unfold absent_or, array_field.
  destruct (dict_get d k) as [[]|]; simpl; done.
Qed.

(** C7, as amended: for an indexed-structured object in which each of
    [date], [object_type], [topic] and [place] is an array or is missing,
    the tags are the concatenation of the four arrays in this order, a
    missing one counting as empty; the result is [None], not an empty
    list, when the concatenation is empty, and the list of the elements in
    this order otherwise. *)
Theorem extract_tags_concat (d : list (string * pyval)) :
  absent_or is_list d "date" = true →
  absent_or is_list d "object_type" = true →
  absent_or is_list d "topic" = true →
  absent_or is_list d "place" = true →
  _extract_tags (PDict d) =
  Ok (match (array_field d "date" ++ array_field d "object_type" ++
             array_field d "topic" ++ array_field d "place")%list with
      | [] => PNone
      | t => PList t
      end).
Proof.
  intros H1 H2 H3 H4. unfold _extract_tags, py_get.
  rewrite (absent_or_list_get _ _ H1), (absent_or_list_get _ _ H2),
    (absent_or_list_get _ _ H3), (absent_or_list_get _ _ H4).
  cbn. rewrite <- !app_assoc.
  by destruct (_ ++ _)%list.
Qed.

Lemma extract_tags_concat_witness :
  let d := [("date", PList [PStr "1900s"]); ("topic", PList [PStr "Birds"]);
            ("place", PList [])] in
  _extract_tags (PDict d) = Ok (PList [PStr "1900s"; PStr "Birds"]).
Proof.
  intros d.
  exact (extract_tags_concat d eq_refl eq_refl eq_refl eq_refl).
Defined.

(** C7, as stated, fails for an input whose attributes are not arrays: a
    null date makes [_extract_tags] raise [TypeError], so there are no tags
    at all, neither absent nor present, although the topic is an array with
    one element; and four texts give a text, which is not a sequence of
    elements.  A value that is not an object raises [AttributeError]. *)
Lemma tags_of_non_arrays :
  _extract_tags indexed_null_date = Raise TypeError ∧
  (¬ ∃ tags : pyval, _extract_tags indexed_null_date = Ok tags) ∧
  _extract_tags indexed_four_texts = Ok (PStr "1900sPrintBirdsPeru") ∧
  _extract_tags PNone = Raise AttributeError.
Proof.
  split; [reflexivity|]. split; [|split; reflexivity].
  intros [tags H]. discriminate H.
Qed.

Example tags_all_empty :
  _extract_tags (PDict [("date", PList []); ("place", PList [])]) = Ok PNone.
Proof. reflexivity. Qed.

(** ** Meta data *)

Lemma space_prefixed_nonempty (l : list string) :
  nonempty (space_prefixed l) = match l with [] => false | _ => true end.
Proof. by destruct l. Qed.

Lemma spaced_content_ok (d : list (string * pyval)) :
  absent_or is_str d "content" = true →
  spaced_content (PDict d) = Ok (" " +:+ str_field (PDict d) "content").
Proof.
  unfold absent_or, spaced_content, str_field, entry_field, py_get.
  destruct (dict_get d "content") as [[]|]; simpl; try done.
Qed.

Lemma note_step_ok (description label_texts : string) (n : pyval) :
  note_ok n = true →
  note_step (description, label_texts) n =
  Ok (description +:+ space_prefixed (labelled_contents description_labels [n]),
      label_texts +:+ space_prefixed (labelled_contents label_text_labels [n])).
Proof.
  destruct n as [| | | | |d]; try done. simpl. intros Hc.
  unfold note_step, label_is, labelled_contents, label_in. cbn -[spaced_content].
  rewrite (spaced_content_ok d Hc).
  destruct (default PNone (dict_get d "label")) as [| | |s| |];
    cbn; rewrite ?append_empty_r; try done.
  destruct (String.eqb_spec s "Description") as [->|?];
    [cbn; by rewrite ?append_empty_r|].
  destruct (String.eqb_spec s "Summary") as [->|?];
    [cbn; by rewrite ?append_empty_r|].
  destruct (String.eqb_spec s "Caption") as [->|?];
    [cbn; by rewrite ?append_empty_r|].
  destruct (String.eqb_spec s "Label Text") as [->|?];
    cbn; by rewrite ?append_empty_r.
Qed.

Lemma labelled_contents_cons labels (n : pyval) (notes : list pyval) :
  labelled_contents labels (n :: notes) =
  (labelled_contents labels [n] ++ labelled_contents labels notes)%list.
Proof.
  unfold labelled_contents. simpl.
  by destruct (label_in labels n).
Qed.

Lemma space_prefixed_app (l1 l2 : list string) :
  space_prefixed (l1 ++ l2) = space_prefixed l1 +:+ space_prefixed l2.
Proof.
  induction l1 as [|c l1 IH]; [done|].
  simpl. rewrite IH. by rewrite !append_assoc.
Qed.

Lemma notes_loop_ok (notes : list pyval) (description label_texts : string) :
  forallb note_ok notes = true →
  foldM note_step (description, label_texts) notes =
  Ok (description +:+ space_prefixed (labelled_contents description_labels notes),
      label_texts +:+ space_prefixed (labelled_contents label_text_labels notes)).
Proof.
  revert description label_texts.
  induction notes as [|n notes IH]; intros description label_texts Hok.
  - simpl. by rewrite !append_empty_r.
  - apply andb_prop in Hok as [Hn Hok].
    rewrite !(labelled_contents_cons _ n notes), !space_prefixed_app,
      <- !append_assoc.
    cbn [foldM]. rewrite (note_step_ok _ _ _ Hn).
    cbn [mbind result_bind]. apply (IH _ _ Hok).
Qed.

(** What [_extract_meta_data] returns for a row whose notes are objects
    with textual contents. *)
Lemma extract_meta_data_ok (dnr ft : list (string * pyval)) (notes : list pyval) :
  default (PList []) (dict_get ft "notes") = PList notes →
  forallb note_ok notes = true →
  ∃ md : gmap string pyval,
    _extract_meta_data (PDict dnr) (PDict ft) = Ok md ∧
    md !! "unit_code" = Some (default PNone (dict_get dnr "unit_code")) ∧
    md !! "data_source" = Some (default PNone (dict_get dnr "data_source")) ∧
    md !! "description" =
      present_if_nonempty
        (space_prefixed (labelled_contents description_labels notes)) ∧
    md !! "label_texts" =
      present_if_nonempty
        (space_prefixed (labelled_contents label_text_labels notes)).
Proof.
  intros Hnotes Hok. unfold _extract_meta_data, py_get.
  rewrite Hnotes. cbn [mbind result_bind py_iter].
  rewrite (notes_loop_ok notes "" "" Hok). cbn [mbind result_bind].
  change ("" +:+ ?s) with s.
  unfold present_if_nonempty.
  eexists. split; [reflexivity|].
  destruct (nonempty (space_prefixed (labelled_contents description_labels notes)));
    destruct (nonempty (space_prefixed (labelled_contents label_text_labels notes)));
    repeat split;
    repeat (first [ rewrite lookup_insert_eq
                  | rewrite lookup_insert_ne by done
                  | rewrite lookup_empty ]); done.
Qed.

(** C6, as amended: when the notes are objects with textual contents, the
    description is the concatenation, in encounter order, of the contents of
    the notes labelled Description, Summary or Caption, each content
    preceded by one space (so the contents A and B give " A B", with a
    leading space); the key [description] is in the mapping exactly when
    this string is not empty.  The same holds for the key [label_texts] and
    the notes labelled Label Text. *)
Theorem meta_data_description (dnr ft : list (string * pyval)) (notes : list pyval) :
  default (PList []) (dict_get ft "notes") = PList notes →
  forallb note_ok notes = true →
  ∃ md : gmap string pyval,
    _extract_meta_data (PDict dnr) (PDict ft) = Ok md ∧
    md !! "description" =
      present_if_nonempty
        (space_prefixed (labelled_contents description_labels notes)) ∧
    md !! "label_texts" =
      present_if_nonempty
        (space_prefixed (labelled_contents label_text_labels notes)).
Proof.
  intros Hnotes Hok.
  destruct (extract_meta_data_ok dnr ft notes Hnotes Hok)
    as (md & Hmd & _ & _ & Hd & Hl).
  by exists md.
Qed.

Lemma meta_data_description_witness :
  default (PList []) (dict_get [("notes", PList notes_A_B)] "notes")
    = PList notes_A_B ∧
  forallb note_ok notes_A_B = true ∧
  ∃ md : gmap string pyval,
    _extract_meta_data (PDict []) (PDict [("notes", PList notes_A_B)]) = Ok md ∧
    md !! "description" =
      present_if_nonempty
        (space_prefixed (labelled_contents description_labels notes_A_B)) ∧
    md !! "label_texts" =
      present_if_nonempty
        (space_prefixed (labelled_contents label_text_labels notes_A_B)).
Proof.
  split; [reflexivity|]. split; [reflexivity|].
  apply (meta_data_description [] [("notes", PList notes_A_B)] notes_A_B);
    reflexivity.
Defined.

(** C6, as stated, fails on its own example: the description of the notes
    with the contents A and B is " A B", not the space-joined "A B". *)
Lemma description_has_leading_space :
  space_joined (labelled_contents description_labels notes_A_B) = "A B" ∧
  ∃ md : gmap string pyval,
    _extract_meta_data (PDict []) (PDict [("notes", PList notes_A_B)]) = Ok md ∧
    md !! "description" = Some (PStr " A B") ∧
    md !! "description" ≠
      Some (PStr (space_joined (labelled_contents description_labels notes_A_B))).
Proof.
  split; [reflexivity|].
  eexists. split; [reflexivity|]. split; [reflexivity|].
  intros H. vm_compute in H. discriminate H.
Qed.

(** C9, as amended: for every row, whatever its notes, the keys
    [unit_code] and [data_source] are always in the mapping that
    [_extract_meta_data] returns; each carries the value found in the
    descriptive non-repeating attributes of the row, and [None] when the
    row has no such attribute. *)
Theorem meta_data_unit_code_data_source (descriptive_non_repeating freetext : pyval)
    (md : gmap string pyval) :
  _extract_meta_data descriptive_non_repeating freetext = Ok md →
  md !! "unit_code" = Some (entry_field descriptive_non_repeating "unit_code") ∧
  md !! "data_source" = Some (entry_field descriptive_non_repeating "data_source").
Proof.
  unfold _extract_meta_data. intros H.
  destruct (py_get freetext "notes" (PList [])) as [notes|x]; [|done].
  cbn [mbind result_bind] in H.
  destruct (py_iter notes) as [items|x]; [|done].
  cbn [mbind result_bind] in H.
  destruct (foldM note_step ("", "") items) as [[description label_texts]|x];
    [|done].
  cbn [mbind result_bind] in H.
  destruct descriptive_non_repeating as [| | | | |d]; try done.
  cbn [py_get mbind result_bind] in H. injection H as <-.
  unfold entry_field.
  destruct (nonempty description), (nonempty label_texts); split;
    repeat (first [ rewrite lookup_insert_eq
                  | rewrite lookup_insert_ne by done ]); done.
Qed.

Lemma meta_data_unit_code_data_source_witness :
  let dnr := PDict [("unit_code", PStr "NMNH"); ("guid", PStr "g1")] in
  let ft := PDict [("notes", PList notes_with_number)] in
  ∃ md : gmap string pyval,
    _extract_meta_data dnr ft = Ok md ∧
    md !! "unit_code" = Some (PStr "NMNH") ∧
    md !! "data_source" = Some PNone.
Proof.
  intros dnr ft.
  exists (<["description" := PStr " A"]>
            (<["data_source" := PNone]> (<["unit_code" := PStr "NMNH"]> ∅))).
  split; [vm_compute; reflexivity|].
  apply (meta_data_unit_code_data_source dnr ft).
  vm_compute; reflexivity.
Defined.

(** C9, as stated, fails for a row without unit code and data source: both
    keys are in the mapping, with the value [None]. *)
Lemma meta_data_keys_present_when_missing :
  ∃ md : gmap string pyval,
    _extract_meta_data (PDict []) (PDict []) = Ok md ∧
    md !! "unit_code" = Some PNone ∧
    md !! "data_source" = Some PNone ∧
    ¬ (md !! "unit_code" = None ∧ md !! "data_source" = None).
Proof.
  eexists. split; [reflexivity|]. split; [reflexivity|]. split; [reflexivity|].
  intros [H _]. vm_compute in H. discriminate H.
Qed.

(** ** Creator *)

Lemma filterM_ok {A} (p : A → result bool) (q : A → bool) (l : list A) :
  (∀ x, x ∈ l → p x = Ok (q x)) →
  filterM p l = Ok (List.filter q l).
Proof.
  induction l as [|x l IH]; intros Hp; [done|].
  cbn [filterM List.filter].
  rewrite (Hp x) by apply list_elem_of_here. cbn [mbind result_bind].
  rewrite IH by (intros y Hy; apply Hp; by apply list_elem_of_further).
  by destruct (q x).
Qed.

Lemma keys_of_ok {A} (key : A → result Z) (r : A → Z) (l : list A) :
  (∀ x, x ∈ l → key x = Ok (r x)) →
  keys_of key l = Ok (map (λ x, (r x, x)) l).
Proof.
  induction l as [|x l IH]; intros Hk; [done|].
  cbn [keys_of map].
  rewrite (Hk x) by apply list_elem_of_here. cbn [mbind result_bind].
  by rewrite IH by (intros y Hy; apply Hk; by apply list_elem_of_further).
Qed.

(** [stable_sort] is a sort: its result is a rearrangement of the list, in
    nondecreasing order of the keys. *)
Lemma insert_by_key_perm {A} (k : Z) (x : A) (l : list (Z * A)) :
  insert_by_key k x l ≡ₚ (k, x) :: l.
Proof.
  induction l as [|[k' y] l IH]; [done|].
  cbn [insert_by_key]. destruct (k' <? k); [|done].
  rewrite IH. apply Permutation_swap.
Qed.

Lemma stable_sort_perm {A} (l : list (Z * A)) : stable_sort l ≡ₚ l.
Proof.
  induction l as [|[k x] l IH]; [done|].
  cbn [stable_sort foldr fst snd]. rewrite insert_by_key_perm.
  by apply Permutation_skip.
Qed.

Lemma insert_by_key_sorted {A} (k : Z) (x : A) (l : list (Z * A)) :
  StronglySorted key_le l → StronglySorted key_le (insert_by_key k x l).
Proof.
  induction 1 as [|[k' y] l Hs IH Hall]; cbn [insert_by_key].
  - repeat constructor.
  - destruct (Z.ltb_spec k' k) as [Hlt|Hge].
    + constructor; [done|].
      rewrite Forall_forall. intros b Hb.
      rewrite insert_by_key_perm in Hb.
      apply elem_of_cons in Hb as [->|Hb].
      * unfold key_le. simpl. lia.
      * rewrite Forall_forall in Hall. by apply Hall.
    + constructor; [by constructor|].
      constructor; [unfold key_le; simpl; lia|].
      eapply Forall_impl; [exact Hall|].
      intros b Hb. unfold key_le in *. simpl in *. lia.
Qed.

Lemma stable_sort_sorted {A} (l : list (Z * A)) :
  StronglySorted key_le (stable_sort l).
Proof.
  induction l as [|[k x] l IH]; [constructor|].
  cbn [stable_sort foldr fst snd]. by apply insert_by_key_sorted.
Qed.

(** The head of the sorted list is the first of the elements of least
    key. *)
Lemma stable_sort_head {A} (r : A → Z) (x : A) (l : list A) :
  ∃ (e : A) (rest : list (Z * A)) (l1 l2 : list A),
    stable_sort (map (λ x, (r x, x)) (x :: l)) = (r e, e) :: rest ∧
    x :: l = (l1 ++ e :: l2)%list ∧
    (∀ y, y ∈ l1 → r e < r y) ∧
    (∀ y, y ∈ l2 → r e ≤ r y).
Proof.
  revert x. induction l as [|a l IH]; intros x.
  - exists x, [], [], []. repeat split; intros y Hy; by apply elem_of_nil in Hy.
  - destruct (IH a) as (e & rest & l1 & l2 & Hs & Hl & H1 & H2).
    change (stable_sort (map (λ x, (r x, x)) (x :: a :: l)))
      with (insert_by_key (r x) x (stable_sort (map (λ x, (r x, x)) (a :: l)))).
    rewrite Hs. cbn [insert_by_key].
    destruct (Z.ltb_spec (r e) (r x)) as [Hlt|Hge].
    + exists e, (insert_by_key (r x) x rest), (x :: l1), l2.
      split; [done|]. split; [by rewrite Hl|].
      split; [|done].
      intros y [->|Hy]%elem_of_cons; [done | by apply H1].
    + exists x, ((r e, e) :: rest), [], (a :: l).
      split; [done|]. split; [done|].
      split; [intros y Hy; by apply elem_of_nil in Hy|].
      intros y Hy. rewrite Hl in Hy.
      apply elem_of_app in Hy as [Hy|[->|Hy]%elem_of_cons].
      * specialize (H1 y Hy). lia.
      * done.
      * specialize (H2 y Hy). lia.
Qed.

Lemma get_label_ok (d : list (string * pyval)) (k : string) :
  absent_or is_str d k = true →
  default (PStr "") (dict_get d k) = PStr (str_field (PDict d) k).
Proof.
  unfold absent_or, str_field, entry_field.
  destruct (dict_get d k) as [[]|]; simpl; done.
Qed.

Lemma freetext_creator_cond_ok (ct : gmap string Z) (e : pyval) :
  name_entry_ok "label" e = true →
  freetext_creator_cond ct e = Ok (freetext_candidate ct e).
Proof.
  destruct e as [| | | | |d]; try done. simpl. intros Hl.
  unfold freetext_creator_cond, freetext_candidate, py_get.
  cbn [is_dict mbind result_bind andb].
  rewrite (get_label_ok d "label" Hl). cbn [py_lower mbind result_bind].
  destruct (ct !! lower (str_field (PDict d) "label")) as [r|] eqn:Hr.
  - rewrite bool_decide_eq_true_2 by eauto. done.
  - rewrite bool_decide_eq_false_2 by (intros [? ?]; done). done.
Qed.

Lemma candidate_content (e : pyval) :
  truthy (entry_field e "content") = true →
  py_getitem e "content" = Ok (entry_field e "content").
Proof.
  destruct e as [| | | | |d]; try done. simpl.
  by destruct (dict_get d "content").
Qed.

Lemma creator_rank_ok (ct : gmap string Z) (e : pyval) :
  ct !! "" = None →
  name_entry_ok "label" e = true →
  freetext_candidate ct e = true →
  creator_rank ct e = Ok (rank_of ct e).
Proof.
  intros Hct Hl Hc. destruct e as [| | | | |d]; try done.
  unfold freetext_candidate in Hc.
  apply andb_prop in Hc as [Hc _]. apply andb_prop in Hc as [_ Hc].
  apply bool_decide_eq_true_1 in Hc as [r Hr].
  unfold creator_rank, rank_of. rewrite Hr. simpl in Hl.
  unfold str_field, entry_field in Hr. unfold absent_or in Hl.
  unfold py_getitem.
  destruct (dict_get d "label") as [v|] eqn:Hv; simpl in Hr.
  - destruct v; try done. simpl. by rewrite Hr.
  - simpl in Hr. congruence.
Qed.

Lemma indexed_creator_cond_ok (e : pyval) :
  name_entry_ok "type" e = true →
  indexed_creator_cond e = Ok (indexed_candidate e).
Proof.
  destruct e as [| | | | |d]; try done. simpl. intros Hl.
  unfold indexed_creator_cond, indexed_candidate, py_get.
  cbn [is_dict mbind result_bind andb].
  rewrite (get_label_ok d "type" Hl). cbn [py_lower mbind result_bind].
  by destruct (String.eqb _ _).
Qed.

Lemma next_indexed_ok (l : list pyval) :
  forallb (name_entry_ok "type") l = true →
  next_indexed l =
  Ok (match List.find indexed_candidate l with
      | Some e => entry_field e "content"
      | None => PNone
      end).
Proof.
  induction l as [|e l IH]; intros Hok; [done|].
  apply andb_prop in Hok as [He Hok].
  cbn [next_indexed List.find].
  rewrite (indexed_creator_cond_ok e He). cbn [mbind result_bind].
  destruct (indexed_candidate e) eqn:Hc; [|by apply IH].
  apply candidate_content.
  unfold indexed_candidate in Hc. by apply andb_prop in Hc as [_ Hc].
Qed.

Lemma filter_candidates (q : pyval → bool) (l : list pyval) (x : pyval) :
  x ∈ List.filter q l → x ∈ l ∧ q x = true.
Proof.
  rewrite list_elem_of_In, filter_In, <- list_elem_of_In. done.
Qed.

Lemma forallb_elem (p : pyval → bool) (l : list pyval) (x : pyval) :
  forallb p l = true → x ∈ l → p x = true.
Proof.
  rewrite forallb_forall, list_elem_of_In. auto.
Qed.

(** The lazy generator reads the entries up to the first candidate and no
    further. *)
Lemma next_indexed_examined (l : list pyval) :
  forallb (name_entry_ok "type") (examined l) = true →
  next_indexed l =
  Ok (match List.find indexed_candidate l with
      | Some e => entry_field e "content"
      | None => PNone
      end).
Proof.
  induction l as [|e l IH]; [done|].
  cbn [examined next_indexed List.find].
  destruct (indexed_candidate e) eqn:Hc; cbn [forallb];
    intros [He Hok]%andb_prop;
    rewrite (indexed_creator_cond_ok e He), Hc; cbn [mbind result_bind].
  - apply candidate_content.
    unfold indexed_candidate in Hc. by apply andb_prop in Hc as [_ Hc].
  - by apply IH.
Qed.

(** C4, as amended: the creator is a function of the two attributes and of
    the role table.  Let both attributes be objects whose [name] is an
    array or is missing, let the role table have no empty role, and let
    every freetext name entry that is an object have a text as label when
    it has a label; when no freetext entry qualifies, let also the
    indexed-structured name entries up to the first qualifying one (this
    one included) have a text as type when they are objects with a type.
    Then: among the freetext entries that are objects with a recognised
    lower-cased label and a non-empty content, the creator is the content
    of the one of least rank, and of the first of them when several have
    this rank; when there is no such entry, it is the content of the first
    indexed-structured entry that is an object whose lower-cased type is
    personal_main and whose content is not empty; when there is none
    either, it is [None].  The indexed-structured entries that are not
    examined may be anything. *)
Theorem get_creator_priority (ct : gmap string Z)
    (indexed_structured freetext : list (string * pyval))
    (names indexed_names : list pyval) :
  ct !! "" = None →
  default (PList []) (dict_get freetext "name") = PList names →
  forallb (name_entry_ok "label") names = true →
  default (PList []) (dict_get indexed_structured "name") = PList indexed_names →
  (List.filter (freetext_candidate ct) names = [] →
   forallb (name_entry_ok "type") (examined indexed_names) = true) →
  ∃ v : pyval,
    _get_creator (PDict indexed_structured) (PDict freetext) ct = Ok v ∧
    match List.filter (freetext_candidate ct) names with
    | [] =>
        v = match List.find indexed_candidate indexed_names with
            | Some e => entry_field e "content"
            | None => PNone
            end
    | candidates =>
        ∃ (l1 : list pyval) (e : pyval) (l2 : list pyval),
          candidates = (l1 ++ e :: l2)%list ∧
          (∀ x, x ∈ l1 → rank_of ct e < rank_of ct x) ∧
          (∀ x, x ∈ l2 → rank_of ct e ≤ rank_of ct x) ∧
          v = entry_field e "content"
    end.
Proof.
  intros Hct Hnames Hok Hinames Hiok.
  unfold _get_creator, py_get. rewrite Hnames, Hinames.
  cbn [py_iter mbind result_bind].
  rewrite (filterM_ok _ (freetext_candidate ct))
    by (intros x Hx; apply freetext_creator_cond_ok;
        by apply (forallb_elem _ names)).
  cbn [mbind result_bind]. unfold sorted.
  rewrite (keys_of_ok _ (rank_of ct)).
  2:{ intros x [Hx Hc]%filter_candidates.
      apply creator_rank_ok; [done | by apply (forallb_elem _ names) | done]. }
  cbn [mbind result_bind].
  destruct (List.filter (freetext_candidate ct) names) as [|x cands] eqn:Hf.
  - cbn. eexists. split; [by apply next_indexed_examined, Hiok | done].
  - destruct (stable_sort_head (rank_of ct) x cands)
      as (e & rest & l1 & l2 & Hs & Hl & H1 & H2).
    rewrite Hs. cbn [map snd next_content].
    assert (e ∈ List.filter (freetext_candidate ct) names) as He.
    { rewrite Hf, Hl. apply elem_of_app. right. apply list_elem_of_here. }
    apply filter_candidates in He as [_ He].
    assert (truthy (entry_field e "content") = true) as Ht.
    { unfold freetext_candidate in He. by apply andb_prop in He as [_ He]. }
    rewrite (candidate_content e Ht).
    exists (entry_field e "content"). split.
    + destruct (entry_field e "content"); done.
    + by exists l1, e, l2.
Qed.

Lemma get_creator_priority_witness :
  let freetext := [("name", PList names_publisher_creator)] in
  let indexed_structured := [("name", PList indexed_names_numeric_type)] in
  CREATOR_TYPES !! "" = None ∧
  forallb (name_entry_ok "label") names_publisher_creator = true ∧
  forallb (name_entry_ok "type") indexed_names_numeric_type = false ∧
  ∃ v : pyval,
    _get_creator (PDict indexed_structured) (PDict freetext) CREATOR_TYPES
      = Ok v ∧
    match List.filter (freetext_candidate CREATOR_TYPES) names_publisher_creator with
    | [] =>
        v = match List.find indexed_candidate indexed_names_numeric_type with
            | Some e => entry_field e "content"
            | None => PNone
            end
    | candidates =>
        ∃ (l1 : list pyval) (e : pyval) (l2 : list pyval),
          candidates = (l1 ++ e :: l2)%list ∧
          (∀ x, x ∈ l1 → rank_of CREATOR_TYPES e < rank_of CREATOR_TYPES x) ∧
          (∀ x, x ∈ l2 → rank_of CREATOR_TYPES e ≤ rank_of CREATOR_TYPES x) ∧
          v = entry_field e "content"
    end.
Proof.
  intros freetext indexed_structured.
  split; [reflexivity|]. split; [reflexivity|]. split; [reflexivity|].
  apply (get_creator_priority CREATOR_TYPES indexed_structured freetext
           names_publisher_creator indexed_names_numeric_type);
    [reflexivity | reflexivity | reflexivity | reflexivity |].
  intros H. vm_compute in H. discriminate H.
Defined.

(** C4, as stated, fails when a name entry is an object whose label is
    not a text: the first entry qualifies, with the content ArtistX, and
    is alone to do so, yet [_get_creator] raises [AttributeError] at the
    null label of the second entry, for the comprehension examines every
    entry.  The same happens in the indexed-structured entries that are
    examined. *)
Lemma creator_null_label_raises :
  List.filter (freetext_candidate CREATOR_TYPES) names_creator_null_label =
    [PDict [("label", PStr "Creator"); ("content", PStr "ArtistX")]] ∧
  _get_creator (PDict []) (PDict [("name", PList names_creator_null_label)])
    CREATOR_TYPES = Raise AttributeError ∧
  (¬ ∃ v : pyval,
       _get_creator (PDict []) (PDict [("name", PList names_creator_null_label)])
         CREATOR_TYPES = Ok v) ∧
  List.filter indexed_candidate indexed_names_numeric_type = [] ∧
  _get_creator (PDict [("name", PList indexed_names_numeric_type)]) (PDict [])
    CREATOR_TYPES = Raise AttributeError.
Proof.
  split; [reflexivity|]. split; [reflexivity|].
  split; [|split; reflexivity].
  intros [v H]. discriminate H.
Qed.

(** ** Effects *)

Lemma with_added_same (s : State) : with_added s (added s) = s.
Proof. by destruct s. Qed.

Lemma M_bind_eq {A B} (m : M A) (f : A → M B) (s : State) :
  (m ≫= f) s =
  match m s with
  | Ok (a, s') => f a s'
  | Raise e => Raise e
  end.
Proof. reflexivity. Qed.

Lemma lift_ok {A} (a : A) (s : State) : lift (Ok a) s = Ok (a, s).
Proof. reflexivity. Qed.

Lemma store_only_ret {A} (a : A) : store_only (mret a).
Proof. intros s a' s' [= <- <-]. done. Qed.

Lemma store_only_lift {A} (r : result A) : store_only (lift r).
Proof. intros s a s' H. destruct r; [|done]. by injection H as <- <-. Qed.

Lemma store_only_bind {A B} (m : M A) (f : A → M B) :
  store_only m → (∀ a, store_only (f a)) → store_only (m ≫= f).
Proof.
  intros Hm Hf s b s'. rewrite M_bind_eq.
  destruct (m s) as [[a s1]|e] eqn:E; [|done].
  intros H. destruct (Hm _ _ _ E) as [H1 H2].
  destruct (Hf a _ _ _ H) as [H3 H4]. split; congruence.
Qed.

Lemma store_only_forM {A B} (f : B → A → M B) (l : list A) (b : B) :
  (∀ b a, store_only (f b a)) → store_only (forM f b l).
Proof.
  intros Hf. revert b. induction l as [|x l IH]; intros b.
  - apply store_only_ret.
  - cbn [forM]. apply store_only_bind; [apply Hf | intros b'; apply IH].
Qed.

Lemma store_only_add_item rt (args : ImageArgs) : store_only (add_item rt args).
Proof. intros s a s' [= <- <-]. done. Qed.

Create HintDb frame.
#[local] Hint Resolve store_only_ret store_only_lift store_only_add_item
  store_only_forM : frame.

Ltac store_only_steps :=
  repeat first
    [ solve [eauto with frame]
    | match goal with
      | |- store_only (if ?b then _ else _) => destruct b
      end
    | apply store_only_bind; [|intros ?] ].

Lemma store_only_image_step rt lu t c md tags lic ti e :
  store_only (image_step rt lu t c md tags lic ti e).
Proof. unfold image_step. store_only_steps. Qed.
#[local] Hint Resolve store_only_image_step : frame.

Lemma store_only_process_image_list rt l lu t c md tags lic :
  store_only (_process_image_list rt l lu t c md tags lic).
Proof. unfold _process_image_list. store_only_steps. Qed.
#[local] Hint Resolve store_only_process_image_list : frame.

Lemma store_only_row_step rt ti row : store_only (row_step rt ti row).
Proof. unfold row_step. store_only_steps. Qed.
#[local] Hint Resolve store_only_row_step : frame.

Lemma store_only_process_response_json rt r :
  store_only (_process_response_json rt r).
Proof. unfold _process_response_json. store_only_steps. Qed.

(** ** Media entries *)

Ltac run_M :=
  repeat (first [rewrite M_bind_eq | rewrite lift_ok]; cbv beta iota).

Lemma image_step_ok rt lu t c md tags ti (e : pyval) (s : State) :
  media_entry_ok e = true →
  image_step rt lu t c md tags (PStr ZERO_URL) ti e s =
  if qualifies e
  then Ok (PInt (rt (added s ++ [record_of lu t c md tags e])%list),
           with_added s (added s ++ [record_of lu t c md tags e])%list)
  else Ok (ti, s).
Proof.
  destruct e as [| | | | |d]; try done. simpl. intros Hok.
  unfold image_step, qualifies, entry_field, py_get, absent_or in *.
  run_M.
  destruct (py_eq_str (default PNone (dict_get d "type")) "Images"); [|done].
  destruct (dict_get d "usage") as [[| | | | |ud]|]; try done;
    cbn [default from_option id andb].
  run_M.
  destruct (py_eq_str (default PNone (dict_get ud "access")) "CC0"); [|done].
  by run_M.
Qed.

Lemma image_loop_ok rt lu t c md tags (entries : list pyval) (ti : pyval)
    (s : State) :
  forallb media_entry_ok entries = true →
  let records := map (record_of lu t c md tags) (List.filter qualifies entries) in
  forM (image_step rt lu t c md tags (PStr ZERO_URL)) ti entries s =
  Ok (match records with
      | [] => ti
      | _ => PInt (rt (added s ++ records)%list)
      end,
      with_added s (added s ++ records)%list).
Proof.
  revert ti s. induction entries as [|e entries IH]; intros ti s Hok records.
  - subst records. simpl. by rewrite app_nil_r, with_added_same.
  - apply andb_prop in Hok as [He Hok].
    cbn [forM]. rewrite M_bind_eq, (image_step_ok _ _ _ _ _ _ _ _ _ He).
    subst records. cbn [List.filter].
    destruct (qualifies e).
    + rewrite (IH _ _ Hok). cbn [with_added added map heap requests].
      rewrite <- !app_assoc. cbn [app].
      by destruct (map _ (List.filter qualifies entries)).
    + by rewrite (IH _ _ Hok).
Qed.




Example media_mixed_records :
  map foreign_identifier
    (map (record_of (PStr "https://x") (PStr "T") PNone ∅ PNone)
       (List.filter qualifies media_mixed)) = [PStr "id1"].
Proof. reflexivity. Qed.

(** ** Query parameters *)

Lemma build_query_params_ok (row_offset : Z) (hash_prefix : option string)
    (default_params : loc) (unit_code : option string) (s : State)
    (d : gmap string pyval) :
  heap s !! default_params = Some d →
  ∃ (query_params : loc) (query_string : string) (s' : State),
    _build_query_params row_offset hash_prefix default_params unit_code s
      = Ok (query_params, s') ∧
    heap s !! query_params = None ∧
    heap s' !! query_params =
      Some (<["start" := PInt row_offset]> (<["q" := PStr query_string]> d)) ∧
    (∀ l, l ≠ query_params → heap s' !! l = heap s !! l) ∧
    requests s' = requests s ∧ added s' = added s.
Proof.
  intros Hd. unfold _build_query_params.
  set (q := fresh (dom (heap s))).
  assert (heap s !! q = None) as Hq.
  { apply not_elem_of_dom. apply is_fresh. }
  rewrite M_bind_eq. unfold dict_copy at 1. rewrite Hd. fold q.
  cbv beta iota. rewrite M_bind_eq. unfold dict_update at 1.
  cbn [heap requests added]. rewrite lookup_insert_eq.
  cbv beta iota. cbn [foldl fst snd].
  eexists q, _, _. split; [reflexivity|].
  cbn [heap requests added].
  split; [done|]. split; [by rewrite lookup_insert_eq|].
  split; [|done].
  intros l Hl. by rewrite !lookup_insert_ne.
Qed.

(** C10: [_build_query_params] returns a dictionary that did not exist
    before the call, holding the items of [default_params] with [q] and
    [start] set; every dictionary that existed before the call, and
    [default_params] in particular, has the items it had. *)
Theorem build_query_params_fresh (row_offset : Z) (hash_prefix : option string)
    (default_params : loc) (unit_code : option string) (s : State)
    (d : gmap string pyval) :
  heap s !! default_params = Some d →
  ∃ (query_params : loc) (query_string : string) (s' : State),
    _build_query_params row_offset hash_prefix default_params unit_code s
      = Ok (query_params, s') ∧
    (query_params ∉ dom (heap s)) ∧
    heap s' !! query_params =
      Some (<["start" := PInt row_offset]> (<["q" := PStr query_string]> d)) ∧
    heap s' !! default_params = Some d ∧
    (∀ l, l ∈ dom (heap s) → heap s' !! l = heap s !! l) ∧
    requests s' = requests s ∧ added s' = added s.
Proof.
  intros Hd.
  destruct (build_query_params_ok row_offset hash_prefix default_params
              unit_code s d Hd) as (q & qs & s' & Hrun & Hq & Hq' & Hframe & Hr & Ha).
  exists q, qs, s'. split; [done|].
  split; [by apply not_elem_of_dom|]. split; [done|].
  assert (∀ l, l ∈ dom (heap s) → l ≠ q) as Hne.
  { intros l [x Hx]%elem_of_dom ->. congruence. }
  split.
  - rewrite Hframe; [done|]. apply Hne. apply elem_of_dom. eauto.
  - split; [|done]. intros l Hl. apply Hframe. by apply Hne.
Qed.

Lemma build_query_params_fresh_witness :
  let s := initial_state (PStr "key") in
  let d := <["rows" := PInt LIMIT]> (<["api_key" := PStr "key"]> ∅) in
  heap s !! DEFAULT_PARAMS = Some d ∧
  ∃ (query_params : loc) (query_string : string) (s' : State),
    _build_query_params 1000 (Some "0a") DEFAULT_PARAMS None s
      = Ok (query_params, s') ∧
    (query_params ∉ dom (heap s)) ∧
    heap s' !! query_params =
      Some (<["start" := PInt 1000]> (<["q" := PStr query_string]> d)) ∧
    heap s' !! DEFAULT_PARAMS = Some d ∧
    (∀ l, l ∈ dom (heap s) → heap s' !! l = heap s !! l) ∧
    requests s' = requests s ∧ added s' = added s.
Proof.
  intros s d. split; [reflexivity|].
  apply (build_query_params_fresh 1000 (Some "0a") DEFAULT_PARAMS None s d).
  reflexivity.
Defined.

Example query_string_with_hash :
  match _build_query_params 1000 (Some "0a") DEFAULT_PARAMS None
          (initial_state (PStr "key")) with
  | Ok (q, s') => heap s' !! q ≫= (.!! "q")
  | Raise _ => None
  end = Some (PStr "online_media_type:Images AND media_usage:CC0 AND hash:0a*").
Proof. vm_compute. reflexivity. Qed.

(** ** The pagination loop *)

Section Sweep.

Variable rt : list ImageArgs → Z.
Variable fetch : nat → string → Z → gmap string pyval → pyval.
Variables (hash_prefix : option string) (endpoint : string) (retries : Z).
Variable d : gmap string pyval.
Variable R : Z.

(** Every answer is the failure sentinel or a page that reports [R]. *)
Hypothesis answers :
  ∀ n q, fetch n endpoint retries q = PNone ∨
         page_ok rt R (fetch n endpoint retries q).

Lemma fetch_page_run (total_images : pyval) (row_offset : Z)
    (total_rows : pyval) (s : State) :
  heap s !! DEFAULT_PARAMS = Some d →
  ∃ (total_images' : pyval) (q : gmap string pyval) (s' : State),
    fetch_page rt fetch hash_prefix endpoint retries total_images row_offset
      total_rows s =
    Ok ((total_images',
         if is_none (fetch (length (requests s)) endpoint retries q)
         then total_rows else PInt R), s') ∧
    q !! "start" = Some (PInt row_offset) ∧
    requests s' = (requests s ++ [q])%list ∧
    heap s' !! DEFAULT_PARAMS = Some d ∧
    (fetch (length (requests s)) endpoint retries q = PNone →
     added s' = added s).
Proof.
  intros Hd. unfold fetch_page. rewrite M_bind_eq.
  destruct (build_query_params_ok row_offset hash_prefix DEFAULT_PARAMS
              None s d Hd)
    as (qp & qs & s1 & -> & Hfresh & Hq & Hframe & Hr & Ha).
  cbv beta iota. rewrite M_bind_eq.
  unfold get_response_json at 1. rewrite Hq, Hr. cbv beta iota.
  set (q := <["start" := PInt row_offset]> (<["q" := PStr qs]> d)).
  set (s2 := {| heap := heap s1; requests := (requests s ++ [q])%list;
                added := added s1 |}).
  assert (heap s2 !! DEFAULT_PARAMS = Some d) as Hd2.
  { cbn. rewrite Hframe; [done|]. intros Heq. rewrite Heq in Hd. congruence. }
  assert (q !! "start" = Some (PInt row_offset)) as Hstart
    by apply lookup_insert_eq.
  destruct (answers (length (requests s)) q) as [Hnone|[Hcount Hrows]].
  - rewrite Hnone. cbn [is_none].
    exists total_images, q, s2. rewrite Hnone. cbn [is_none].
    repeat split; done.
  - destruct (is_none (fetch (length (requests s)) endpoint retries q))
      eqn:Hnone.
    + exists total_images, q, s2. rewrite Hnone.
      repeat split; done.
    + rewrite M_bind_eq.
      specialize (Hrows s2).
      destruct (_process_response_json rt
                  (fetch (length (requests s)) endpoint retries q) s2)
        as [[new_total s3]|e] eqn:Hp; [|done].
      destruct (store_only_process_response_json _ _ _ _ _ Hp) as [Hh3 Hr3].
      cbv beta iota. unfold row_count in Hcount.
      destruct (py_get (fetch (length (requests s)) endpoint retries q)
                  "response" (PDict [])) as [resp|e] eqn:Hresp; [|done].
      cbn [mbind result_bind] in Hcount.
      rewrite M_bind_eq, lift_ok. cbv beta iota.
      rewrite M_bind_eq, Hcount, lift_ok. cbv beta iota.
      eexists _, q, s3. rewrite Hnone.
      split; [reflexivity|]. split; [done|].
      split; [by rewrite Hr3|]. split; [by rewrite Hh3|].
      intros Hn. rewrite Hn in Hnone. done.
Qed.

Variable limit : Z.
Hypothesis limit_pos : 0 < limit.

(** From a state of the loop whose bound is [R] already: [n] more
    requests are made, where [n] is the least number of steps after which
    the offset is not below the bound. *)
Lemma pages_run (n : nat) :
  ∀ (fuel : nat) (total_images : pyval) (row_offset : Z) (s : State),
    heap s !! DEFAULT_PARAMS = Some d →
    (n < fuel)%nat →
    R ≤ row_offset + Z.of_nat n * limit →
    (n = 0%nat ∨ row_offset + (Z.of_nat n - 1) * limit < R) →
    ∃ (s' : State) (new : list (gmap string pyval)),
      pages rt fetch fuel hash_prefix endpoint limit retries total_images
        row_offset (PInt R) s = Some (Ok (PInt R, s')) ∧
      heap s' !! DEFAULT_PARAMS = Some d ∧
      requests s' = (requests s ++ new)%list ∧
      starts new =
        map (λ i, Some (PInt (row_offset + Z.of_nat i * limit))) (seq 0 n) ∧
      ((∀ k q, fetch k endpoint retries q = PNone) → added s' = added s).
Proof.
  induction n as [|n IH]; intros fuel total_images row_offset s Hd Hfuel Hge Hlt.
  - destruct fuel as [|fuel]; [lia|].
    cbn [pages int_lt].
    destruct (Z.ltb_spec row_offset R) as [?|_]; [lia|].
    exists s, []. rewrite app_nil_r. done.
  - destruct fuel as [|fuel]; [lia|].
    cbn [pages int_lt].
    destruct (Z.ltb_spec row_offset R) as [_|?]; [|nia].
    destruct (fetch_page_run total_images row_offset (PInt R) s Hd)
      as (ti' & q & s1 & -> & Hstart & Hreq & Hd1 & Hadd).
    assert ((if is_none (fetch (length (requests s)) endpoint retries q)
             then PInt R else PInt R) = PInt R) as -> by (by destruct (is_none _)).
    destruct (IH fuel ti' (row_offset + limit) s1 Hd1)
      as (s' & new & -> & Hd' & Hreq' & Hstarts & Hadd'); [lia|lia|lia|].
    exists s', (q :: new). split; [done|]. split; [done|].
    split; [by rewrite Hreq', Hreq, <- app_assoc|].
    split.
    + cbn [starts map seq]. unfold starts in Hstarts.
      rewrite Hstart, Hstarts, <- seq_shift, map_map.
      f_equal; [do 2 f_equal; lia|].
      apply map_ext. intros i. do 2 f_equal. lia.
    + intros Hnone. rewrite (Hadd' Hnone). apply Hadd, Hnone.
Qed.

End Sweep.

Lemma is_none_false (v : pyval) : v ≠ PNone → is_none v = false.
Proof. by destruct v. Qed.

(** When the first request fails, the bound stays at its initial value 1,
    the offset becomes [limit], and the loop ends. *)
Lemma first_request_fails (rt : list ImageArgs → Z)
    (fetch : nat → string → Z → gmap string pyval → pyval)
    (hash_prefix : option string) (endpoint : string) (retries limit : Z)
    (d : gmap string pyval) (s : State) (fuel : nat) :
  (∀ q, fetch (length (requests s)) endpoint retries q = PNone) →
  0 < limit →
  heap s !! DEFAULT_PARAMS = Some d →
  (2 ≤ fuel)%nat →
  ∃ (s' : State) (q : gmap string pyval),
    _process_hash_prefix rt fetch fuel hash_prefix endpoint limit retries s
      = Some (Ok (PInt 1, s')) ∧
    requests s' = (requests s ++ [q])%list ∧
    q !! "start" = Some (PInt 0) ∧
    added s' = added s.
Proof.
  intros Hfail Hlimit Hd Hfuel.
  destruct fuel as [|[|fuel]]; [lia|lia|].
  unfold _process_hash_prefix. cbn [pages int_lt].
  change (0 <? 1) with true. cbv beta iota.
  unfold fetch_page. rewrite M_bind_eq.
  destruct (build_query_params_ok 0 hash_prefix DEFAULT_PARAMS None s d Hd)
    as (qp & qs & s1 & -> & Hfresh & Hq & Hframe & Hr & Ha).
  cbv beta iota. rewrite M_bind_eq.
  unfold get_response_json at 1. rewrite Hq, Hr, Hfail. cbv beta iota.
  cbn [is_none]. unfold mret, M_ret. cbn [int_lt].
  destruct (Z.ltb_spec (0 + limit) 1) as [?|_]; [lia|].
  eexists _, _. split; [reflexivity|]. cbn [requests added].
  split; [done|]. split; [apply lookup_insert_eq | done].
Qed.

Lemma pages_count (R limit : Z) :
  0 < limit →
  let k := Z.to_nat ((Z.max R 1 + limit - 1) / limit) in
  (1 ≤ k)%nat ∧
  Z.max R 1 ≤ Z.of_nat k * limit ∧
  (Z.of_nat k - 1) * limit < Z.max R 1.
Proof.
  intros Hlimit k.
  pose proof (Z.div_mod (Z.max R 1 + limit - 1) limit ltac:(lia)) as Hdm.
  pose proof (Z.mod_pos_bound (Z.max R 1 + limit - 1) limit Hlimit) as Hmod.
  assert (1 ≤ (Z.max R 1 + limit - 1) / limit) as Hq.
  { apply Z.div_le_lower_bound; lia. }
  subst k. rewrite Z2Nat.id by lia. split; [lia|]. nia.
Qed.

(** The whole sweep of a shard that reports [R] rows, when the first
    request succeeds. *)
Lemma sweep_run (rt : list ImageArgs → Z)
    (fetch : nat → string → Z → gmap string pyval → pyval)
    (hash_prefix : option string) (endpoint : string) (retries limit R : Z)
    (d : gmap string pyval) (s : State) (fuel : nat) :
  0 < limit →
  heap s !! DEFAULT_PARAMS = Some d →
  (∀ q, fetch (length (requests s)) endpoint retries q ≠ PNone) →
  (∀ n q, fetch n endpoint retries q = PNone ∨
          page_ok rt R (fetch n endpoint retries q)) →
  let k := Z.to_nat ((Z.max R 1 + limit - 1) / limit) in
  (k < fuel)%nat →
  ∃ (s' : State) (new : list (gmap string pyval)),
    _process_hash_prefix rt fetch fuel hash_prefix endpoint limit retries s
      = Some (Ok (PInt R, s')) ∧
    requests s' = (requests s ++ new)%list ∧
    starts new = map (λ i, Some (PInt (Z.of_nat i * limit))) (seq 0 k).
Proof.
  intros Hlimit Hd Hfirst Hanswers k Hfuel.
  destruct (pages_count R limit Hlimit) as (Hk1 & Hk2 & Hk3). fold k in Hk1, Hk2, Hk3.
  destruct fuel as [|fuel]; [lia|].
  unfold _process_hash_prefix. cbn [pages int_lt].
  change (0 <? 1) with true. cbv beta iota.
  destruct (fetch_page_run rt fetch hash_prefix endpoint retries d R Hanswers
              (PInt 0) 0 (PInt 1) s Hd)
    as (ti' & q & s1 & -> & Hstart & Hreq & Hd1 & _).
  rewrite (is_none_false _ (Hfirst q)).
  destruct k as [|k'] eqn:Hk; [lia|].
  destruct (pages_run rt fetch hash_prefix endpoint retries d R Hanswers
              limit Hlimit k' fuel ti' (0 + limit) s1 Hd1)
    as (s' & new & -> & _ & Hreq' & Hstarts & _); [lia|lia|lia|].
  exists s', (q :: new). split; [done|].
  split; [by rewrite Hreq', Hreq, <- app_assoc|].
  cbn [starts map seq]. unfold starts in Hstarts.
  rewrite Hstart, Hstarts, <- seq_shift, map_map.
  f_equal. apply map_ext. intros i. do 2 f_equal. lia.
Qed.

(** C2, as amended: when every request of a shard fails and the page limit
    is positive, the loop of [_process_hash_prefix] ends after one request,
    the one at offset 0: a failed request leaves the bound at its initial
    value 1 and the offset still advances by the page limit.  The function
    returns 1 and nothing is added to the store. *)
Theorem persistent_failure_terminates (rt : list ImageArgs → Z)
    (fetch : nat → string → Z → gmap string pyval → pyval)
    (hash_prefix : option string) (endpoint : string) (retries limit : Z)
    (d : gmap string pyval) (s : State) (fuel : nat) :
  (∀ n e r q, fetch n e r q = PNone) →
  0 < limit →
  heap s !! DEFAULT_PARAMS = Some d →
  (2 ≤ fuel)%nat →
  ∃ (s' : State) (q : gmap string pyval),
    _process_hash_prefix rt fetch fuel hash_prefix endpoint limit retries s
      = Some (Ok (PInt 1, s')) ∧
    requests s' = (requests s ++ [q])%list ∧
    q !! "start" = Some (PInt 0) ∧
    added s' = added s.
Proof.
  intros Hfail. apply first_request_fails. intros q. apply Hfail.
Qed.

Lemma persistent_failure_terminates_witness :
  let s := initial_state PNone in
  (∀ n e r q, always_fail n e r q = PNone) ∧
  0 < LIMIT ∧
  (2 ≤ 2)%nat ∧
  ∃ (s' : State) (q : gmap string pyval),
    _process_hash_prefix count_calls always_fail 2 (Some "00") SEARCH_ENDPOINT
      LIMIT RETRIES s = Some (Ok (PInt 1, s')) ∧
    requests s' = (requests s ++ [q])%list ∧
    q !! "start" = Some (PInt 0) ∧
    added s' = added s.
Proof.
  intros s. split; [reflexivity|]. split; [reflexivity|]. split; [lia|].
  apply (persistent_failure_terminates count_calls always_fail (Some "00")
           SEARCH_ENDPOINT RETRIES LIMIT
           (<["rows" := PInt LIMIT]> (<["api_key" := PNone]> ∅)) s 2);
    [reflexivity | reflexivity | reflexivity | lia].
Defined.

(** C2, as stated, fails: with a requester that always fails, the loop of
    the shard 00 ends, at the second evaluation of its condition. *)
Lemma persistent_failure_run :
  (∃ (s' : State) (q : gmap string pyval),
     _process_hash_prefix count_calls always_fail 2 (Some "00") SEARCH_ENDPOINT
       LIMIT RETRIES (initial_state PNone) = Some (Ok (PInt 1, s')) ∧
     requests s' = [q] ∧ q !! "start" = Some (PInt 0)) ∧
  ¬ ∀ fuel : nat,
      _process_hash_prefix count_calls always_fail fuel (Some "00")
        SEARCH_ENDPOINT LIMIT RETRIES (initial_state PNone) = None.
Proof.
  destruct (first_request_fails count_calls always_fail (Some "00")
              SEARCH_ENDPOINT RETRIES LIMIT
              (<["rows" := PInt LIMIT]> (<["api_key" := PNone]> ∅))
              (initial_state PNone) 2)
    as (s' & q & Hrun & Hreq & Hstart & _);
    [done | reflexivity | reflexivity | lia |].
  split.
  - by exists s', q.
  - intros Hnone. rewrite (Hnone 2%nat) in Hrun. discriminate Hrun.
Qed.

(** C3, as amended: when the page limit is positive, the first request of
    the shard succeeds, and every page that is returned reports [R] rows
    and is processed without an exception (later requests may fail), the
    driver requests exactly the offsets [0, limit, 2 * limit, ...] that are
    below [max R 1], in this order, then stops, and returns [R].  The offset
    0 is always requested, the initial bound being 1; the offset at which
    the loop stops is the first positive multiple of [limit] that is not
    below [R]. *)
Theorem process_hash_prefix_sweep (rt : list ImageArgs → Z)
    (fetch : nat → string → Z → gmap string pyval → pyval)
    (hash_prefix : option string) (endpoint : string) (retries limit R : Z)
    (d : gmap string pyval) (s : State) (fuel : nat) :
  0 < limit →
  heap s !! DEFAULT_PARAMS = Some d →
  (∀ q, fetch (length (requests s)) endpoint retries q ≠ PNone) →
  (∀ n q, fetch n endpoint retries q = PNone ∨
          page_ok rt R (fetch n endpoint retries q)) →
  let k := Z.to_nat ((Z.max R 1 + limit - 1) / limit) in
  (k < fuel)%nat →
  (∀ i : nat, (i < k)%nat ↔ Z.of_nat i * limit < Z.max R 1) ∧
  ∃ (s' : State) (new : list (gmap string pyval)),
    _process_hash_prefix rt fetch fuel hash_prefix endpoint limit retries s
      = Some (Ok (PInt R, s')) ∧
    requests s' = (requests s ++ new)%list ∧
    starts new = map (λ i, Some (PInt (Z.of_nat i * limit))) (seq 0 k).
Proof.
  intros Hlimit Hd Hfirst Hanswers k Hfuel. split.
  - destruct (pages_count R limit Hlimit) as (Hk1 & Hk2 & Hk3).
    fold k in Hk1, Hk2, Hk3. intros i. split; intros Hi; nia.
  - by apply (sweep_run rt fetch hash_prefix endpoint retries limit R d s fuel).
Qed.

Lemma page_is_ok (R : Z) : page_ok count_calls R (page R).
Proof. split; [reflexivity|]. intros s. reflexivity. Qed.

Lemma process_hash_prefix_sweep_witness :
  let s := initial_state PNone in
  let k := Z.to_nat ((Z.max 2500 1 + LIMIT - 1) / LIMIT) in
  0 < LIMIT ∧
  (k < 4)%nat ∧
  (∀ i : nat, (i < k)%nat ↔ Z.of_nat i * LIMIT < Z.max 2500 1) ∧
  ∃ (s' : State) (new : list (gmap string pyval)),
    _process_hash_prefix count_calls (always_page 2500) 4 (Some "00")
      SEARCH_ENDPOINT LIMIT RETRIES s = Some (Ok (PInt 2500, s')) ∧
    requests s' = (requests s ++ new)%list ∧
    starts new = map (λ i, Some (PInt (Z.of_nat i * LIMIT))) (seq 0 k).
Proof.
  intros s k. split; [reflexivity|]. split; [vm_compute; lia|].
  apply (process_hash_prefix_sweep count_calls (always_page 2500) (Some "00")
           SEARCH_ENDPOINT RETRIES LIMIT 2500
           (<["rows" := PInt LIMIT]> (<["api_key" := PNone]> ∅)) s 4).
  - reflexivity.
  - reflexivity.
  - intros q. discriminate.
  - intros n q. right. apply page_is_ok.
  - vm_compute; lia.
Defined.

Example sweep_2500_offsets :
  map (λ i, Some (PInt (Z.of_nat i * LIMIT)))
    (seq 0 (Z.to_nat ((Z.max 2500 1 + LIMIT - 1) / LIMIT)))
  = [Some (PInt 0); Some (PInt 1000); Some (PInt 2000)].
Proof. reflexivity. Qed.

(** C3, as stated, fails.  When every request succeeds, the offsets
    requested are 0 for an empty shard and 0, 1000, 2000 for a shard of 2500
    rows: whether the first multiple of the page limit that is not below
    [R] is counted or not, one of the two sweeps is not the claimed one.
    When the first request fails, only the offset 0 is requested and the
    function returns 1, although every page that the shard returns reports
    2500 rows. *)
Lemma sweep_not_as_stated :
  sweep_of (always_page 0) 5 = Some (PInt 0, [Some (PInt 0)]) ∧
  sweep_of (always_page 2500) 5 =
    Some (PInt 2500, [Some (PInt 0); Some (PInt 1000); Some (PInt 2000)]) ∧
  (∀ inclusive : bool,
     ∃ R : Z, 0 ≤ R ∧
       sweep_of (always_page R) 5 ≠ Some (PInt R, offsets_up_to inclusive LIMIT R)) ∧
  (∀ n e r q, fail_first n e r q = PNone ∨
              page_ok count_calls 2500 (fail_first n e r q)) ∧
  (∀ fuel : nat, (2 ≤ fuel)%nat →
     sweep_of fail_first fuel = Some (PInt 1, [Some (PInt 0)])) ∧
  ¬ ∃ fuel : nat,
      sweep_of fail_first fuel = Some (PInt 2500, offsets_up_to false LIMIT 2500).
Proof.
  assert (∀ fuel : nat, (2 ≤ fuel)%nat →
            sweep_of fail_first fuel = Some (PInt 1, [Some (PInt 0)])) as Hrun.
  { intros fuel Hfuel. unfold sweep_of.
    destruct (first_request_fails count_calls fail_first (Some "00")
                SEARCH_ENDPOINT RETRIES LIMIT
                (<["rows" := PInt LIMIT]> (<["api_key" := PNone]> ∅))
                (initial_state PNone) fuel)
      as (s' & q & -> & Hreq & Hstart & _);
      [done | reflexivity | reflexivity | lia |].
    rewrite Hreq. cbn [initial_state requests app starts map].
    by rewrite Hstart. }
  split; [by vm_compute|]. split; [by vm_compute|].
  split; [|split; [|split; [exact Hrun|]]].
  - intros [|]; [exists 2500 | exists 0]; (split; [lia|]);
      vm_compute; discriminate.
  - intros [|n] e r q; [by left|]. right. apply page_is_ok.
  - intros (fuel & Hbad).
    destruct fuel as [|[|fuel]].
    + vm_compute in Hbad. discriminate Hbad.
    + vm_compute in Hbad. discriminate Hbad.
    + rewrite Hrun in Hbad by lia. discriminate Hbad.
Qed.

(** ** A row without freetext *)

(** C1 does not hold of the code: the content of this row has no
    [freetext] key, [content.get('freetext')] is [None], and [_get_creator]
    calls [None.get]. *)
Theorem row_without_freetext_raises (rt : list ImageArgs → Z) (s : State) :
  _process_response_json rt (response_with row_without_freetext) s
    = Raise AttributeError ∧
  _get_creator (PDict []) PNone CREATOR_TYPES = Raise AttributeError ∧
  _extract_meta_data (PDict []) PNone = Raise AttributeError.
Proof. repeat split; reflexivity. Qed.

(** The two sibling attributes have the default [{}]: a row without them is
    processed. *)
Example row_without_indexed_structured :
  match _process_response_json count_calls
          (response_with
             (PDict [("content", PDict
                [("descriptiveNonRepeating", PDict
                    [("online_media", PDict [("media", PList media_mixed)])]);
                 ("freetext", PDict [])])]))
          (initial_state PNone) with
  | Ok (total_images, s') => Some (total_images, map foreign_identifier (added s'))
  | Raise _ => None
  end = Some (PInt 1, [PStr "id1"]).
Proof. vm_compute. reflexivity. Qed.

(** Entries of the media list that are not objects are not filtered out:
    they raise. *)
Example media_entry_not_an_object (s : State) :
  _process_image_list count_calls (PList [PStr "x"]) PNone PNone PNone ∅ PNone
    (PStr ZERO_URL) s = Raise AttributeError.
Proof. reflexivity. Qed.

(** * Further properties *)

(** ** Query parameters and requests *)

Lemma query_string_eq (hp uc : option string) :
  (let query_string := "online_media_type:Images AND media_usage:CC0" in
   let query_string :=
     match hp with
     | Some h => query_string +:+ " AND hash:" +:+ h +:+ "*"
     | None => query_string
     end in
   match uc with
   | Some u => query_string +:+ " AND unit_code:" +:+ u
   | None => query_string
   end) = query_string hp uc.
Proof.
  unfold query_string. destruct hp as [h|], uc as [u|]; cbv zeta;
    rewrite ?append_empty_r, ?append_assoc; reflexivity.
Qed.

Lemma build_query_params_exact (row_offset : Z) (hash_prefix : option string)
    (default_params : loc) (unit_code : option string) (s : State)
    (d : gmap string pyval) :
  heap s !! default_params = Some d →
  ∃ (query_params : loc) (s' : State),
    _build_query_params row_offset hash_prefix default_params unit_code s
      = Ok (query_params, s') ∧
    heap s !! query_params = None ∧
    heap s' =
      <[query_params := request_of d hash_prefix unit_code row_offset]> (heap s) ∧
    requests s' = requests s ∧ added s' = added s.
Proof.
  intros Hd. unfold _build_query_params.
  set (q := fresh (dom (heap s))).
  assert (heap s !! q = None) as Hq.
  { apply not_elem_of_dom. apply is_fresh. }
  rewrite M_bind_eq. unfold dict_copy at 1. rewrite Hd. fold q.
  cbv beta iota zeta. rewrite M_bind_eq. unfold dict_update at 1.
  cbn [heap requests added]. rewrite lookup_insert_eq.
  cbv beta iota. cbn [foldl fst snd].
  pose proof (query_string_eq hash_prefix unit_code) as Hqs.
  cbv zeta in Hqs. rewrite Hqs.
  eexists q, _. split; [reflexivity|].
  cbn [heap requests added].
  split; [done|]. split; [|done].
  unfold request_of. by rewrite insert_insert_eq.
Qed.

Lemma build_twice (off1 off2 : Z) (hp1 hp2 uc1 uc2 : option string)
    (default_params : loc) (s : State) (d : gmap string pyval) :
  heap s !! default_params = Some d →
  ∃ (q1 q2 : loc) (s1 s2 : State),
    _build_query_params off1 hp1 default_params uc1 s = Ok (q1, s1) ∧
    _build_query_params off2 hp2 default_params uc2 s1 = Ok (q2, s2) ∧
    q1 ≠ q2 ∧ q1 ≠ default_params ∧ q2 ≠ default_params ∧
    heap s2 !! q1 = Some (request_of d hp1 uc1 off1) ∧
    heap s2 !! q2 = Some (request_of d hp2 uc2 off2) ∧
    heap s2 !! default_params = Some d.
Proof.
  intros Hd.
  destruct (build_query_params_exact off1 hp1 default_params uc1 s d Hd)
    as (q1 & s1 & Hrun1 & Hq1 & Hh1 & _ & _).
  assert (q1 ≠ default_params) as Hne1 by (intros ->; congruence).
  assert (heap s1 !! default_params = Some d) as Hd1.
  { by rewrite Hh1, lookup_insert_ne. }
  destruct (build_query_params_exact off2 hp2 default_params uc2 s1 d Hd1)
    as (q2 & s2 & Hrun2 & Hq2 & Hh2 & _ & _).
  assert (q2 ≠ default_params) as Hne2 by (intros ->; congruence).
  assert (q1 ≠ q2) as Hne.
  { intros ->. rewrite Hh1, lookup_insert_eq in Hq2. done. }
  exists q1, q2, s1, s2. repeat split; try done.
  - by rewrite Hh2, lookup_insert_ne, Hh1, lookup_insert_eq.
  - by rewrite Hh2, lookup_insert_eq.
  - by rewrite Hh2, lookup_insert_ne.
Qed.

(** What is left of the body of the loop once the answer is there. *)
Lemma store_only_page_tail rt (total_images response_json : pyval) :
  store_only
    (new_total ← _process_response_json rt response_json;
     let total_images :=
       if is_none new_total then total_images else new_total in
     response ← lift (py_get response_json "response" (PDict []));
     total_rows ← lift (py_get response "rowCount" (PInt 0));
     mret (total_images, total_rows)).
Proof.
  apply store_only_bind; [apply store_only_process_response_json|].
  intros new_total. cbv zeta. store_only_steps.
Qed.

Lemma fetch_page_unfold rt fetch hp ep re ti off tr (s : State)
    (d : gmap string pyval) :
  heap s !! DEFAULT_PARAMS = Some d →
  ∃ s1 : State,
    heap s1 !! DEFAULT_PARAMS = Some d ∧
    requests s1 = (requests s ++ [request_of d hp None off])%list ∧
    added s1 = added s ∧
    fetch_page rt fetch hp ep re ti off tr s =
    let response_json :=
      fetch (length (requests s)) ep re (request_of d hp None off) in
    if is_none response_json then Ok ((ti, tr), s1)
    else
      (new_total ← _process_response_json rt response_json;
       let total_images := if is_none new_total then ti else new_total in
       response ← lift (py_get response_json "response" (PDict []));
       total_rows ← lift (py_get response "rowCount" (PInt 0));
       mret (total_images, total_rows)) s1.
Proof.
  intros Hd. unfold fetch_page. rewrite M_bind_eq.
  destruct (build_query_params_exact off hp DEFAULT_PARAMS None s d Hd)
    as (qp & s1 & -> & Hfresh & Hh & Hr & Ha).
  cbv beta iota. rewrite M_bind_eq.
  unfold get_response_json at 1. rewrite Hh, lookup_insert_eq, Hr.
  cbv beta iota.
  eexists. split; [|split; [|split; [|cbv zeta;
    destruct (is_none (fetch _ _ _ _)); reflexivity]]]; cbn [heap requests added].
  - rewrite lookup_insert_ne; [done|]. intros ->. congruence.
  - done.
  - done.
Qed.

(** Whatever the answer, one iteration adds one request: the defaults with
    the clause of the shard and the current offset. *)
Lemma fetch_page_requests rt fetch hp ep re ti off tr (s : State)
    (d : gmap string pyval) x (s' : State) :
  heap s !! DEFAULT_PARAMS = Some d →
  fetch_page rt fetch hp ep re ti off tr s = Ok (x, s') →
  requests s' = (requests s ++ [request_of d hp None off])%list ∧
  heap s' !! DEFAULT_PARAMS = Some d.
Proof.
  intros Hd.
  destruct (fetch_page_unfold rt fetch hp ep re ti off tr s d Hd)
    as (s1 & Hd1 & Hr1 & _ & ->).
  cbv zeta. destruct (is_none _).
  - intros [= <- <-]. done.
  - intros Hrun.
    destruct (store_only_page_tail _ _ _ _ _ _ Hrun) as [Hh Hr].
    by rewrite Hh, Hr.
Qed.

Lemma fetch_page_answer rt fetch hp ep re ti off tr (s : State)
    (d : gmap string pyval) (r : Z) :
  heap s !! DEFAULT_PARAMS = Some d →
  let a := fetch (length (requests s)) ep re (request_of d hp None off) in
  a = PNone ∨ page_ok rt r a →
  ∃ (ti' : pyval) (s' : State),
    fetch_page rt fetch hp ep re ti off tr s =
      Ok ((ti', if is_none a then tr else PInt r), s') ∧
    (a = PNone → added s' = added s).
Proof.
  intros Hd a Ha.
  destruct (fetch_page_unfold rt fetch hp ep re ti off tr s d Hd)
    as (s1 & Hd1 & Hr1 & Ha1 & ->).
  cbv zeta. fold a.
  destruct Ha as [Hnone|[Hcount Hrows]].
  - rewrite Hnone. cbn [is_none]. by exists ti, s1.
  - destruct (is_none a) eqn:Hnone.
    + exists ti, s1. split; [done|]. by intros _.
    + rewrite M_bind_eq. specialize (Hrows s1).
      destruct (_process_response_json rt a s1) as [[new_total s2]|e]; [|done].
      cbv beta iota zeta. unfold row_count in Hcount.
      destruct (py_get a "response" (PDict [])) as [resp|e]; [|done].
      cbn [mbind result_bind] in Hcount.
      rewrite M_bind_eq, lift_ok. cbv beta iota.
      rewrite M_bind_eq, Hcount, lift_ok. cbv beta iota.
      eexists _, _. split; [reflexivity|].
      intros Hn. rewrite Hn in Hnone. done.
Qed.

Lemma pages_requests rt fetch hp ep limit re (d : gmap string pyval) (fuel : nat) :
  ∀ (ti : pyval) (off : Z) (tr : pyval) (s : State) (v : pyval) (s' : State),
    heap s !! DEFAULT_PARAMS = Some d →
    pages rt fetch fuel hp ep limit re ti off tr s = Some (Ok (v, s')) →
    ∃ n : nat,
      requests s' =
        (requests s ++
         map (λ i, request_of d hp None (off + Z.of_nat i * limit)) (seq 0 n))%list ∧
      heap s' !! DEFAULT_PARAMS = Some d.
Proof.
  induction fuel as [|fuel IH]; intros ti off tr s v s' Hd; [done|].
  cbn [pages]. destruct (int_lt off tr) as [[|]|e]; [| |done].
  - destruct (fetch_page rt fetch hp ep re ti off tr s)
      as [[[ti' tr'] s1]|e] eqn:Hpage; [|done].
    destruct (fetch_page_requests _ _ _ _ _ _ _ _ _ _ _ _ Hd Hpage) as [Hr1 Hd1].
    intros Hrun. destruct (IH _ _ _ _ _ _ Hd1 Hrun) as (n & Hr & Hd').
    exists (S n). split; [|done].
    rewrite Hr, Hr1, <- app_assoc. f_equal. cbn [seq map app].
    f_equal; [f_equal; lia|].
    rewrite <- seq_shift, map_map. apply map_ext. intros i. f_equal. lia.
  - intros [= <- <-]. exists 0%nat. by rewrite app_nil_r.
Qed.

Lemma sweep_requests_exact rt fetch hp ep limit re (d : gmap string pyval)
    (fuel : nat) (s : State) (v : pyval) (s' : State) :
  heap s !! DEFAULT_PARAMS = Some d →
  _process_hash_prefix rt fetch fuel hp ep limit re s = Some (Ok (v, s')) →
  ∃ n : nat,
    (1 ≤ n)%nat ∧
    requests s' = (requests s ++ sweep_requests d hp limit n)%list ∧
    heap s' !! DEFAULT_PARAMS = Some d.
Proof.
  intros Hd. unfold _process_hash_prefix.
  destruct fuel as [|fuel]; [done|].
  cbn [pages int_lt]. change (0 <? 1) with true. cbv beta iota.
  destruct (fetch_page rt fetch hp ep re (PInt 0) 0 (PInt 1) s)
    as [[[ti' tr'] s1]|e] eqn:Hpage; [|done].
  destruct (fetch_page_requests _ _ _ _ _ _ _ _ _ _ _ _ Hd Hpage) as [Hr1 Hd1].
  intros Hrun.
  destruct (pages_requests _ _ _ _ _ _ _ _ _ _ _ _ _ _ Hd1 Hrun) as (n & Hr & Hd').
  exists (S n). split; [lia|]. split; [|done].
  rewrite Hr, Hr1, <- app_assoc. f_equal. unfold sweep_requests.
  cbn [seq map app]. f_equal.
  rewrite <- seq_shift, map_map. apply map_ext. intros i. f_equal. lia.
Qed.

Section Bounded.

Variable rt : list ImageArgs → Z.
Variable fetch : nat → string → Z → gmap string pyval → pyval.
Variables (hash_prefix : option string) (endpoint : string) (retries : Z).
Variable d : gmap string pyval.
Variables (limit B : Z).

(** Every answer is the failure sentinel or a page that reports at most
    [B] rows. *)
Hypothesis answers :
  ∀ n q, fetch n endpoint retries q = PNone ∨
         ∃ r, r ≤ B ∧ page_ok rt r (fetch n endpoint retries q).

Lemma pages_bounded (n : nat) :
  ∀ (fuel : nat) (ti : pyval) (off T : Z) (s : State),
    heap s !! DEFAULT_PARAMS = Some d →
    (n < fuel)%nat →
    T ≤ Z.max B 1 →
    Z.max B 1 ≤ off + Z.of_nat n * limit →
    ∃ (v : Z) (s' : State),
      pages rt fetch fuel hash_prefix endpoint limit retries ti off (PInt T) s
        = Some (Ok (PInt v, s')) ∧
      v ≤ Z.max B 1 ∧
      (length (requests s') ≤ length (requests s) + n)%nat.
Proof.
  induction n as [|n IH]; intros fuel ti off T s Hd Hfuel HT Hoff;
    (destruct fuel as [|fuel]; [lia|]); cbn [pages int_lt].
  - destruct (Z.ltb_spec off T) as [?|_]; [lia|].
    exists T, s. repeat split; [done|lia].
  - destruct (Z.ltb_spec off T) as [_|_].
    2:{ exists T, s. repeat split; [done|lia]. }
    assert (∃ r, r ≤ Z.max B 1 ∧
              (fetch (length (requests s)) endpoint retries
                 (request_of d hash_prefix None off) = PNone ∨
               page_ok rt r
                 (fetch (length (requests s)) endpoint retries
                    (request_of d hash_prefix None off)))) as (r & Hr & Ha).
    { destruct (answers (length (requests s)) (request_of d hash_prefix None off))
        as [Hnone|(r & Hr & Hok)].
      - exists 0. split; [lia | by left].
      - exists r. split; [lia | by right]. }
    destruct (fetch_page_answer rt fetch hash_prefix endpoint retries ti off
                (PInt T) s d r Hd Ha) as (ti' & s1 & Hpage & _).
    rewrite Hpage.
    destruct (fetch_page_requests _ _ _ _ _ _ _ _ _ _ _ _ Hd Hpage) as [Hr1 Hd1].
    destruct (is_none _).
    + destruct (IH fuel ti' (off + limit) T s1 Hd1) as (v & s' & -> & Hv & Hlen);
        [lia|lia|lia|].
      exists v, s'. repeat split; [done|].
      rewrite Hr1, length_app in Hlen. simpl in Hlen. lia.
    + destruct (IH fuel ti' (off + limit) r s1 Hd1) as (v & s' & -> & Hv & Hlen);
        [lia|lia|lia|].
      exists v, s'. repeat split; [done|].
      rewrite Hr1, length_app in Hlen. simpl in Hlen. lia.
Qed.

End Bounded.

Lemma sweep_bounded_run (rt : list ImageArgs → Z)
    (fetch : nat → string → Z → gmap string pyval → pyval)
    (hash_prefix : option string) (endpoint : string) (retries limit B : Z)
    (d : gmap string pyval) (s : State) (fuel : nat) :
  0 < limit →
  heap s !! DEFAULT_PARAMS = Some d →
  (∀ n q, fetch n endpoint retries q = PNone ∨
          ∃ r, r ≤ B ∧ page_ok rt r (fetch n endpoint retries q)) →
  let k := Z.to_nat ((Z.max B 1 + limit - 1) / limit) in
  (k < fuel)%nat →
  ∃ (v : Z) (s' : State) (n : nat),
    _process_hash_prefix rt fetch fuel hash_prefix endpoint limit retries s
      = Some (Ok (PInt v, s')) ∧
    v ≤ Z.max B 1 ∧
    (1 ≤ n ≤ k)%nat ∧
    requests s' = (requests s ++ sweep_requests d hash_prefix limit n)%list ∧
    heap s' !! DEFAULT_PARAMS = Some d.
Proof.
  intros Hlimit Hd Hanswers k Hfuel.
  destruct (pages_count B limit Hlimit) as (Hk1 & Hk2 & _). fold k in Hk1, Hk2.
  destruct (pages_bounded rt fetch hash_prefix endpoint retries d limit B
              Hanswers k fuel (PInt 0) 0 1 s Hd Hfuel)
    as (v & s' & Hrun & Hv & Hlen); [lia|lia|].
  destruct (sweep_requests_exact rt fetch hash_prefix endpoint limit retries d
              fuel s (PInt v) s' Hd Hrun) as (n & Hn & Hreq & Hd').
  exists v, s', n. repeat split; try done.
  rewrite Hreq, length_app in Hlen. unfold sweep_requests in Hlen.
  rewrite length_map, length_seq in Hlen. lia.
Qed.

(** The loop of [main], when every shard makes the same number of
    requests. *)
Lemma shards_run (rt : list ImageArgs → Z)
    (fetch : nat → string → Z → gmap string pyval → pyval)
    (fuel n : nat) (d : gmap string pyval) (keep : Prop) :
  (∀ (h : string) (s : State),
     heap s !! DEFAULT_PARAMS = Some d →
     ∃ (v : pyval) (s' : State),
       _process_hash_prefix rt fetch fuel (Some h) SEARCH_ENDPOINT LIMIT
         RETRIES s = Some (Ok (v, s')) ∧
       requests s' = (requests s ++ sweep_requests d (Some h) LIMIT n)%list ∧
       heap s' !! DEFAULT_PARAMS = Some d ∧
       (keep → added s' = added s)) →
  ∀ (prefixes : list string) (s : State),
    heap s !! DEFAULT_PARAMS = Some d →
    ∃ s' : State,
      shards rt fetch fuel prefixes s = Some (Ok (tt, s')) ∧
      requests s' =
        (requests s ++
         flat_map (λ h, sweep_requests d (Some h) LIMIT n) prefixes)%list ∧
      (keep → added s' = added s).
Proof.
  intros Hshard prefixes.
  induction prefixes as [|h prefixes IH]; intros s Hd.
  - exists s. by rewrite app_nil_r.
  - destruct (Hshard h s Hd) as (v & s1 & Hrun & Hr1 & Hd1 & Ha1).
    destruct (IH s1 Hd1) as (s' & Hrest & Hr & Ha).
    exists s'. cbn [shards flat_map]. rewrite Hrun.
    split; [done|]. split.
    + by rewrite Hr, Hr1, <- app_assoc.
    + intros Hk. by rewrite (Ha Hk), (Ha1 Hk).
Qed.

(** A sweep all of whose requests succeed, request by request. *)
Lemma sweep_run_exact (rt : list ImageArgs → Z)
    (fetch : nat → string → Z → gmap string pyval → pyval)
    (hash_prefix : option string) (endpoint : string) (retries limit R : Z)
    (d : gmap string pyval) (s : State) (fuel : nat) :
  0 < limit →
  heap s !! DEFAULT_PARAMS = Some d →
  (∀ q, fetch (length (requests s)) endpoint retries q ≠ PNone) →
  (∀ n q, fetch n endpoint retries q = PNone ∨
          page_ok rt R (fetch n endpoint retries q)) →
  let k := Z.to_nat ((Z.max R 1 + limit - 1) / limit) in
  (k < fuel)%nat →
  ∃ s' : State,
    _process_hash_prefix rt fetch fuel hash_prefix endpoint limit retries s
      = Some (Ok (PInt R, s')) ∧
    requests s' = (requests s ++ sweep_requests d hash_prefix limit k)%list ∧
    heap s' !! DEFAULT_PARAMS = Some d.
Proof.
  intros Hlimit Hd Hfirst Hanswers k Hfuel.
  destruct (sweep_run rt fetch hash_prefix endpoint retries limit R d s fuel
              Hlimit Hd Hfirst Hanswers Hfuel) as (s' & new & Hrun & Hreq & Hstarts).
  destruct (sweep_requests_exact rt fetch hash_prefix endpoint limit retries d
              fuel s (PInt R) s' Hd Hrun) as (n & _ & Hreq' & Hd').
  exists s'. split; [done|]. split; [|done].
  rewrite Hreq' in Hreq. apply app_inv_head in Hreq. subst new.
  assert (n = k) as ->; [|done].
  apply (f_equal length) in Hstarts.
  unfold starts, sweep_requests in Hstarts.
  by rewrite !length_map, !length_seq in Hstarts.
Qed.

Lemma sweep_fail_exact (rt : list ImageArgs → Z)
    (fetch : nat → string → Z → gmap string pyval → pyval)
    (hash_prefix : option string) (endpoint : string) (retries limit : Z)
    (d : gmap string pyval) (s : State) (fuel : nat) :
  (∀ q, fetch (length (requests s)) endpoint retries q = PNone) →
  0 < limit →
  heap s !! DEFAULT_PARAMS = Some d →
  (2 ≤ fuel)%nat →
  ∃ s' : State,
    _process_hash_prefix rt fetch fuel hash_prefix endpoint limit retries s
      = Some (Ok (PInt 1, s')) ∧
    requests s' = (requests s ++ sweep_requests d hash_prefix limit 1)%list ∧
    heap s' !! DEFAULT_PARAMS = Some d ∧
    added s' = added s.
Proof.
  intros Hfail Hlimit Hd Hfuel.
  destruct (first_request_fails rt fetch hash_prefix endpoint retries limit d
              s fuel Hfail Hlimit Hd Hfuel) as (s' & q & Hrun & Hreq & _ & Ha).
  destruct (sweep_requests_exact rt fetch hash_prefix endpoint limit retries d
              fuel s (PInt 1) s' Hd Hrun) as (n & _ & Hreq' & Hd').
  exists s'. split; [done|]. split; [|done].
  rewrite Hreq' in Hreq. apply app_inv_head in Hreq.
  assert (n = 1%nat) as ->; [|done].
  apply (f_equal length) in Hreq. unfold sweep_requests in Hreq.
  by rewrite length_map, length_seq in Hreq.
Qed.

Lemma hash_prefixes_2 :
  ∃ prefixes : list string,
    _get_hash_prefixes HASH_PREFIX_LENGTH = Ok prefixes ∧
    length prefixes = 256%nat.
Proof. eexists. split; [reflexivity|]. reflexivity. Qed.

(** ** Sampling *)

Lemma sample_step_unfold fetch (unit sample_dir : string) (retries : Z)
    (endpoint : string) (hp : option string) (rest : list (option string))
    (s : State) (d : gmap string pyval) :
  heap s !! DEFAULT_PARAMS = Some d →
  ∃ s1 : State,
    heap s1 !! DEFAULT_PARAMS = Some d ∧
    requests s1 = (requests s ++ [request_of d hp (Some unit) 0])%list ∧
    added s1 = added s ∧
    sample_loop fetch unit sample_dir retries endpoint (hp :: rest) s =
    let response_json :=
      fetch (length (requests s)) endpoint retries
        (request_of d hp (Some unit) 0) in
    if is_none response_json then Ok (None, s1)
    else
      (n ← lift (indexed_row_count response_json);
       if py_eq_int n 0 then mret None
       else
         n ← lift (indexed_row_count response_json);
         too_many ← lift (gt_int n 10000);
         if (too_many : bool)
         then sample_loop fetch unit sample_dir retries endpoint rest
         else
           mret (Some {| file_dir := sample_dir;
                         file_name := unit +:+ ".json";
                         file_json := response_json |})) s1.
Proof.
  intros Hd. cbn [sample_loop]. rewrite M_bind_eq.
  destruct (build_query_params_exact 0 hp DEFAULT_PARAMS (Some unit) s d Hd)
    as (qp & s1 & -> & Hfresh & Hh & Hr & Ha).
  cbv beta iota. rewrite M_bind_eq.
  unfold get_response_json at 1. rewrite Hh, lookup_insert_eq, Hr.
  cbv beta iota.
  eexists. split; [|split; [|split; [|cbv zeta;
    destruct (is_none (fetch _ _ _ _)); reflexivity]]]; cbn [heap requests added].
  - rewrite lookup_insert_ne; [done|]. intros ->. congruence.
  - done.
  - done.
Qed.

(** The prefixes for which the answer reports more than 10000 rows are
    passed over. *)
Lemma sample_loop_too_many fetch (unit sample_dir : string) (retries : Z)
    (endpoint : string) (d : gmap string pyval) (l1 : list (option string)) :
  ∀ (l2 : list (option string)) (s : State),
    heap s !! DEFAULT_PARAMS = Some d →
    (∀ (i : nat) (hp : option string),
       l1 !! i = Some hp →
       ∃ n, 10000 < n ∧
         reports (fetch (length (requests s) + i)%nat endpoint retries
                    (request_of d hp (Some unit) 0)) n) →
    ∃ s1 : State,
      heap s1 !! DEFAULT_PARAMS = Some d ∧
      requests s1 = (requests s ++ sample_requests d unit l1)%list ∧
      added s1 = added s ∧
      sample_loop fetch unit sample_dir retries endpoint (l1 ++ l2) s =
      sample_loop fetch unit sample_dir retries endpoint l2 s1.
Proof.
  induction l1 as [|hp l1 IH]; intros l2 s Hd Hmany.
  - exists s. by rewrite app_nil_r.
  - destruct (Hmany 0%nat hp eq_refl) as (n & Hn & Hnotnone & Hcount).
    rewrite Nat.add_0_r in Hnotnone, Hcount.
    destruct (sample_step_unfold fetch unit sample_dir retries endpoint hp
                (l1 ++ l2) s d Hd) as (s1 & Hd1 & Hr1 & Ha1 & Hstep).
    destruct (IH l2 s1 Hd1) as (s2 & Hd2 & Hr2 & Ha2 & Hrest).
    { intros i hp' Hi. destruct (Hmany (S i) hp' Hi) as (n' & Hn' & Hrep).
      exists n'. split; [done|].
      rewrite Hr1, length_app. simpl.
      by replace (length (requests s) + 1 + i)%nat
        with (length (requests s) + S i)%nat by lia. }
    exists s2. split; [done|]. split.
    { rewrite Hr2, Hr1, <- app_assoc. done. }
    split; [congruence|].
    change ((hp :: l1) ++ l2)%list with (hp :: (l1 ++ l2)).
    rewrite Hstep. cbv zeta.
    rewrite (is_none_false _ Hnotnone).
    rewrite M_bind_eq, Hcount, lift_ok. cbv beta iota.
    cbn [py_eq_int]. destruct (Z.eqb_spec n 0) as [?|_]; [lia|].
    rewrite M_bind_eq, lift_ok. cbv beta iota.
    rewrite M_bind_eq. cbn [gt_int]. rewrite lift_ok. cbv beta iota.
    destruct (Z.ltb_spec 10000 n) as [_|?]; [|lia].
    exact Hrest.
Qed.

(** The first answer that does not report more than 10000 rows decides. *)
Lemma sample_loop_decides fetch (unit sample_dir : string) (retries : Z)
    (endpoint : string) (d : gmap string pyval) (hp : option string)
    (rest : list (option string)) (s : State) :
  heap s !! DEFAULT_PARAMS = Some d →
  let a := fetch (length (requests s)) endpoint retries
             (request_of d hp (Some unit) 0) in
  (a = PNone ∨ ∃ n, n ≤ 10000 ∧ reports a n) →
  ∃ s' : State,
    sample_loop fetch unit sample_dir retries endpoint (hp :: rest) s =
      Ok (match indexed_row_count a with
          | Ok (PInt n) =>
              if n =? 0 then None
              else Some {| file_dir := sample_dir;
                           file_name := unit +:+ ".json";
                           file_json := a |}
          | _ => None
          end, s') ∧
    requests s' = (requests s ++ [request_of d hp (Some unit) 0])%list ∧
    added s' = added s.
Proof.
  intros Hd a Ha.
  destruct (sample_step_unfold fetch unit sample_dir retries endpoint hp rest
              s d Hd) as (s1 & Hd1 & Hr1 & Ha1 & ->).
  cbv zeta. fold a. exists s1. split; [|done].
  destruct Ha as [->|(n & Hn & Hnotnone & Hcount)]; [done|].
  rewrite (is_none_false _ Hnotnone), Hcount.
  rewrite M_bind_eq, lift_ok. cbv beta iota. cbn [py_eq_int].
  destruct (Z.eqb_spec n 0) as [?|_]; [done|].
  rewrite M_bind_eq, lift_ok. cbv beta iota.
  rewrite M_bind_eq. cbn [gt_int]. rewrite lift_ok. cbv beta iota.
  destruct (Z.ltb_spec 10000 n) as [?|_]; [lia|]. done.
Qed.

(** ** Rows *)

Lemma landing_url_ok (d : list (string * pyval)) :
  _get_foreign_landing_url (PDict d) = Ok (landing_of (PDict d)).
Proof.
  unfold _get_foreign_landing_url, landing_of, entry_field, py_get.
  cbn [mbind result_bind]. by destruct (is_none _).
Qed.

Lemma list_field_ok_get (p : pyval → bool) (d : list (string * pyval)) (k : string) :
  list_field_ok p (PDict d) k = true →
  default (PList []) (dict_get d k) = PList (array_field d k) ∧
  forallb p (array_field d k) = true.
Proof.
  unfold list_field_ok, array_field.
  destruct (dict_get d k) as [[]|]; simpl; done.
Qed.

Lemma list_field_ok_absent_or (d : list (string * pyval)) (k : string) :
  list_field_ok (λ _, true) (PDict d) k = true → absent_or is_list d k = true.
Proof.
  unfold list_field_ok, absent_or.
  destruct (dict_get d k) as [[]|]; simpl; done.
Qed.

Lemma extract_tags_returns (d : list (string * pyval)) :
  absent_or is_list d "date" = true →
  absent_or is_list d "object_type" = true →
  absent_or is_list d "topic" = true →
  absent_or is_list d "place" = true →
  ∃ t, _extract_tags (PDict d) = Ok t.
Proof.
  intros H1 H2 H3 H4. unfold _extract_tags, py_get.
  rewrite (absent_or_list_get _ _ H1), (absent_or_list_get _ _ H2),
    (absent_or_list_get _ _ H3), (absent_or_list_get _ _ H4).
  cbn. eauto.
Qed.

(** The creator found in the freetext names, when there is a candidate;
    nothing is assumed of the indexed-structured entries. *)
Lemma freetext_creator_found (ct : gmap string Z) (names : list pyval)
    (indexed_items : list pyval) :
  ct !! "" = None →
  forallb (name_entry_ok "label") names = true →
  List.filter (freetext_candidate ct) names ≠ [] →
  ∃ v : pyval,
    v ≠ PNone ∧
    (selected ← filterM (freetext_creator_cond ct) names;
     ordered ← sorted (creator_rank ct) selected;
     creator ← next_content ordered;
     if is_none creator then next_indexed indexed_items else Ok creator)
    = Ok v ∧
    (selected ← filterM (freetext_creator_cond ct) names;
     ordered ← sorted (creator_rank ct) selected;
     next_content ordered) = Ok v.
Proof.
  intros Hct Hok Hne.
  rewrite (filterM_ok _ (freetext_candidate ct))
    by (intros x Hx; apply freetext_creator_cond_ok;
        by apply (forallb_elem _ names)).
  cbn [mbind result_bind]. unfold sorted.
  rewrite (keys_of_ok _ (rank_of ct)).
  2:{ intros x [Hx Hc]%filter_candidates.
      apply creator_rank_ok; [done | by apply (forallb_elem _ names) | done]. }
  cbn [mbind result_bind].
  destruct (List.filter (freetext_candidate ct) names) as [|x cands] eqn:Hf;
    [done|].
  destruct (stable_sort_head (rank_of ct) x cands)
    as (e & rest & l1 & l2 & Hs & Hl & _ & _).
  rewrite Hs. cbn [map snd next_content].
  assert (e ∈ List.filter (freetext_candidate ct) names) as He.
  { rewrite Hf, Hl. apply elem_of_app. right. apply list_elem_of_here. }
  apply filter_candidates in He as [_ He].
  assert (truthy (entry_field e "content") = true) as Ht.
  { unfold freetext_candidate in He. by apply andb_prop in He as [_ He]. }
  rewrite (candidate_content e Ht).
  exists (entry_field e "content").
  destruct (entry_field e "content"); done.
Qed.

Lemma no_freetext_creator (ct : gmap string Z) (names : list pyval) :
  forallb (name_entry_ok "label") names = true →
  List.filter (freetext_candidate ct) names = [] →
  (selected ← filterM (freetext_creator_cond ct) names;
   ordered ← sorted (creator_rank ct) selected;
   next_content ordered) = Ok PNone.
Proof.
  intros Hok Hnil.
  rewrite (filterM_ok _ (freetext_candidate ct))
    by (intros x Hx; apply freetext_creator_cond_ok;
        by apply (forallb_elem _ names)).
  by rewrite Hnil.
Qed.

Lemma get_creator_unfold (ct : gmap string Z)
    (indexed_structured freetext : list (string * pyval))
    (names indexed_items : list pyval) :
  default (PList []) (dict_get freetext "name") = PList names →
  py_iter (default (PList []) (dict_get indexed_structured "name"))
    = Ok indexed_items →
  _get_creator (PDict indexed_structured) (PDict freetext) ct =
  (selected ← filterM (freetext_creator_cond ct) names;
   ordered ← sorted (creator_rank ct) selected;
   creator ← next_content ordered;
   if is_none creator then next_indexed indexed_items else Ok creator).
Proof.
  intros Hnames Hitems. unfold _get_creator, py_get.
  rewrite Hnames. cbn [py_iter mbind result_bind].
  destruct (filterM _ names) as [selected|e]; [|done].
  cbn [mbind result_bind].
  destruct (sorted _ selected) as [ordered|e]; [|done].
  cbn [mbind result_bind]. by rewrite Hitems.
Qed.

Lemma get_creator_returns (ct : gmap string Z)
    (indexed_structured freetext : list (string * pyval)) :
  ct !! "" = None →
  list_field_ok (name_entry_ok "label") (PDict freetext) "name" = true →
  list_field_ok (name_entry_ok "type") (PDict indexed_structured) "name" = true →
  ∃ v, _get_creator (PDict indexed_structured) (PDict freetext) ct = Ok v.
Proof.
  intros Hct [Hnames Hok]%list_field_ok_get [Hinames Hiok]%list_field_ok_get.
  rewrite (get_creator_unfold ct _ _ _ (array_field indexed_structured "name")
             Hnames) by (by rewrite Hinames).
  destruct (List.filter (freetext_candidate ct) (array_field freetext "name"))
    as [|x l] eqn:Hf.
  - pose proof (no_freetext_creator ct _ Hok Hf) as Hnone.
    destruct (filterM _ _) as [selected|e]; [|done].
    cbn [mbind result_bind] in *.
    destruct (sorted _ selected) as [ordered|e]; [|done].
    cbn [mbind result_bind] in *. rewrite Hnone. cbn [mbind result_bind is_none].
    rewrite (next_indexed_ok _ Hiok). eauto.
  - destruct (freetext_creator_found ct _ (array_field indexed_structured "name")
                Hct Hok) as (v & _ & Hv & _); [by rewrite Hf|].
    eauto.
Qed.

Lemma is_dict_inv (e : pyval) : is_dict e = true → ∃ d, e = PDict d.
Proof. destruct e; try done. eauto. Qed.

Lemma py_get_object (e : pyval) (k : string) :
  is_dict e = true → py_get e k (PDict []) = Ok (object_field e k).
Proof. by destruct e. Qed.

Lemma py_get_field (e : pyval) (k : string) :
  is_dict e = true → py_get e k PNone = Ok (entry_field e k).
Proof. by destruct e. Qed.

Lemma row_step_ok rt (ti row : pyval) (s : State) :
  row_ok row = true →
  ∃ v : pyval,
    row_step rt ti row s =
    Ok (v, with_added s (added s ++ row_records row)%list).
Proof.
  unfold row_ok. rewrite !andb_true_iff.
  intros [[[[[[[[[[[[[Hrow Hcontent] Hdnr] Hist] Hft] Hnames] Hinames] Hnotes]
                   Hdate] Hobj] Htopic] Hplace] Hom] Hmedia].
  unfold row_step.
  rewrite (py_get_object row "content" Hrow). run_M.
  rewrite (py_get_object _ "descriptiveNonRepeating" Hcontent). run_M.
  rewrite (py_get_object _ "indexedStructured" Hcontent). run_M.
  rewrite (py_get_field _ "freetext" Hcontent). run_M.
  rewrite (py_get_field row "title" Hrow). run_M.
  fold (row_dnr row) (row_indexed row) (row_freetext row) in *.
  unfold row_records, row_media in *.
  destruct (is_dict_inv _ Hdnr) as [dd Edd].
  destruct (is_dict_inv _ Hist) as [xd Exd].
  destruct (is_dict_inv _ Hft) as [fd Efd].
  rewrite Edd, Exd, Efd in *.
  rewrite landing_url_ok. run_M.
  destruct (get_creator_returns CREATOR_TYPES xd fd eq_refl Hnames Hinames)
    as [c ->]. run_M.
  apply list_field_ok_get in Hnotes as [Hnotes Hnok].
  destruct (extract_meta_data_ok dd fd _ Hnotes Hnok) as (md & -> & _). run_M.
  destruct (extract_tags_returns xd
              (list_field_ok_absent_or _ _ Hdate)
              (list_field_ok_absent_or _ _ Hobj)
              (list_field_ok_absent_or _ _ Htopic)
              (list_field_ok_absent_or _ _ Hplace)) as [tags ->]. run_M.
  rewrite (py_get_object (PDict dd) "online_media" eq_refl). run_M.
  rewrite (py_get_field _ "media" Hom). run_M.
  destruct (is_dict_inv _ Hom) as [od Eod]. rewrite Eod in *.
  unfold list_field, array_field, entry_field in *.
  destruct (dict_get od "media") as [[| | | |l|]|]; cbn [default from_option id] in *;
    try done; cbn [is_none].
  - exists ti. cbn [List.filter map]. by rewrite app_nil_r, with_added_same.
  - unfold _process_image_list. run_M. cbn [py_iter]. run_M.
    rewrite (image_loop_ok _ _ _ _ _ _ _ _ _ Hmedia). eauto.
  - exists ti. cbn [List.filter map]. by rewrite app_nil_r, with_added_same.
Qed.

Lemma rows_loop_ok rt (rows : list pyval) :
  forallb row_ok rows = true →
  ∀ (ti : pyval) (s : State),
    ∃ v : pyval,
      forM (row_step rt) ti rows s =
      Ok (v, with_added s (added s ++ flat_map row_records rows)%list).
Proof.
  induction rows as [|row rows IH]; intros Hok ti s.
  - exists ti. cbn. by rewrite app_nil_r, with_added_same.
  - apply andb_prop in Hok as [Hrow Hok].
    destruct (row_step_ok rt ti row s Hrow) as [v1 Hstep].
    cbn [forM]. rewrite M_bind_eq, Hstep.
    destruct (IH Hok v1 (with_added s (added s ++ row_records row)%list))
      as [v ->].
    exists v. cbn [with_added added heap requests flat_map].
    by rewrite <- app_assoc.
Qed.

Lemma process_response_json_ok rt (response_json : pyval) (rows : list pyval)
    (s : State) :
  page_rows response_json = Ok (PList rows) →
  forallb row_ok rows = true →
  ∃ v : pyval,
    _process_response_json rt response_json s =
    Ok (v, with_added s (added s ++ flat_map row_records rows)%list).
Proof.
  intros Hrows Hok. unfold _process_response_json, page_rows in *.
  destruct (py_get response_json "response" (PDict [])) as [resp|e]; [|done].
  cbn [mbind result_bind] in Hrows. run_M. rewrite Hrows. run_M.
  cbn [py_iter]. run_M. apply (rows_loop_ok rt rows Hok).
Qed.

(** ** Exceptions of the extraction *)

Lemma filterM_raises {A} (p : A → result bool) (e : exn) (l : list A) :
  (∀ x, x ∈ l → p x = Raise e ∨ ∃ b, p x = Ok b) →
  (∃ x, x ∈ l ∧ p x = Raise e) →
  filterM p l = Raise e.
Proof.
  induction l as [|x l IH]; intros Hall (y & Hy & Hraise).
  - by apply elem_of_nil in Hy.
  - cbn [filterM].
    destruct (Hall x) as [->|[b Hb]]; [apply list_elem_of_here|done|].
    rewrite Hb. cbn [mbind result_bind].
    rewrite IH; [done| |].
    + intros z Hz. apply Hall. by apply list_elem_of_further.
    + apply elem_of_cons in Hy as [->|Hy]; [congruence|]. eauto.
Qed.

Lemma freetext_creator_cond_cases (ct : gmap string Z) (i : pyval) :
  freetext_creator_cond ct i = Raise AttributeError ∨
  ∃ b, freetext_creator_cond ct i = Ok b.
Proof.
  unfold freetext_creator_cond. destruct i as [| | | | |d]; cbn [is_dict]; eauto.
  unfold py_get. cbn [mbind result_bind].
  destruct (default (PStr "") (dict_get d "label")); cbn; eauto.
  destruct (ct !! lower s); eauto.
Qed.

Lemma bad_label_raises (ct : gmap string Z) (e : pyval) :
  bad_label e = true → freetext_creator_cond ct e = Raise AttributeError.
Proof.
  destruct e as [| | | | |d]; try done. unfold bad_label, freetext_creator_cond.
  cbn [is_dict py_get mbind result_bind].
  destruct (dict_get d "label") as [v|]; [|done].
  by destruct v.
Qed.

Lemma foldM_app {A B} (f : B → A → result B) (l1 l2 : list A) (b : B) :
  foldM f b (l1 ++ l2) = foldM f b l1 ≫= λ b', foldM f b' l2.
Proof.
  revert b. induction l1 as [|x l1 IH]; intros b; [done|].
  cbn [foldM app]. destruct (f b x) as [b'|e]; [|done].
  cbn [mbind result_bind]. apply IH.
Qed.

Lemma label_in_read (n : pyval) :
  label_in (description_labels ++ label_text_labels) n =
  label_in description_labels n || label_in label_text_labels n.
Proof. unfold label_in. by rewrite existsb_app. Qed.

Lemma note_step_unread (description label_texts : string)
    (d : list (string * pyval)) :
  label_in (description_labels ++ label_text_labels) (PDict d) = false →
  note_step (description, label_texts) (PDict d) = Ok (description, label_texts).
Proof.
  unfold label_in, entry_field. cbn [existsb app description_labels label_text_labels].
  rewrite !orb_false_iff. intros (H1 & H2 & H3 & H4 & _).
  unfold note_step, label_is, py_get. cbn [mbind result_bind].
  by rewrite H1, H2, H3, H4.
Qed.

Lemma note_step_read_ok (description label_texts : string) (n : pyval) :
  note_read_ok n = true →
  note_step (description, label_texts) n =
  Ok (description +:+ space_prefixed (labelled_contents description_labels [n]),
      label_texts +:+ space_prefixed (labelled_contents label_text_labels [n])).
Proof.
  destruct n as [| | | | |d]; try done. unfold note_read_ok.
  destruct (label_in (description_labels ++ label_text_labels) (PDict d)) eqn:Hl.
  - intros Hc. by apply note_step_ok.
  - intros _. rewrite (note_step_unread _ _ d Hl).
    rewrite label_in_read in Hl. apply orb_false_elim in Hl as [H1 H2].
    unfold labelled_contents. cbn [List.filter]. rewrite H1, H2.
    cbn. by rewrite !append_empty_r.
Qed.

Lemma notes_loop_read_ok (notes : list pyval) (description label_texts : string) :
  forallb note_read_ok notes = true →
  foldM note_step (description, label_texts) notes =
  Ok (description +:+ space_prefixed (labelled_contents description_labels notes),
      label_texts +:+ space_prefixed (labelled_contents label_text_labels notes)).
Proof.
  revert description label_texts.
  induction notes as [|n notes IH]; intros description label_texts Hok.
  - simpl. by rewrite !append_empty_r.
  - apply andb_prop in Hok as [Hn Hok].
    rewrite !(labelled_contents_cons _ n notes), !space_prefixed_app,
      <- !append_assoc.
    cbn [foldM]. rewrite (note_step_read_ok _ _ _ Hn).
    cbn [mbind result_bind]. apply (IH _ _ Hok).
Qed.

Lemma note_step_not_object (acc : string * string) (n : pyval) :
  is_dict n = false → note_step acc n = Raise AttributeError.
Proof. destruct acc. by destruct n. Qed.

Lemma note_step_bad_content (acc : string * string) (n : pyval) :
  bad_content n = true → note_step acc n = Raise TypeError.
Proof.
  destruct acc as [description label_texts].
  destruct n as [| | | | |d]; try done. unfold bad_content.
  rewrite andb_true_iff, negb_true_iff. intros [Hl Hc].
  assert (spaced_content (PDict d) = Raise TypeError) as Hs.
  { unfold spaced_content, py_get, absent_or in *. cbn [mbind result_bind].
    destruct (dict_get d "content") as [v|]; [|done]. by destruct v. }
  unfold label_in, entry_field in Hl.
  cbn [existsb app description_labels label_text_labels] in Hl.
  unfold note_step, label_is, py_get. cbn [mbind result_bind].
  rewrite Hs.
  destruct (py_eq_str _ "Description"); [done|].
  destruct (py_eq_str _ "Summary"); [done|].
  destruct (py_eq_str _ "Caption"); [done|].
  destruct (py_eq_str _ "Label Text"); [done|]. done.
Qed.


Lemma one_page (limit : Z) :
  0 < limit → Z.to_nat ((Z.max 0 1 + limit - 1) / limit) = 1%nat.
Proof.
  intros Hlimit. change (Z.max 0 1) with 1.
  replace (1 + limit - 1) with limit by lia.
  by rewrite Z.div_same by lia.
Qed.

(** ** Shard keys *)

Lemma hex_digit_hex_value (c : ascii) :
  is_lower_hex c = true →
  ∃ d, hex_value c = Some d ∧ 0 ≤ d < 16 ∧ hex_digit d = c.
Proof.
  destruct c as [[] [] [] [] [] [] [] []]; try discriminate;
    intros _; eexists; (split; [vm_compute; reflexivity|]);
    (split; [lia | reflexivity]).
Qed.

Lemma hex_fixed_cons (n : nat) (v : Z) :
  0 ≤ v →
  hex_fixed (S n) v =
  String (hex_digit ((v / 16 ^ Z.of_nat n) mod 16))
    (hex_fixed n (v mod 16 ^ Z.of_nat n)).
Proof.
  revert v. induction n as [|n IH]; intros v Hv.
  - cbn [hex_fixed]. change (16 ^ Z.of_nat 0) with 1.
    by rewrite Z.div_1_r.
  - change (hex_fixed (S (S n)) v)
      with (hex_fixed (S n) (v / 16) +:+ String (hex_digit (v mod 16)) "").
    rewrite IH by (apply Z.div_pos; lia).
    rewrite append_cons.
    change (hex_fixed (S n) (v mod 16 ^ Z.of_nat (S n)))
      with (hex_fixed n (v mod 16 ^ Z.of_nat (S n) / 16)
            +:+ String (hex_digit ((v mod 16 ^ Z.of_nat (S n)) mod 16)) "").
    assert (0 < 16 ^ Z.of_nat n) as Hpos by (apply Z.pow_pos_nonneg; lia).
    rewrite Nat2Z.inj_succ, Z.pow_succ_r by lia.
    rewrite Z.div_div by lia.
    rewrite (Z.rem_mul_r v 16 (16 ^ Z.of_nat n)) by lia.
    pose proof (Z.mod_pos_bound v 16 ltac:(lia)) as Hm.
    set (X := (v / 16) mod 16 ^ Z.of_nat n).
    assert ((v mod 16 + 16 * X) / 16 = X) as ->.
    { rewrite (Z.add_comm (v mod 16)), (Z.mul_comm 16 X), Z.div_add_l by lia.
      rewrite Z.div_small by lia. lia. }
    assert ((v mod 16 + 16 * X) mod 16 = v mod 16) as ->.
    { rewrite (Z.mul_comm 16 X), Z.mod_add by lia. apply Z.mod_mod. lia. }
    done.
Qed.

(** A string of lowercase hexadecimal digits is the numeral of its value. *)
Lemma lower_hex_numeral (s : string) :
  all_chars is_lower_hex s = true →
  ∃ v, 0 ≤ v < 16 ^ Z.of_nat (String.length s) ∧
       hex_fixed (String.length s) v = s.
Proof.
  induction s as [|c s IH]; intros Hs.
  - exists 0. split; [simpl; lia | done].
  - cbn [all_chars] in Hs. apply andb_prop in Hs as [Hc Hs].
    destruct (IH Hs) as (v & Hv & Hfix).
    destruct (hex_digit_hex_value c Hc) as (dc & _ & Hdc & Hdigit).
    set (n := String.length s) in *.
    assert (0 < 16 ^ Z.of_nat n) as Hpos by (apply Z.pow_pos_nonneg; lia).
    exists (dc * 16 ^ Z.of_nat n + v).
    change (String.length (String c s)) with (S n).
    rewrite Nat2Z.inj_succ, Z.pow_succ_r by lia.
    split; [nia|].
    rewrite hex_fixed_cons by nia.
    rewrite Z.div_add_l by lia. rewrite (Z.div_small v) by lia.
    rewrite Z.add_0_r, (Z.mod_small dc 16) by lia.
    rewrite Z.add_comm, Z.mod_add by lia. rewrite (Z.mod_small v) by lia.
    by rewrite Hdigit, Hfix.
Qed.

(** ** Further properties of the query parameters *)

(** X1: two successive calls of [_build_query_params] return two different
    dictionaries, both different from [default_params]; after the second
    call the first dictionary still holds the parameters of the first
    call, and [default_params] its items. *)
Theorem build_query_params_independent (off1 off2 : Z)
    (hp1 hp2 uc1 uc2 : option string) (default_params : loc) (s : State)
    (d : gmap string pyval) :
  heap s !! default_params = Some d →
  ∃ (q1 q2 : loc) (s1 s2 : State),
    _build_query_params off1 hp1 default_params uc1 s = Ok (q1, s1) ∧
    _build_query_params off2 hp2 default_params uc2 s1 = Ok (q2, s2) ∧
    q1 ≠ q2 ∧ q1 ≠ default_params ∧ q2 ≠ default_params ∧
    heap s2 !! q1 = Some (request_of d hp1 uc1 off1) ∧
    heap s2 !! q2 = Some (request_of d hp2 uc2 off2) ∧
    heap s2 !! default_params = Some d.
Proof. apply build_twice. Qed.

Lemma build_query_params_independent_witness :
  let s := initial_state PNone in
  heap s !! DEFAULT_PARAMS = Some defaults_no_key ∧
  ∃ (q1 q2 : loc) (s1 s2 : State),
    _build_query_params 0 (Some "0a") DEFAULT_PARAMS None s = Ok (q1, s1) ∧
    _build_query_params 1000 None DEFAULT_PARAMS (Some "NMNH") s1 = Ok (q2, s2) ∧
    q1 ≠ q2 ∧ q1 ≠ DEFAULT_PARAMS ∧ q2 ≠ DEFAULT_PARAMS ∧
    heap s2 !! q1 = Some (request_of defaults_no_key (Some "0a") None 0) ∧
    heap s2 !! q2 = Some (request_of defaults_no_key None (Some "NMNH") 1000) ∧
    heap s2 !! DEFAULT_PARAMS = Some defaults_no_key.
Proof.
  intros s. split; [reflexivity|].
  apply (build_query_params_independent 0 1000 (Some "0a") None None
           (Some "NMNH") DEFAULT_PARAMS s defaults_no_key).
  reflexivity.
Defined.

(** ** Further properties of the pagination loop *)

(** X2: whatever the requester answers, the requests of a sweep that
    returns are the default parameters with the clause of the shard, at
    the offsets [0, limit, 2 * limit, ...] in this order, without gap or
    repetition; there is at least one request, and [DEFAULT_PARAMS] has
    the items it had. *)
Theorem sweep_requests_progression (rt : list ImageArgs → Z)
    (fetch : nat → string → Z → gmap string pyval → pyval)
    (hash_prefix : option string) (endpoint : string) (limit retries : Z)
    (d : gmap string pyval) (fuel : nat) (s : State) :
  heap s !! DEFAULT_PARAMS = Some d →
  match _process_hash_prefix rt fetch fuel hash_prefix endpoint limit retries s with
  | Some (Ok (_, s')) =>
      ∃ n : nat,
        (1 ≤ n)%nat ∧
        requests s' = (requests s ++ sweep_requests d hash_prefix limit n)%list ∧
        heap s' !! DEFAULT_PARAMS = Some d
  | _ => True
  end.
Proof.
  intros Hd.
  destruct (_process_hash_prefix _ _ _ _ _ _ _ _) as [[[v s']|e]|] eqn:Hrun;
    [|done|done].
  by apply (sweep_requests_exact rt fetch hash_prefix endpoint limit retries d
              fuel s v s').
Qed.

Lemma sweep_requests_progression_witness :
  let s := initial_state PNone in
  heap s !! DEFAULT_PARAMS = Some defaults_no_key ∧
  match _process_hash_prefix count_calls (always_page 2500) 4 (Some "00")
          SEARCH_ENDPOINT LIMIT RETRIES s with
  | Some (Ok (_, s')) =>
      ∃ n : nat,
        (1 ≤ n)%nat ∧
        requests s' =
          (requests s ++ sweep_requests defaults_no_key (Some "00") LIMIT n)%list ∧
        heap s' !! DEFAULT_PARAMS = Some defaults_no_key
  | _ => True
  end.
Proof.
  intros s. split; [reflexivity|].
  apply (sweep_requests_progression count_calls (always_page 2500) (Some "00")
           SEARCH_ENDPOINT LIMIT RETRIES defaults_no_key 4 s).
  reflexivity.
Defined.

(** X3: when the page limit is positive and every page that is returned
    reports at most [B] rows and is processed without an exception (the
    reported number may change from page to page, and requests may fail),
    the sweep ends: it makes at least one and at most
    [ceil (max B 1 / limit)] requests and returns a number that is at
    most [max B 1]. *)
Theorem sweep_terminates_bounded (rt : list ImageArgs → Z)
    (fetch : nat → string → Z → gmap string pyval → pyval)
    (hash_prefix : option string) (endpoint : string) (retries limit B : Z)
    (d : gmap string pyval) (s : State) (fuel : nat) :
  0 < limit →
  heap s !! DEFAULT_PARAMS = Some d →
  (∀ n q, fetch n endpoint retries q = PNone ∨
          ∃ r, r ≤ B ∧ page_ok rt r (fetch n endpoint retries q)) →
  let k := Z.to_nat ((Z.max B 1 + limit - 1) / limit) in
  (k < fuel)%nat →
  ∃ (v : Z) (s' : State) (n : nat),
    _process_hash_prefix rt fetch fuel hash_prefix endpoint limit retries s
      = Some (Ok (PInt v, s')) ∧
    v ≤ Z.max B 1 ∧
    (1 ≤ n ≤ k)%nat ∧
    requests s' = (requests s ++ sweep_requests d hash_prefix limit n)%list.
Proof.
  intros Hlimit Hd Hanswers k Hfuel.
  destruct (sweep_bounded_run rt fetch hash_prefix endpoint retries limit B d
              s fuel Hlimit Hd Hanswers Hfuel)
    as (v & s' & n & Hrun & Hv & Hn & Hreq & _).
  by exists v, s', n.
Qed.

Lemma sweep_terminates_bounded_witness :
  let s := initial_state PNone in
  let k := Z.to_nat ((Z.max 2500 1 + LIMIT - 1) / LIMIT) in
  0 < LIMIT ∧ (k < 4)%nat ∧
  ∃ (v : Z) (s' : State) (n : nat),
    _process_hash_prefix count_calls shrinking 4 (Some "00") SEARCH_ENDPOINT
      LIMIT RETRIES s = Some (Ok (PInt v, s')) ∧
    v ≤ Z.max 2500 1 ∧
    (1 ≤ n ≤ k)%nat ∧
    requests s' =
      (requests s ++ sweep_requests defaults_no_key (Some "00") LIMIT n)%list.
Proof.
  intros s k. split; [reflexivity|]. split; [vm_compute; lia|].
  apply (sweep_terminates_bounded count_calls shrinking (Some "00")
           SEARCH_ENDPOINT RETRIES LIMIT 2500 defaults_no_key s 4).
  - reflexivity.
  - reflexivity.
  - intros [|n] q; right.
    + exists 2500. split; [lia | apply page_is_ok].
    + exists 1500. split; [lia | apply page_is_ok].
  - vm_compute; lia.
Defined.

(** X4: when the first page of a shard is returned and is processed
    without an exception, and its [rowCount] is not a number (a null or a
    text, say), the sweep raises [TypeError] at the next test of the
    loop. *)
Theorem sweep_row_count_not_a_number (rt : list ImageArgs → Z)
    (fetch : nat → string → Z → gmap string pyval → pyval)
    (hash_prefix : option string) (endpoint : string) (retries limit : Z)
    (d : gmap string pyval) (s : State) (fuel : nat) (v : pyval) :
  heap s !! DEFAULT_PARAMS = Some d →
  let a := fetch (length (requests s)) endpoint retries
             (request_of d hash_prefix None 0) in
  a ≠ PNone →
  (∀ s1, is_Ok (_process_response_json rt a s1) = true) →
  row_count a = Ok v →
  is_number v = false →
  (2 ≤ fuel)%nat →
  _process_hash_prefix rt fetch fuel hash_prefix endpoint limit retries s
    = Some (Raise TypeError).
Proof.
  intros Hd a Hnotnone Hrows Hcount Hv Hfuel.
  destruct fuel as [|[|fuel]]; [lia|lia|].
  unfold _process_hash_prefix. cbn [pages int_lt].
  change (0 <? 1) with true. cbv beta iota.
  destruct (fetch_page_unfold rt fetch hash_prefix endpoint retries (PInt 0) 0
              (PInt 1) s d Hd) as (s1 & _ & _ & _ & ->).
  cbv zeta. fold a. rewrite (is_none_false _ Hnotnone).
  rewrite M_bind_eq. specialize (Hrows s1).
  destruct (_process_response_json rt a s1) as [[new_total s2]|e]; [|done].
  cbv beta iota zeta. unfold row_count in Hcount.
  destruct (py_get a "response" (PDict [])) as [resp|e]; [|done].
  cbn [mbind result_bind] in Hcount.
  rewrite M_bind_eq, lift_ok. cbv beta iota.
  rewrite M_bind_eq, Hcount, lift_ok. cbv beta iota.
  unfold mret, M_ret. by destruct v.
Qed.

Lemma sweep_row_count_not_a_number_witness :
  let s := initial_state PNone in
  let a := PDict [("response", PDict [("rowCount", PNone); ("rows", PList [])])] in
  heap s !! DEFAULT_PARAMS = Some defaults_no_key ∧
  row_count a = Ok PNone ∧
  _process_hash_prefix count_calls (always a) 2 (Some "00") SEARCH_ENDPOINT
    LIMIT RETRIES s = Some (Raise TypeError).
Proof.
  intros s a. split; [reflexivity|]. split; [reflexivity|].
  apply (sweep_row_count_not_a_number count_calls (always a) (Some "00")
           SEARCH_ENDPOINT RETRIES LIMIT defaults_no_key s 2 PNone).
  - reflexivity.
  - discriminate.
  - intros s1. reflexivity.
  - reflexivity.
  - reflexivity.
  - lia.
Defined.

(** ** The crawl *)

(** X5: when no request fails and every page reports [R] rows and is
    processed without an exception, [main] ends, and its requests are, for
    each of the 256 two-digit prefixes in increasing order, the pages of
    the shard at the offsets [0, LIMIT, ...] below [max R 1]: every page of
    every shard is requested once. *)
Theorem main_covers_every_page (rt : list ImageArgs → Z)
    (fetch : nat → string → Z → gmap string pyval → pyval) (R : Z)
    (d : gmap string pyval) (s : State) (fuel : nat) :
  heap s !! DEFAULT_PARAMS = Some d →
  (∀ n q, fetch n SEARCH_ENDPOINT RETRIES q ≠ PNone ∧
          page_ok rt R (fetch n SEARCH_ENDPOINT RETRIES q)) →
  let k := Z.to_nat ((Z.max R 1 + LIMIT - 1) / LIMIT) in
  (k < fuel)%nat →
  ∃ (prefixes : list string) (s' : State),
    _get_hash_prefixes HASH_PREFIX_LENGTH = Ok prefixes ∧
    length prefixes = 256%nat ∧
    main rt fetch fuel s = Some (Ok (tt, s')) ∧
    requests s' =
      (requests s ++
       flat_map (λ h, sweep_requests d (Some h) LIMIT k) prefixes)%list.
Proof.
  intros Hd Hanswers k Hfuel.
  destruct hash_prefixes_2 as (prefixes & Hp & Hlen).
  destruct (shards_run rt fetch fuel k d False) with (prefixes := prefixes) (s := s)
    as (s' & Hrun & Hreq & _); [|done|].
  - intros h s0 Hd0.
    destruct (sweep_run_exact rt fetch (Some h) SEARCH_ENDPOINT RETRIES LIMIT R
                d s0 fuel) as (s1 & Hrun & Hreq & Hd1); try done.
    + intros q. apply Hanswers.
    + intros n q. right. apply Hanswers.
    + exists (PInt R), s1. repeat split; done.
  - exists prefixes, s'. unfold main. rewrite Hp. done.
Qed.

Lemma main_covers_every_page_witness :
  let s := initial_state PNone in
  let k := Z.to_nat ((Z.max 2500 1 + LIMIT - 1) / LIMIT) in
  heap s !! DEFAULT_PARAMS = Some defaults_no_key ∧
  (k < 4)%nat ∧
  ∃ (prefixes : list string) (s' : State),
    _get_hash_prefixes HASH_PREFIX_LENGTH = Ok prefixes ∧
    length prefixes = 256%nat ∧
    main count_calls (always_page 2500) 4 s = Some (Ok (tt, s')) ∧
    requests s' =
      (requests s ++
       flat_map (λ h, sweep_requests defaults_no_key (Some h) LIMIT k)
         prefixes)%list.
Proof.
  intros s k. split; [reflexivity|]. split; [vm_compute; lia|].
  apply (main_covers_every_page count_calls (always_page 2500) 2500
           defaults_no_key s 4).
  - reflexivity.
  - intros n q. split; [discriminate | apply page_is_ok].
  - vm_compute; lia.
Defined.

(** X6: when every request fails, [main] still ends: it makes one request
    for each of the 256 prefixes, in increasing order, at the offset 0, and
    adds nothing to the store. *)
Theorem main_all_requests_fail (rt : list ImageArgs → Z)
    (fetch : nat → string → Z → gmap string pyval → pyval)
    (d : gmap string pyval) (s : State) (fuel : nat) :
  heap s !! DEFAULT_PARAMS = Some d →
  (∀ n e r q, fetch n e r q = PNone) →
  (2 ≤ fuel)%nat →
  ∃ (prefixes : list string) (s' : State),
    _get_hash_prefixes HASH_PREFIX_LENGTH = Ok prefixes ∧
    length prefixes = 256%nat ∧
    main rt fetch fuel s = Some (Ok (tt, s')) ∧
    requests s' =
      (requests s ++ map (λ h, request_of d (Some h) None 0) prefixes)%list ∧
    added s' = added s.
Proof.
  intros Hd Hfail Hfuel.
  destruct hash_prefixes_2 as (prefixes & Hp & Hlen).
  destruct (shards_run rt fetch fuel 1 d True) with (prefixes := prefixes) (s := s)
    as (s' & Hrun & Hreq & Ha); [|done|].
  - intros h s0 Hd0.
    destruct (sweep_fail_exact rt fetch (Some h) SEARCH_ENDPOINT RETRIES LIMIT
                d s0 fuel) as (s1 & Hrun & Hreq & Hd1 & Ha1); try done.
    exists (PInt 1), s1. repeat split; done.
  - exists prefixes, s'. unfold main. rewrite Hp.
    assert (added s' = added s) by (by apply Ha).
    repeat split; done.
Qed.

Lemma main_all_requests_fail_witness :
  let s := initial_state PNone in
  heap s !! DEFAULT_PARAMS = Some defaults_no_key ∧
  (∀ n e r q, always_fail n e r q = PNone) ∧
  ∃ (prefixes : list string) (s' : State),
    _get_hash_prefixes HASH_PREFIX_LENGTH = Ok prefixes ∧
    length prefixes = 256%nat ∧
    main count_calls always_fail 2 s = Some (Ok (tt, s')) ∧
    requests s' =
      (requests s ++
       map (λ h, request_of defaults_no_key (Some h) None 0) prefixes)%list ∧
    added s' = added s.
Proof.
  intros s. split; [reflexivity|]. split; [reflexivity|].
  apply (main_all_requests_fail count_calls always_fail defaults_no_key s 2);
    [reflexivity | reflexivity | lia].
Defined.

(** ** Sampling *)

(** X7: [_gather_unit_sample] tries the prefixes none, a, aa, ... in this
    order, at the offset 0 and with the clause of the unit.  When the
    answers for the first [j] prefixes report more than 10000 rows and the
    next answer is a failure or reports at most 10000 rows, there are
    [j + 1] requests and this answer decides: it is written to the file
    [unit.json] of the sample directory unless it is a failure or reports
    0 rows, in which case no file is written. *)
Theorem gather_unit_sample_decisive
    (fetch : nat → string → Z → gmap string pyval → pyval)
    (unit sample_dir : string) (retries : Z) (endpoint : string)
    (d : gmap string pyval) (s : State) (j : nat) (hp : option string) :
  heap s !! DEFAULT_PARAMS = Some d →
  SAMPLE_PREFIXES !! j = Some hp →
  (∀ (i : nat) (hp' : option string),
     (i < j)%nat → SAMPLE_PREFIXES !! i = Some hp' →
     ∃ n, 10000 < n ∧
       reports (fetch (length (requests s) + i)%nat endpoint retries
                  (request_of d hp' (Some unit) 0)) n) →
  let a := fetch (length (requests s) + j)%nat endpoint retries
             (request_of d hp (Some unit) 0) in
  (a = PNone ∨ ∃ n, n ≤ 10000 ∧ reports a n) →
  ∃ s' : State,
    _gather_unit_sample fetch unit sample_dir retries endpoint s =
      Ok (match indexed_row_count a with
          | Ok (PInt n) =>
              if n =? 0 then None
              else Some {| file_dir := sample_dir;
                           file_name := unit +:+ ".json";
                           file_json := a |}
          | _ => None
          end, s') ∧
    requests s' =
      (requests s ++ sample_requests d unit (take (S j) SAMPLE_PREFIXES))%list ∧
    added s' = added s.
Proof.
  intros Hd Hj Hmany a Ha. unfold _gather_unit_sample.
  rewrite <- (take_drop_middle SAMPLE_PREFIXES j hp Hj).
  destruct (sample_loop_too_many fetch unit sample_dir retries endpoint d
              (take j SAMPLE_PREFIXES) (hp :: drop (S j) SAMPLE_PREFIXES) s Hd)
    as (s1 & Hd1 & Hr1 & Ha1 & ->).
  { intros i hp' Hi. apply lookup_take_Some in Hi as [Hi Hlt]. by apply Hmany. }
  assert (length (requests s1) = (length (requests s) + j)%nat) as Hlen.
  { rewrite Hr1, length_app. unfold sample_requests.
    rewrite length_map, length_take.
    apply lookup_lt_Some in Hj. lia. }
  destruct (sample_loop_decides fetch unit sample_dir retries endpoint d hp
              (drop (S j) SAMPLE_PREFIXES) s1 Hd1) as (s' & Hrun & Hr & Ha').
  { rewrite Hlen. exact Ha. }
  rewrite Hlen in Hrun. fold a in Hrun.
  exists s'. split; [exact Hrun|]. split; [|congruence].
  rewrite Hr, Hr1, <- app_assoc. f_equal.
  rewrite take_drop_middle by done.
  rewrite (take_S_r _ _ _ Hj). unfold sample_requests.
  by rewrite map_app.
Qed.

Lemma gather_unit_sample_decisive_witness :
  let s := initial_state PNone in
  heap s !! DEFAULT_PARAMS = Some defaults_no_key ∧
  SAMPLE_PREFIXES !! 2%nat = Some (Some "aa") ∧
  ∃ s' : State,
    _gather_unit_sample (narrowing 2) "NMNH" "/tmp/si" RETRIES SEARCH_ENDPOINT s =
      Ok (Some {| file_dir := "/tmp/si"; file_name := "NMNH.json";
                  file_json := count_page 700 |}, s') ∧
    requests s' =
      (requests s ++
       sample_requests defaults_no_key "NMNH" (take 3 SAMPLE_PREFIXES))%list ∧
    added s' = added s.
Proof.
  intros s. split; [reflexivity|]. split; [reflexivity|].
  apply (gather_unit_sample_decisive (narrowing 2) "NMNH" "/tmp/si" RETRIES
           SEARCH_ENDPOINT defaults_no_key s 2 (Some "aa")).
  - reflexivity.
  - reflexivity.
  - intros i hp' Hi _. exists 20000. split; [lia|].
    destruct i as [|[|i]]; [| |lia]; split; (discriminate || reflexivity).
  - right. exists 700. split; [lia|]. split; (discriminate || reflexivity).
Defined.

(** X8: when the answers for all six prefixes report more than 10000 rows,
    [_gather_unit_sample] makes six requests and writes no file. *)
Theorem gather_unit_sample_gives_up
    (fetch : nat → string → Z → gmap string pyval → pyval)
    (unit sample_dir : string) (retries : Z) (endpoint : string)
    (d : gmap string pyval) (s : State) :
  heap s !! DEFAULT_PARAMS = Some d →
  (∀ (i : nat) (hp : option string),
     SAMPLE_PREFIXES !! i = Some hp →
     ∃ n, 10000 < n ∧
       reports (fetch (length (requests s) + i)%nat endpoint retries
                  (request_of d hp (Some unit) 0)) n) →
  ∃ s' : State,
    _gather_unit_sample fetch unit sample_dir retries endpoint s = Ok (None, s') ∧
    requests s' = (requests s ++ sample_requests d unit SAMPLE_PREFIXES)%list ∧
    added s' = added s.
Proof.
  intros Hd Hmany. unfold _gather_unit_sample.
  destruct (sample_loop_too_many fetch unit sample_dir retries endpoint d
              SAMPLE_PREFIXES [] s Hd Hmany) as (s1 & Hd1 & Hr1 & Ha1 & Hrun).
  rewrite app_nil_r in Hrun. rewrite Hrun. by exists s1.
Qed.

Lemma gather_unit_sample_gives_up_witness :
  let s := initial_state PNone in
  heap s !! DEFAULT_PARAMS = Some defaults_no_key ∧
  ∃ s' : State,
    _gather_unit_sample (always (count_page 20000)) "NMNH" "/tmp/si" RETRIES
      SEARCH_ENDPOINT s = Ok (None, s') ∧
    requests s' =
      (requests s ++ sample_requests defaults_no_key "NMNH" SAMPLE_PREFIXES)%list ∧
    added s' = added s.
Proof.
  intros s. split; [reflexivity|].
  apply (gather_unit_sample_gives_up (always (count_page 20000)) "NMNH"
           "/tmp/si" RETRIES SEARCH_ENDPOINT defaults_no_key s).
  - reflexivity.
  - intros i hp _. exists 20000. split; [lia|].
    split; (discriminate || reflexivity).
Defined.

(** X9: the two readers of [rowCount] differ.  For an answer that is an
    object without the key [response], the sampling raises [KeyError]
    (it reads [response_json['response']['rowCount']]), while the sweep
    of a shard takes it for a page of 0 rows: it makes one request and
    returns 0. *)
Theorem answer_without_response
    (rt : list ImageArgs → Z)
    (fetch : nat → string → Z → gmap string pyval → pyval)
    (ad : list (string * pyval)) (unit sample_dir : string)
    (hash_prefix : option string) (retries limit : Z) (endpoint : string)
    (d : gmap string pyval) (s : State) (fuel : nat) :
  heap s !! DEFAULT_PARAMS = Some d →
  (∀ n e r q, fetch n e r q = PDict ad) →
  dict_get ad "response" = None →
  0 < limit →
  (2 ≤ fuel)%nat →
  _gather_unit_sample fetch unit sample_dir retries endpoint s = Raise KeyError ∧
  ∃ s' : State,
    _process_hash_prefix rt fetch fuel hash_prefix endpoint limit retries s
      = Some (Ok (PInt 0, s')) ∧
    requests s' = (requests s ++ [request_of d hash_prefix None 0])%list ∧
    added s' = added s.
Proof.
  intros Hd Hfetch Hresp Hlimit Hfuel. split.
  - unfold _gather_unit_sample, SAMPLE_PREFIXES.
    destruct (sample_step_unfold fetch unit sample_dir retries endpoint None
                [Some "a"; Some "aa"; Some "aaa"; Some "aaaa"; Some "aaaaa"]
                s d Hd) as (s1 & _ & _ & _ & ->).
    cbv zeta. rewrite Hfetch. cbn [is_none].
    rewrite M_bind_eq. unfold indexed_row_count, py_getitem.
    rewrite Hresp. done.
  - destruct fuel as [|[|fuel]]; [lia|lia|].
    unfold _process_hash_prefix. cbn [pages int_lt].
    change (0 <? 1) with true. cbv beta iota.
    destruct (fetch_page_unfold rt fetch hash_prefix endpoint retries (PInt 0) 0
                (PInt 1) s d Hd) as (s1 & _ & Hr1 & Ha1 & ->).
    cbv zeta. rewrite Hfetch. cbn [is_none].
    unfold _process_response_json, py_get. rewrite Hresp.
    cbn [default from_option id]. run_M.
    cbn [dict_get default from_option id py_iter]. run_M.
    cbn [forM]. unfold mret, M_ret. run_M.
    cbn [is_none int_lt dict_get default from_option id].
    destruct (Z.ltb_spec (0 + limit) 0) as [?|_]; [lia|].
    by exists s1.
Qed.

Lemma answer_without_response_witness :
  let s := initial_state PNone in
  heap s !! DEFAULT_PARAMS = Some defaults_no_key ∧
  dict_get [("message", PStr "over rate limit")] "response" = None ∧
  _gather_unit_sample (always (PDict [("message", PStr "over rate limit")]))
    "NMNH" "/tmp/si" RETRIES SEARCH_ENDPOINT s = Raise KeyError ∧
  ∃ s' : State,
    _process_hash_prefix count_calls
      (always (PDict [("message", PStr "over rate limit")])) 2 (Some "00")
      SEARCH_ENDPOINT LIMIT RETRIES s = Some (Ok (PInt 0, s')) ∧
    requests s' = (requests s ++ [request_of defaults_no_key (Some "00") None 0])%list ∧
    added s' = added s.
Proof.
  intros s. split; [reflexivity|]. split; [reflexivity|].
  apply (answer_without_response count_calls
           (always (PDict [("message", PStr "over rate limit")]))
           [("message", PStr "over rate limit")] "NMNH" "/tmp/si" (Some "00")
           RETRIES LIMIT SEARCH_ENDPOINT defaults_no_key s 2);
    [reflexivity | reflexivity | reflexivity | reflexivity | lia].
Defined.

(** ** Pages and rows *)

(** X10: a page whose rows have the expected shape is processed without
    an exception, whatever their number: the records given to the store are
    those of the rows, row after row; a row gives one record for each
    entry of its media list that qualifies, with the landing URL
    (record link, else guid), the title, the creator, the meta data and
    the tags of the row, and no record when it has no media list or a
    null one.  The heap and the requests are as before. *)
Theorem process_response_json_records (rt : list ImageArgs → Z)
    (response_json : pyval) (rows : list pyval) (s : State) :
  page_rows response_json = Ok (PList rows) →
  forallb row_ok rows = true →
  ∃ (total_images : pyval) (s' : State),
    _process_response_json rt response_json s = Ok (total_images, s') ∧
    added s' = (added s ++ flat_map row_records rows)%list ∧
    heap s' = heap s ∧ requests s' = requests s.
Proof.
  intros Hrows Hok.
  destruct (process_response_json_ok rt response_json rows s Hrows Hok)
    as [v Hrun].
  eexists _, _. split; [exact Hrun|]. done.
Qed.

Lemma process_response_json_records_witness :
  let s := initial_state PNone in
  let row := PDict [("title", PStr "T");
                    ("content", PDict
                       [("descriptiveNonRepeating", PDict
                           [("guid", PStr "g");
                            ("online_media", PDict [("media", PList media_mixed)])]);
                        ("indexedStructured", PDict []);
                        ("freetext", PDict [])])] in
  page_rows (page 2500) = Ok (PList [row]) ∧
  forallb row_ok [row] = true ∧
  map foreign_identifier (flat_map row_records [row]) = [PStr "id1"] ∧
  ∃ (total_images : pyval) (s' : State),
    _process_response_json count_calls (page 2500) s = Ok (total_images, s') ∧
    added s' = (added s ++ flat_map row_records [row])%list ∧
    heap s' = heap s ∧ requests s' = requests s.
Proof.
  intros s row. split; [reflexivity|]. split; [reflexivity|].
  split; [reflexivity|].
  apply (process_response_json_records count_calls (page 2500) [row] s);
    reflexivity.
Defined.

(** X11: for a media list of well-formed entries, [_process_image_list]
    returns [None] when no entry qualifies, and otherwise the total that
    the store reports after the record of the last qualifying entry. *)
Theorem process_image_list_total (rt : list ImageArgs → Z)
    (entries : list pyval) (landing_url title_ creator_ : pyval)
    (meta_data_ : gmap string pyval) (tags : pyval) (s : State) :
  forallb media_entry_ok entries = true →
  let records :=
    map (record_of landing_url title_ creator_ meta_data_ tags)
      (List.filter qualifies entries) in
  ∃ s' : State,
    _process_image_list rt (PList entries) landing_url title_ creator_
      meta_data_ tags (PStr ZERO_URL) s =
    Ok (match records with
        | [] => PNone
        | _ => PInt (rt (added s ++ records)%list)
        end, s').
Proof.
  intros Hok records. unfold _process_image_list.
  rewrite M_bind_eq. cbn [py_iter]. rewrite lift_ok.
  rewrite (image_loop_ok _ _ _ _ _ _ _ _ _ Hok). eauto.
Qed.

Lemma process_image_list_total_witness :
  let s := initial_state PNone in
  forallb media_entry_ok media_mixed = true ∧
  ∃ s' : State,
    _process_image_list count_calls (PList media_mixed) PNone PNone PNone ∅
      PNone (PStr ZERO_URL) s = Ok (PInt 1, s').
Proof.
  intros s. split; [reflexivity|].
  apply (process_image_list_total count_calls media_mixed PNone PNone PNone ∅
           PNone s).
  reflexivity.
Defined.

(** ** Further properties of the creator *)





(** X14: one freetext name entry that is an object with a label that is
    not a text makes [_get_creator] raise [AttributeError], whatever the
    other entries and whatever the indexed-structured attribute: the
    comprehension examines every entry. *)
Theorem creator_bad_label_raises (ct : gmap string Z)
    (indexed_structured : pyval) (freetext : list (string * pyval))
    (names : list pyval) :
  default (PList []) (dict_get freetext "name") = PList names →
  existsb bad_label names = true →
  _get_creator indexed_structured (PDict freetext) ct = Raise AttributeError.
Proof.
  intros Hnames Hbad. unfold _get_creator. cbn [py_get]. rewrite Hnames.
  cbn [py_iter mbind result_bind].
  rewrite (filterM_raises _ AttributeError); [done| |].
  - intros x _. apply freetext_creator_cond_cases.
  - apply existsb_exists in Hbad as (x & Hx & Hb).
    exists x. split; [by apply list_elem_of_In | by apply bad_label_raises].
Qed.

Lemma creator_bad_label_raises_witness :
  let names := (names_publisher_creator ++
                [PDict [("label", PInt 5); ("content", PStr "X")]])%list in
  existsb bad_label names = true ∧
  _get_creator (PDict []) (PDict [("name", PList names)]) CREATOR_TYPES
    = Raise AttributeError.
Proof.
  intros names. split; [reflexivity|].
  apply (creator_bad_label_raises CREATOR_TYPES (PDict [])
           [("name", PList names)] names); reflexivity.
Defined.

(** ** Further properties of the meta data *)

(** X15: the content of a note is read only when its label is one of
    Description, Summary, Caption and Label Text: the notes of other
    labels may have a content of any type, and the mapping is the same as
    without them. *)
Theorem meta_data_unread_contents (dnr ft : list (string * pyval))
    (notes : list pyval) :
  default (PList []) (dict_get ft "notes") = PList notes →
  forallb note_read_ok notes = true →
  ∃ md : gmap string pyval,
    _extract_meta_data (PDict dnr) (PDict ft) = Ok md ∧
    md !! "description" =
      present_if_nonempty
        (space_prefixed (labelled_contents description_labels notes)) ∧
    md !! "label_texts" =
      present_if_nonempty
        (space_prefixed (labelled_contents label_text_labels notes)) ∧
    md !! "unit_code" = Some (default PNone (dict_get dnr "unit_code")) ∧
    md !! "data_source" = Some (default PNone (dict_get dnr "data_source")).
Proof.
  intros Hnotes Hok. unfold _extract_meta_data, py_get.
  rewrite Hnotes. cbn [mbind result_bind py_iter].
  rewrite (notes_loop_read_ok notes "" "" Hok). cbn [mbind result_bind].
  change ("" +:+ ?s) with s.
  unfold present_if_nonempty.
  eexists. split; [reflexivity|].
  destruct (nonempty (space_prefixed (labelled_contents description_labels notes)));
    destruct (nonempty (space_prefixed (labelled_contents label_text_labels notes)));
    repeat split;
    repeat (first [ rewrite lookup_insert_eq
                  | rewrite lookup_insert_ne by done
                  | rewrite lookup_empty ]); done.
Qed.

Lemma meta_data_unread_contents_witness :
  let ft := [("notes", PList notes_with_number)] in
  forallb note_read_ok notes_with_number = true ∧
  forallb note_ok notes_with_number = false ∧
  ∃ md : gmap string pyval,
    _extract_meta_data (PDict []) (PDict ft) = Ok md ∧
    md !! "description" =
      present_if_nonempty
        (space_prefixed (labelled_contents description_labels notes_with_number)) ∧
    md !! "label_texts" =
      present_if_nonempty
        (space_prefixed (labelled_contents label_text_labels notes_with_number)) ∧
    md !! "unit_code" = Some (default PNone (dict_get [] "unit_code")) ∧
    md !! "data_source" = Some (default PNone (dict_get [] "data_source")).
Proof.
  intros ft. split; [reflexivity|]. split; [reflexivity|].
  apply (meta_data_unread_contents [] ft notes_with_number); reflexivity.
Defined.

(** X16: after notes that are read without an exception, a note that is
    not an object makes [_extract_meta_data] raise [AttributeError], and a
    note with one of the four labels and a content that is not a text makes
    it raise [TypeError]; this holds whatever the notes that follow and
    whatever the descriptive attributes, which are read after the notes. *)
Theorem meta_data_bad_note_raises (dnr : pyval) (ft : list (string * pyval))
    (l1 : list pyval) (n : pyval) (l2 : list pyval) :
  default (PList []) (dict_get ft "notes") = PList (l1 ++ n :: l2) →
  forallb note_read_ok l1 = true →
  (is_dict n = false →
   _extract_meta_data dnr (PDict ft) = Raise AttributeError) ∧
  (bad_content n = true →
   _extract_meta_data dnr (PDict ft) = Raise TypeError).
Proof.
  intros Hnotes Hok.
  assert (∀ e, (∀ acc, note_step acc n = Raise e) →
               _extract_meta_data dnr (PDict ft) = Raise e) as Hraise.
  { intros e He. unfold _extract_meta_data. cbn [py_get]. rewrite Hnotes.
    cbn [py_iter mbind result_bind].
    rewrite foldM_app, (notes_loop_read_ok l1 "" "" Hok).
    cbn [mbind result_bind foldM]. by rewrite He. }
  split; intros Hn; apply Hraise; intros acc.
  - by apply note_step_not_object.
  - by apply note_step_bad_content.
Qed.

Lemma meta_data_bad_note_raises_witness :
  let bad := PDict [("label", PStr "Summary"); ("content", PNone)] in
  let ft := [("notes", PList (notes_A_B ++ bad :: [])%list)] in
  forallb note_read_ok notes_A_B = true ∧
  bad_content bad = true ∧
  _extract_meta_data (PDict []) (PDict ft) = Raise TypeError.
Proof.
  intros bad ft. split; [reflexivity|]. split; [reflexivity|].
  apply (meta_data_bad_note_raises (PDict []) ft notes_A_B bad []);
    reflexivity.
Defined.

(** ** Further properties of the hash partitioner *)

(** X17: for a prefix length [L >= 1], the strings that
    [_get_hash_prefixes] yields are exactly the strings of [L] lowercase
    hexadecimal digits: no such prefix is missing, so every hash falls in
    a shard. *)
Theorem hash_prefixes_are_all_keys (L : Z) :
  1 ≤ L →
  ∃ l : list string,
    _get_hash_prefixes L = Ok l ∧
    ∀ s : string,
      s ∈ l ↔ String.length s = Z.to_nat L ∧ all_chars is_lower_hex s = true.
Proof.
  intros HL.
  assert (∃ n : nat, L = Z.of_nat n ∧ (1 ≤ n)%nat) as (n & -> & Hn).
  { exists (Z.to_nat L). lia. }
  rewrite Nat2Z.id.
  assert (0 < 16 ^ Z.of_nat n) as Hpos by (apply Z.pow_pos_nonneg; lia).
  eexists. split; [by apply get_hash_prefixes_eq|].
  intros s. rewrite list_elem_of_fmap. split.
  - intros (i & -> & Hi%elem_of_seq).
    split; [apply length_hex_fixed | apply lower_hex_hex_fixed].
  - intros [Hlen Hhex].
    destruct (lower_hex_numeral s Hhex) as (v & Hv & Hfix).
    rewrite Hlen in Hv, Hfix.
    exists (Z.to_nat v). split.
    + rewrite Z2Nat.id by lia. done.
    + apply elem_of_seq. lia.
Qed.

Lemma hash_prefixes_are_all_keys_witness :
  1 ≤ HASH_PREFIX_LENGTH ∧
  ∃ l : list string,
    _get_hash_prefixes HASH_PREFIX_LENGTH = Ok l ∧
    ∀ s : string,
      s ∈ l ↔ String.length s = Z.to_nat HASH_PREFIX_LENGTH ∧
              all_chars is_lower_hex s = true.
Proof.
  split; [unfold HASH_PREFIX_LENGTH; lia|].
  apply (hash_prefixes_are_all_keys HASH_PREFIX_LENGTH).
  unfold HASH_PREFIX_LENGTH; lia.
Defined.

(** X18: for every prefix length [L <= 0], [_get_hash_prefixes] raises
    [ValueError] before it yields anything: ['f' * L] is the empty string,
    which [int] rejects. *)
Theorem hash_prefixes_nonpositive_length (L : Z) :
  L ≤ 0 → _get_hash_prefixes L = Raise ValueError.
Proof.
  intros HL. unfold _get_hash_prefixes, str_repeat.
  replace (Z.to_nat L) with 0%nat by lia. done.
Qed.

Lemma hash_prefixes_nonpositive_length_witness :
  -1 ≤ 0 ∧ _get_hash_prefixes (-1) = Raise ValueError.
Proof.
  split; [lia|]. apply (hash_prefixes_nonpositive_length (-1)). lia.
Defined.
